(** * Hawkbit rollout script: a shallow embedding and its properties

    The development follows [hawkbit_rollout.py] function by function.

    - Values parsed from JSON ([r.json()]) are the inductive type [json];
      numbers are integers, dictionaries are association lists read by
      first match.
    - Python strings are [string]; a character is a code point below 256.
    - The remote server is any state machine [serve] answering one request
      at a time: it either raises (a transport error, an interrupt) or
      returns a response, which carries the time the exchange took
      ([requests.Response.elapsed]): at least one tick of the clock.
    - A run threads a [world]: the server state, the wall clock and the
      chronological trace of requests, sleeps and printed lines.  The
      clock counts ticks, [hz] of them to the second, for any resolution
      [hz]; [time.time()] reads it in seconds, as a rational.  A printed
      line is a [msg] constructor holding the interpolated values of its
      f-string.
    - A raised exception leaves the world as it was when it was raised.
    - The unbounded [while True] loop takes fuel; [OutOfFuel] is reported
      apart from every Python outcome.
    - An interrupt is followed where the script waits for the server (the
      server step raising [KeyboardInterrupt]).  Sleeps and prints
      complete in every run considered, so nothing is stated about an
      interrupt that arrives during one of them. *)

From Stdlib Require Import String Ascii ZArith NArith List Bool Lia DecimalString.
From Stdlib Require DecimalZ QArith.
Import ListNotations.
Local Open Scope string_scope.
Local Open Scope Z_scope.

(** ** Python values and strings *)

#[local] Set Warnings "-register-all".

Inductive json : Type :=
| JNull
| JBool (b : bool)
| JNum (n : Z)
| JStr (s : string)
| JArr (l : list json)
| JObj (m : list (string * json)).

Inductive exn : Type :=
| AttributeError
| TypeError
| ValueError
| JSONDecodeError
| RuntimeError (message : string)
| IndexError
| ConnectionError
| KeyboardInterrupt.

(** [bool(v)]: the truth value Python gives a parsed JSON value. *)
Definition truthy (v : json) : bool :=
  match v with
  | JNull => false
  | JBool b => b
  | JNum n => negb (n =? 0)
  | JStr s => negb (s =? "")%string
  | JArr l => match l with [] => false | _ => true end
  | JObj m => match m with [] => false | _ => true end
  end.

(** [v == s] for a Python [str] [s]. *)
Definition eq_str (v : json) (s : string) : bool :=
  match v with
  | JStr t => (t =? s)%string
  | _ => false
  end.

Fixpoint dict_get (m : list (string * json)) (k : string) : option json :=
  match m with
  | [] => None
  | (k', v) :: m' => if (k' =? k)%string then Some v else dict_get m' k
  end.

(** [v.get(k, d)]; only a [dict] has the method. *)
Definition get_or (v : json) (k : string) (d : json) : exn + json :=
  match v with
  | JObj m => inr (match dict_get m k with Some x => x | None => d end)
  | _ => inl AttributeError
  end.

(** [v.get(k)]. *)
Definition get (v : json) (k : string) : exn + json := get_or v k JNull.

Definition chars (s : string) : list json :=
  map (fun c => JStr (String c EmptyString)) (list_ascii_of_string s).

(** The items a [for] loop (or a generator) draws from [v]: the elements
    of a list, the keys of a dictionary, the characters of a string. *)
Definition iter (v : json) : exn + list json :=
  match v with
  | JArr l => inr l
  | JObj m => inr (map (fun kv => JStr (fst kv)) m)
  | JStr s => inr (chars s)
  | _ => inl TypeError
  end.

(** White space as [str.strip()] sees it, among the code points below 256. *)
Definition is_space (c : ascii) : bool :=
  let n := nat_of_ascii c in
  ((9 <=? n) && (n <=? 13) || (28 <=? n) && (n <=? 32)
   || (n =? 133) || (n =? 160))%nat.

Fixpoint lstrip (s : string) : string :=
  match s with
  | EmptyString => EmptyString
  | String c s' => if is_space c then lstrip s' else s
  end.

Fixpoint rstrip (s : string) : string :=
  match s with
  | EmptyString => EmptyString
  | String c s' =>
      match rstrip s' with
      | EmptyString => if is_space c then EmptyString else String c EmptyString
      | t => String c t
      end
  end.

(** [s.strip()]. *)
Definition strip (s : string) : string := rstrip (lstrip s).

(** [s[-n:]]. *)
Definition last_chars (n : nat) (s : string) : string :=
  substring (String.length s - n) n s.

(** [sep.join(l)]. *)
Fixpoint join (sep : string) (l : list string) : string :=
  match l with
  | [] => ""
  | [x] => x
  | x :: l' => x ++ sep ++ join sep l'
  end.

(** [str(n)] for an [int]. *)
Definition str_of_int (n : Z) : string := NilZero.string_of_int (Z.to_int n).

Definition dquote : string := String "034"%char EmptyString.

(** ** Requests, responses and printed lines *)

Inductive method : Type := GET | POST | PUT.

(** The paths below [session.base_url]. *)
Inductive endpoint : Type :=
| DistributionSets (name version : string)
    (* /rest/v1/distributionsets?name=={name};version=={version} *)
| TargetFilters                  (* /rest/v1/targetfilters *)
| TargetFilter (fid : json)      (* /rest/v1/targetfilters/{fid} *)
| Rollouts                       (* /rest/v1/rollouts *)
| Rollout (rollout_id : json)    (* /rest/v1/rollouts/{rollout_id} *)
| RolloutStart (rollout_id : json) (* /rest/v1/rollouts/{rollout_id}/start *)
| AssignedDS (target_id : string)  (* /rest/v1/targets/{target_id}/assignedDS *)
| InstalledDS (target_id : string) (* /rest/v1/targets/{target_id}/installedDS *)
| Actions (target_id : string).    (* /rest/v1/targets/{target_id}/actions *)

Record request : Type := Req {
  req_method : method;
  req_endpoint : endpoint;
  req_json : option json
}.

Record response : Type := Resp {
  status_code : Z;
  json_body : option json;   (* what r.json() parses, if the body is JSON *)
  text : string;
  elapsed : positive   (* ticks the exchange took: at least one *)
}.

Inductive msg : Type :=
(* get_distribution_set *)
| MsgDsQueryFailed (code : Z)
| MsgDsFound (name version : string) (id : json)
| MsgDsNotFound (name version : string)
(* create_target_filter *)
| MsgFilterCreated (name : string)
| MsgFilterExists (name : string)
| MsgFilterUpdated
| MsgFilterUpdateFailed (code : Z) (body : string)
| MsgFilterIdNotFound
| MsgFilterCreationFailed (code : Z) (body : string)
(* create_rollout *)
| MsgPayload (payload : json)
| MsgRolloutCreated (name : string) (rid : json)
| MsgRolloutExists (name : string)
| MsgRolloutCreationFailed (code : Z) (body : string)
(* start_rollout *)
| MsgRolloutStatus (state : json)
| MsgReadyTimeout
| MsgRolloutStarted (rollout_id : json)
| MsgStartFailed (code : Z) (body : string)
(* monitor_rollout_until_done *)
| MsgMonitoring
| MsgFetchFailed (code : Z)
| MsgProgress (status done failed pending total : json)
| MsgRolloutEnded (status : json)
| MsgMonitorTimeout
| MsgMonitorStopped
(* get_assigned_ds, get_installed_ds, get_firmware_history *)
| MsgAssigned (name version : json)
| MsgNoAssigned
| MsgAssignedError (code : Z)
| MsgInstalled (name version : json)
| MsgNoInstalled
| MsgInstalledError (code : Z)
| MsgHistoryError (code : Z)
| MsgNoHistory
| MsgHistoryHeader (target_id : string)
| MsgRule
| MsgHistoryLine (ds_name ds_version exec_status start_time : json)
(* main *)
| MsgAvailableSequences
| MsgSequence (key : string)
| MsgInvalidSequence (choice : string) (keys : list string)
| MsgSerialSuffix (suffix : string)
| MsgQuery (query : string)
| MsgFilterAborting
| MsgStartingRollout (idx total : Z) (name version : string)
| MsgSkipDsNotFound
| MsgRolloutNotCreated (name : string)
| MsgCheckingTargets
| MsgTarget (target : string).

Inductive event : Type :=
| Request (q : request) (r : exn + response)
| Sleep (secs : Z)
| Print (m : msg).

(** ** Worlds and the run monad *)

Record world (S : Type) : Type := World {
  srv : S;
  hz : positive;   (* resolution of the wall clock: ticks in a second *)
  clock : Z;       (* the wall clock, in ticks *)
  trace : list event
}.
Arguments World {S}.
Arguments srv {S}.
Arguments hz {S}.
Arguments clock {S}.
Arguments trace {S}.

Inductive result (A : Type) : Type :=
| Ret (a : A)
| Exc (e : exn)
| OutOfFuel.
Arguments Ret {A}.
Arguments Exc {A}.
Arguments OutOfFuel {A}.

Definition M (S A : Type) : Type := world S -> result A * world S.

Definition ret {S A} (a : A) : M S A := fun w => (Ret a, w).

Definition raise {S A} (e : exn) : M S A := fun w => (Exc e, w).

Definition bind {S A B} (c : M S A) (k : A -> M S B) : M S B :=
  fun w =>
    match c w with
    | (Ret a, w') => k a w'
    | (Exc e, w') => (Exc e, w')
    | (OutOfFuel, w') => (OutOfFuel, w')
    end.

Declare Scope run_scope.
Delimit Scope run_scope with run.
Notation "x <- c ;; k" := (bind c (fun x => k))
  (at level 61, c at next level, right associativity) : run_scope.
Notation "c ;; k" := (bind c (fun _ => k))
  (at level 61, right associativity) : run_scope.
Local Open Scope run_scope.

(** A pure step that may raise. *)
Definition lift {S A} (x : exn + A) : M S A :=
  match x with
  | inl e => raise e
  | inr a => ret a
  end.

(** [except KeyboardInterrupt: h]. *)
Definition except_interrupt {S A} (c : M S A) (h : M S A) : M S A :=
  fun w =>
    match c w with
    | (Exc KeyboardInterrupt, w') => h w'
    | other => other
    end.

Definition emit {S} (e : event) : M S unit :=
  fun w => (Ret tt, World (srv w) (hz w) (clock w) (trace w ++ [e])).

Definition print {S} (m : msg) : M S unit := emit (Print m).

(** [time.time()]: the wall clock read in seconds. *)
Definition time {S} : M S QArith_base.Q :=
  fun w => (Ret (QArith_base.Qmake (clock w) (hz w)), w).

(** [now - start > timeout] on two readings of [time.time()]. *)
Definition exceeds (now start : QArith_base.Q) (timeout : Z) : bool :=
  negb (QArith_base.Qle_bool (QArith_base.Qminus now start)
          (QArith_base.inject_Z timeout)).

(** [time.sleep(secs)]. *)
Definition sleep {S} (secs : Z) : M S unit :=
  fun w =>
    if secs <? 0 then (Exc ValueError, w)
    else (Ret tt, World (srv w) (hz w) (clock w + secs * Z.pos (hz w))
                    (trace w ++ [Sleep secs])).

(** [r.json()]. *)
Definition json_of {S} (r : response) : M S json :=
  match json_body r with
  | Some v => ret v
  | None => raise JSONDecodeError
  end.

Definition in_codes (c : Z) (l : list Z) : bool := existsb (Z.eqb c) l.

(** ** The script's functions *)

Definition FILTER_NAME : string := "Target_filter".
Definition ROLLOUT_PREFIX : string := "Rollout_Seq".

(** What the inner loop body of [generate_or_query] appends for one
    cell: the cell stripped, unless nothing is left of it. *)
Definition kept (val : string) : list string :=
  let val := strip val in
  if (val =? "")%string then [] else [val].

(** The list [serials] after the two nested loops over the rows that
    [csv.reader] yields. *)
Definition collect_serials (rows : list (list string)) : list string :=
  flat_map (fun row => flat_map kept row) rows.

Definition predicate (s : string) : string :=
  "name==" ++ dquote ++ s ++ dquote.

Definition or_query (serials : list string) : string :=
  "(" ++ join " or " (map predicate serials) ++ ")".

Definition generate_or_query (rows : list (list string))
  : exn + (string * list string) :=
  let serials := collect_serials rows in
  match serials with
  | [] => inl (RuntimeError "CSV empty or unreadable.")
  | _ => inr (or_query serials, serials)
  end.

(** [next((f.get("id") for f in filters if f.get("name") == name), None)] *)
Fixpoint first_filter_id (filters : list json) (name : string) : exn + json :=
  match filters with
  | [] => inr JNull
  | f :: rest =>
      match get f "name" with
      | inl e => inl e
      | inr n => if eq_str n name then get f "id" else first_filter_id rest name
      end
  end.

Definition filter_payload (name query : string) : json :=
  JObj [("name", JStr name); ("query", JStr query)].

Definition rollout_payload (name query : string) (ds_id : json)
    (group_size : Z) (action_type : string) : json :=
  JObj [("name", JStr name);
        ("distributionSetId", ds_id);
        ("targetFilterQuery", JStr query);
        ("actionType", JStr action_type);
        ("amountGroups", JNum group_size);
        ("start", JStr "auto")].

(** [f"{ROLLOUT_PREFIX}_{seq_choice}_{serial_suffix}_{idx}"] *)
Definition rollout_name (seq_choice serial_suffix : string) (idx : Z) : string :=
  ROLLOUT_PREFIX ++ "_" ++ seq_choice ++ "_" ++ serial_suffix ++ "_"
    ++ str_of_int idx.

(** [status in ["finished", "error", "paused"]] *)
Definition is_terminal (status : json) : bool :=
  eq_str status "finished" || eq_str status "error" || eq_str status "paused".

(** [monitor_rollout_until_done] returns [None] on each of its three ways
    out; the value here names the one taken. *)
Inductive monitor_exit : Type := Ended | TimedOut | Interrupted.

Record bundle : Type := Bundle {
  bundle_name : string;
  bundle_version : string
}.

Section Client.

Context {S : Type}.
Variable serve : request -> S -> (exn + response) * S.

(** [session.get], [session.post] and [session.put]: one exchange with the
    server, recorded in the trace; the clock moves by the time it took. *)
Definition http (q : request) : M S response :=
  fun w =>
    let (r, s') := serve q (srv w) in
    match r with
    | inl e => (Exc e, World s' (hz w) (clock w) (trace w ++ [Request q r]))
    | inr p =>
        (Ret p, World s' (hz w) (clock w + Z.pos (elapsed p))
                  (trace w ++ [Request q r]))
    end.

Definition session_get (e : endpoint) : M S response := http (Req GET e None).

Definition session_post (e : endpoint) (payload : option json) : M S response :=
  http (Req POST e payload).

Definition session_put (e : endpoint) (payload : option json) : M S response :=
  http (Req PUT e payload).

(** [data.get("content") or data.get("_embedded", {}).get(second, [])];
    the right operand is evaluated only when the left one is falsy. *)
Definition listing (data : json) (second : string) : exn + json :=
  match get data "content" with
  | inl e => inl e
  | inr c =>
      if truthy c then inr c
      else
        match get_or data "_embedded" (JObj []) with
        | inl e => inl e
        | inr emb => get_or emb second (JArr [])
        end
  end.

(** The [for ds in sets] loop of [get_distribution_set], with the lines
    that follow it. *)
Fixpoint find_distribution_set (sets : list json) (name version : string)
  : M S json :=
  match sets with
  | [] =>
      print (MsgDsNotFound name version) ;;
      ret JNull
  | ds :: rest =>
      n <- lift (get ds "name") ;;
      if eq_str n name then
        v <- lift (get ds "version") ;;
        if eq_str v version then
          id <- lift (get ds "id") ;;
          print (MsgDsFound name version id) ;;
          ret id
        else find_distribution_set rest name version
      else find_distribution_set rest name version
  end.

Definition get_distribution_set (name version : string) : M S json :=
  r <- session_get (DistributionSets name version) ;;
  if negb (status_code r =? 200) then
    print (MsgDsQueryFailed (status_code r)) ;;
    ret JNull
  else
    data <- json_of r ;;
    sets <- lift (listing data "distributionsets") ;;
    items <- lift (iter sets) ;;
    find_distribution_set items name version.

Definition create_target_filter (name query : string) : M S bool :=
  let payload := filter_payload name query in
  r <- session_post TargetFilters (Some payload) ;;
  if in_codes (status_code r) [200; 201] then
    print (MsgFilterCreated name) ;;
    ret true
  else if status_code r =? 409 then
    print (MsgFilterExists name) ;;
    resp <- session_get TargetFilters ;;
    data <- json_of resp ;;
    filters <- lift (listing data "targetfilters") ;;
    items <- lift (iter filters) ;;
    fid <- lift (first_filter_id items name) ;;
    (if truthy fid then
       u <- session_put (TargetFilter fid) (Some payload) ;;
       if in_codes (status_code u) [200; 204] then
         print MsgFilterUpdated ;;
         ret true
       else
         print (MsgFilterUpdateFailed (status_code u) (text u)) ;;
         ret false
     else
       print MsgFilterIdNotFound ;;
       ret false)
  else
    print (MsgFilterCreationFailed (status_code r) (text r)) ;;
    ret false.

Definition create_rollout (name query : string) (ds_id : json)
    (group_size : Z) (action_type : string) : M S json :=
  let payload := rollout_payload name query ds_id group_size action_type in
  print (MsgPayload payload) ;;
  r <- session_post Rollouts (Some payload) ;;
  if in_codes (status_code r) [200; 201] then
    data <- json_of r ;;
    rid <- lift (get data "id") ;;
    print (MsgRolloutCreated name rid) ;;
    ret rid
  else if status_code r =? 409 then
    print (MsgRolloutExists name) ;;
    ret JNull
  else
    print (MsgRolloutCreationFailed (status_code r) (text r)) ;;
    ret JNull.

(** The [for attempt in range(attempts)] loop of [start_rollout]: [true]
    when it is left by [break], [false] when it runs to its [else]. *)
Fixpoint wait_ready (attempts : nat) (rollout_id : json) : M S bool :=
  match attempts with
  | O => ret false
  | Datatypes.S n =>
      r <- session_get (Rollout rollout_id) ;;
      ready <-
        (if status_code r =? 200 then
           data <- json_of r ;;
           state <- lift (get data "status") ;;
           print (MsgRolloutStatus state) ;;
           ret (eq_str state "ready")
         else ret false) ;;
      if ready : bool then ret true
      else
        sleep 5 ;;
        wait_ready n rollout_id
  end.

Definition start_rollout (rollout_id : json) : M S unit :=
  if negb (truthy rollout_id) then ret tt
  else
    ready <- wait_ready 20 rollout_id ;;
    if negb ready then
      print MsgReadyTimeout ;;
      ret tt
    else
      r <- session_post (RolloutStart rollout_id) None ;;
      if in_codes (status_code r) [200; 202] then
        print (MsgRolloutStarted rollout_id)
      else
        print (MsgStartFailed (status_code r) (text r)).

(** The [while True] loop of [monitor_rollout_until_done]. *)
Fixpoint monitor_loop (fuel : nat) (rollout_id : json)
    (interval timeout : Z) (start_time : QArith_base.Q) : M S monitor_exit :=
  match fuel with
  | O => fun w => (OutOfFuel, w)
  | Datatypes.S fuel' =>
      r <- session_get (Rollout rollout_id) ;;
      if negb (status_code r =? 200) then
        print (MsgFetchFailed (status_code r)) ;;
        sleep interval ;;
        monitor_loop fuel' rollout_id interval timeout start_time
      else
        data <- json_of r ;;
        status <- lift (get data "status") ;;
        total <- lift (get_or data "totalTargets" (JNum 0)) ;;
        done <- lift (get_or data "totalTargetsCompleted" (JNum 0)) ;;
        failed <- lift (get_or data "totalTargetsFailed" (JNum 0)) ;;
        pending <- lift (get_or data "totalTargetsPending" (JNum 0)) ;;
        print (MsgProgress status done failed pending total) ;;
        if is_terminal status then
          print (MsgRolloutEnded status) ;;
          ret Ended
        else
          now <- time ;;
          if exceeds now start_time timeout then
            print MsgMonitorTimeout ;;
            ret TimedOut
          else
            sleep interval ;;
            monitor_loop fuel' rollout_id interval timeout start_time
  end.

Definition monitor_rollout_until_done (fuel : nat) (rollout_id : json)
    (interval timeout : Z) : M S monitor_exit :=
  print MsgMonitoring ;;
  start_time <- time ;;
  except_interrupt
    (monitor_loop fuel rollout_id interval timeout start_time)
    (print MsgMonitorStopped ;;
     ret Interrupted).

Definition get_assigned_ds (target_id : string) : M S bool :=
  r <- session_get (AssignedDS target_id) ;;
  if status_code r =? 200 then
    ds <- json_of r ;;
    n <- lift (get ds "name") ;;
    v <- lift (get ds "version") ;;
    print (MsgAssigned n v) ;;
    ret true
  else if status_code r =? 204 then
    print MsgNoAssigned ;;
    ret false
  else
    print (MsgAssignedError (status_code r)) ;;
    ret false.

Definition get_installed_ds (target_id : string) : M S bool :=
  r <- session_get (InstalledDS target_id) ;;
  if status_code r =? 200 then
    ds <- json_of r ;;
    n <- lift (get ds "name") ;;
    v <- lift (get ds "version") ;;
    print (MsgInstalled n v) ;;
    ret true
  else if status_code r =? 204 then
    print MsgNoInstalled ;;
    ret false
  else
    print (MsgInstalledError (status_code r)) ;;
    ret false.

(** The [for act in actions] loop of [get_firmware_history]. *)
Fixpoint print_actions (actions : list json) : M S unit :=
  match actions with
  | [] => ret tt
  | act :: rest =>
      ds <- lift (get_or act "distributionSet" (JObj [])) ;;
      ds_name <- lift (get_or ds "name" (JStr "Unknown")) ;;
      ds_version <- lift (get_or ds "version" (JStr "N/A")) ;;
      st <- lift (get_or act "status" (JObj [])) ;;
      exec_status <- lift (get_or st "execution" (JStr "N/A")) ;;
      start_time <- lift (get_or act "createdAt" (JStr "N/A")) ;;
      print (MsgHistoryLine ds_name ds_version exec_status start_time) ;;
      print_actions rest
  end.

Definition get_firmware_history (target_id : string) : M S unit :=
  r <- session_get (Actions target_id) ;;
  if negb (status_code r =? 200) then
    print (MsgHistoryError (status_code r))
  else
    data <- json_of r ;;
    actions <- lift (get_or data "content" (JArr [])) ;;
    if negb (truthy actions) then
      print MsgNoHistory
    else
      print (MsgHistoryHeader target_id) ;;
      print MsgRule ;;
      items <- lift (iter actions) ;;
      print_actions items ;;
      print MsgRule.

(** The body of the [for idx, ds in enumerate(..., start=1)] loop of
    [main], and the loop. *)
Definition rollout_step (fuel : nat) (seq_choice serial_suffix query : string)
    (poll_interval poll_timeout : Z) (total idx : Z) (ds : bundle) : M S unit :=
  print (MsgStartingRollout idx total (bundle_name ds) (bundle_version ds)) ;;
  ds_id <- get_distribution_set (bundle_name ds) (bundle_version ds) ;;
  if negb (truthy ds_id) then
    print MsgSkipDsNotFound
  else
    let name := rollout_name seq_choice serial_suffix idx in
    rollout_id <- create_rollout name query ds_id 1 "forced" ;;
    if truthy rollout_id then
      start_rollout rollout_id ;;
      monitor_rollout_until_done fuel rollout_id poll_interval poll_timeout ;;
      ret tt
    else
      print (MsgRolloutNotCreated name).

Fixpoint rollout_loop (fuel : nat) (seq_choice serial_suffix query : string)
    (poll_interval poll_timeout : Z) (total idx : Z) (dss : list bundle)
  : M S unit :=
  match dss with
  | [] => ret tt
  | ds :: rest =>
      rollout_step fuel seq_choice serial_suffix query poll_interval
        poll_timeout total idx ds ;;
      rollout_loop fuel seq_choice serial_suffix query poll_interval
        poll_timeout total (idx + 1) rest
  end.

(** The [for target in serials] loop of [main]. *)
Fixpoint check_targets (serials : list string) : M S unit :=
  match serials with
  | [] => ret tt
  | target :: rest =>
      print (MsgTarget target) ;;
      get_assigned_ds target ;;
      get_installed_ds target ;;
      get_firmware_history target ;;
      print MsgRule ;;
      check_targets rest
  end.

Fixpoint print_sequences (keys : list string) : M S unit :=
  match keys with
  | [] => ret tt
  | k :: rest => print (MsgSequence k) ;; print_sequences rest
  end.

Fixpoint lookup_sequence (sequences : list (string * list bundle))
    (k : string) : option (list bundle) :=
  match sequences with
  | [] => None
  | (k', v) :: rest => if (k' =? k)%string then Some v else lookup_sequence rest k
  end.

(** [main], from the point where the configuration has been read:
    [sequences] is [config["sequences"]], [seq_choice] the stripped line
    read from the console, [rows] what [csv.reader] yields for the device
    file, [poll_interval] and [poll_timeout] the polling settings. *)
Definition main (fuel : nat) (sequences : list (string * list bundle))
    (seq_choice : string) (rows : list (list string))
    (poll_interval poll_timeout : Z) : M S unit :=
  print MsgAvailableSequences ;;
  print_sequences (map fst sequences) ;;
  match lookup_sequence sequences seq_choice with
  | None => print (MsgInvalidSequence seq_choice (map fst sequences))
  | Some dss =>
      qs <- lift (generate_or_query rows) ;;
      let (query, serials) := qs : string * list string in
      first <- lift (match serials with
                     | [] => inl IndexError
                     | s0 :: _ => inr s0
                     end) ;;
      let serial_suffix := last_chars 5 first in
      print (MsgSerialSuffix serial_suffix) ;;
      print (MsgQuery query) ;;
      ok <- create_target_filter FILTER_NAME query ;;
      if negb ok then
        print MsgFilterAborting
      else
        rollout_loop fuel seq_choice serial_suffix query poll_interval
          poll_timeout (Z.of_nat (List.length dss)) 1 dss ;;
        print MsgCheckingTargets ;;
        check_targets serials
  end.

End Client.

(** ** Reading a selection expression back

    The script only builds selection expressions.  To state what an
    expression selects, [extract_ids] reads one back: an opening
    parenthesis, then predicates [name=="..."] separated by [ or ], then
    the closing parenthesis.  The text of an identifier ends at the first
    double quote. *)

Fixpoint strip_prefix (p s : string) : option string :=
  match p, s with
  | EmptyString, _ => Some s
  | String a p', String b s' =>
      if (a =? b)%char then strip_prefix p' s' else None
  | String _ _, EmptyString => None
  end.

Fixpoint until_quote (s : string) : option (string * string) :=
  match s with
  | EmptyString => None
  | String c s' =>
      if (c =? "034")%char then Some (EmptyString, s')
      else
        match until_quote s' with
        | Some (a, b) => Some (String c a, b)
        | None => None
        end
  end.

Fixpoint parse_predicates (fuel : nat) (s : string) : option (list string) :=
  match fuel with
  | O => None
  | Datatypes.S fuel' =>
      match strip_prefix ("name==" ++ dquote) s with
      | None => None
      | Some s1 =>
          match until_quote s1 with
          | None => None
          | Some (id, s2) =>
              if (s2 =? ")")%string then Some [id]
              else
                match strip_prefix " or " s2 with
                | None => None
                | Some s3 => option_map (cons id) (parse_predicates fuel' s3)
                end
          end
      end
  end.

Definition extract_ids (q : string) : option (list string) :=
  match strip_prefix "(" q with
  | None => None
  | Some s => parse_predicates (String.length s) s
  end.

Fixpoint no_quote (s : string) : bool :=
  match s with
  | EmptyString => true
  | String c s' => negb (c =? "034")%char && no_quote s'
  end.

(** ** Vocabulary for the statements *)

(** The items the loop of [get_distribution_set] (with [second] the key
    "distributionsets") or the generator of [create_target_filter] (key
    "targetfilters") runs over, when the response has such a list. *)
Definition returned_list (r : response) (second : string) : option (list json) :=
  match json_body r with
  | None => None
  | Some data =>
      match listing data second with
      | inl _ => None
      | inr sets =>
          match iter sets with
          | inl _ => None
          | inr items => Some items
          end
      end
  end.

(** [ds.get("name") == name and ds.get("version") == version] holds of a
    dictionary [ds]. *)
Definition matches (name version : string) (ds : json) : bool :=
  match ds with
  | JObj m =>
      match dict_get m "name", dict_get m "version" with
      | Some n, Some v => eq_str n name && eq_str v version
      | _, _ => false
      end
  | _ => false
  end.

(** An entry as the server lists it: a dictionary with an "id" that is
    not null. *)
Definition has_id (ds : json) : bool :=
  match ds with
  | JObj m =>
      match dict_get m "id" with
      | Some JNull | None => false
      | Some _ => true
      end
  | _ => false
  end.

(** [f.get("name") == name] holds of a dictionary [f]. *)
Definition named (name : string) (f : json) : bool :=
  match f with
  | JObj m =>
      match dict_get m "name" with
      | Some n => eq_str n name
      | None => false
      end
  | _ => false
  end.

Definition is_dict (v : json) : bool :=
  match v with
  | JObj _ => true
  | _ => false
  end.

Definition id_of (ds : json) : json :=
  match get ds "id" with
  | inr v => v
  | inl _ => JNull
  end.

(** An entry the loop of [get_distribution_set] goes past: a dictionary
    whose name or version is not the requested one. *)
Definition passed_over (name version : string) (ds : json) : bool :=
  is_dict ds && negb (matches name version ds).

(** Events of the activation and monitoring loops. *)
Definition is_poll (e : event) : bool :=
  match e with
  | Request (Req GET (Rollout _) _) _ => true
  | _ => false
  end.

Definition is_start (e : event) : bool :=
  match e with
  | Request (Req POST (RolloutStart _) _) _ => true
  | _ => false
  end.

(** A request that raised instead of being answered. *)
Definition raised (ev : event) : bool :=
  match ev with
  | Request _ (inl _) => true
  | _ => false
  end.

Definition is_sleep (e : event) : bool :=
  match e with
  | Sleep _ => true
  | _ => false
  end.

(** The status a poll reads: the "status" entry of a 200 reply. *)
Definition status_read (r : response) : option json :=
  if status_code r =? 200 then
    match json_body r with
    | Some data =>
        match get data "status" with
        | inr st => Some st
        | inl _ => None
        end
    | None => None
    end
  else None.

(** A poll that reads status "ready". *)
Definition observes_ready (e : event) : bool :=
  match e with
  | Request (Req GET (Rollout _) _) (inr r) =>
      match status_read r with
      | Some st => eq_str st "ready"
      | None => false
      end
  | _ => false
  end.

(** A poll that reads one of the three statuses ending the monitoring. *)
Definition reads_terminal (e : event) : bool :=
  match e with
  | Request (Req GET (Rollout _) _) (inr r) =>
      match status_read r with
      | Some st => is_terminal st
      | None => false
      end
  | _ => false
  end.

(** Every poll of rollout [rid] is answered with status 200 and a JSON
    object, whatever state the server is in. *)
Definition always_200 {S : Type}
    (serve : request -> S -> (exn + response) * S) (rid : json) : Prop :=
  forall s, exists r s' m,
    serve (Req GET (Rollout rid) None) s = (inr r, s')
    /\ status_code r = 200
    /\ json_body r = Some (JObj m).

(** The last line [monitor_rollout_until_done] prints after a poll that
    read status [st]. *)
Definition last_line (st : json) : msg :=
  if is_terminal st then MsgRolloutEnded st else MsgMonitorTimeout.

Definition exit_for (st : json) : monitor_exit :=
  if is_terminal st then Ended else TimedOut.

Definition count (p : event -> bool) (t : list event) : nat :=
  List.length (filter p t).

(** The events [wait_ready] can add for rollout [rid]. *)
Definition wait_event (rid : json) (e : event) : Prop :=
  e = Sleep 5
  \/ (exists r, e = Request (Req GET (Rollout rid) None) r)
  \/ (exists st, e = Print (MsgRolloutStatus st)).

(** [emits P c]: whatever the world, running [c] only adds events, and
    every event it adds satisfies [P]. *)
Definition emits {S A : Type} (P : event -> Prop) (c : M S A) : Prop :=
  forall w, exists added,
    trace (snd (c w)) = (trace w ++ added)%list /\ Forall P added.

(** Every request among the events is an allowed one. *)
Definition requests_in (allowed : request -> Prop) (e : event) : Prop :=
  match e with
  | Request q _ => allowed q
  | _ => True
  end.

(** A request that, if it creates a rollout, carries a payload that is
    [ok]. *)
Definition creates_as (ok : json -> Prop) (q : request) : Prop :=
  match q with
  | Req POST Rollouts (Some payload) => ok payload
  | Req POST Rollouts None => False
  | _ => True
  end.

(** [adds G c]: whatever the world, running [c] only adds events, and
    the list of events it adds satisfies [G]. *)
Definition adds {S A : Type} (G : list event -> Prop) (c : M S A) : Prop :=
  forall w, exists added,
    trace (snd (c w)) = (trace w ++ added)%list /\ G added.

(** The line that opens the body of the sequence loop of [main], and a
    request that creates a rollout. *)
Definition starting (e : event) : bool :=
  match e with
  | Print (MsgStartingRollout _ _ _ _) => true
  | _ => false
  end.

Definition is_create (e : event) : bool :=
  match e with
  | Request (Req POST Rollouts _) _ => true
  | _ => false
  end.

(** An event that neither opens a loop body nor creates a rollout. *)
Definition aside (e : event) : Prop :=
  is_create e = false /\ starting e = false.

(** An event that opens no loop body and, if it creates a rollout, does
    so with [payload]. *)
Definition creating (payload : json) (e : event) : Prop :=
  starting e = false /\ requests_in (creates_as (fun p => p = payload)) e.

(** What one run of the loop body for position [idx] and bundle [ds] adds
    after its opening line: no other opening line, and rollout-creation
    requests only for that position, with an identifier that was found
    for that bundle before. *)
Definition step_events (key suffix query : string) (idx : Z) (ds : bundle)
    (seg : list event) : Prop :=
  Forall (fun e => starting e = false) seg
  /\ forall mid payload r after,
       seg = (mid ++ Request (Req POST Rollouts payload) r :: after)%list ->
       exists ds_id,
         In (Print (MsgDsFound (bundle_name ds) (bundle_version ds) ds_id)) mid
         /\ payload
            = Some (rollout_payload (rollout_name key suffix idx) query ds_id
                      1 "forced").

(** [placed key suffix query total base dss added]: every rollout-creation
    request among [added] follows the opening line of some bundle of
    [dss], the one at offset [k], with no other opening line in between
    and [k] opening lines before; it carries the name made for position
    [base + k] and an identifier found for that bundle. *)
Definition placed (key suffix query : string) (total base : Z)
    (dss : list bundle) (added : list event) : Prop :=
  forall before payload r after,
    added = (before ++ Request (Req POST Rollouts payload) r :: after)%list ->
    exists k ds ds_id front mid,
      nth_error dss k = Some ds
      /\ before
         = (front
              ++ Print (MsgStartingRollout (base + Z.of_nat k) total
                          (bundle_name ds) (bundle_version ds))
              :: mid)%list
      /\ count starting front = k
      /\ Forall (fun e => starting e = false) mid
      /\ In (Print (MsgDsFound (bundle_name ds) (bundle_version ds) ds_id)) mid
      /\ payload
         = Some (rollout_payload (rollout_name key suffix (base + Z.of_nat k))
                   query ds_id 1 "forced").

(** The world once request [q] has been answered by [r], leaving the
    server in state [s'], and the world once a line has been printed. *)
Definition answered {S : Type} (w : world S) (q : request) (r : response)
    (s' : S) : world S :=
  World s' (hz w) (clock w + Z.pos (elapsed r)) (trace w ++ [Request q (inr r)]).

Definition printed {S : Type} (w : world S) (m : msg) : world S :=
  World (srv w) (hz w) (clock w) (trace w ++ [Print m]).

Definition slept {S : Type} (w : world S) (secs : Z) : world S :=
  World (srv w) (hz w) (clock w + secs * Z.pos (hz w)) (trace w ++ [Sleep secs]).

(** ** Servers for concrete runs *)

(** A server that answers from a script, whatever is asked: the replies
    in order, then transport errors. *)
Definition scripted (q : request) (script : list (exn + response))
  : (exn + response) * list (exn + response) :=
  match script with
  | [] => (inl ConnectionError, [])
  | r :: rest => (r, rest)
  end.

(** A reference server for the interface the script consumes (the table
    of operations and response codes in the specification): a catalogue
    of distribution sets, named target filters and named rollouts.
    Creating under a name already taken answers 409 and changes nothing;
    an update replaces the filter stored under the given id.  A rollout is
    created "ready", is "running" once started, and is "finished" after
    its first status report as running. *)
Record ds_row : Type := DsRow {
  d_id : Z;
  d_name : string;
  d_version : string
}.

Record filter_row : Type := FilterRow {
  f_id : Z;
  f_name : string;
  f_query : string
}.

Record rollout_row : Type := RolloutRow {
  ro_id : Z;
  ro_name : string;
  ro_status : string
}.

Record hawkbit : Type := Hawkbit {
  catalog : list ds_row;
  filters : list filter_row;
  rollouts : list rollout_row;
  next_id : Z
}.

Definition str_field (payload : option json) (k : string) : option string :=
  match payload with
  | Some (JObj m) =>
      match dict_get m k with
      | Some (JStr s) => Some s
      | _ => None
      end
  | _ => None
  end.

Definition filter_json (f : filter_row) : json :=
  JObj [("id", JNum (f_id f)); ("name", JStr (f_name f));
        ("query", JStr (f_query f))].

Definition ds_json (d : ds_row) : json :=
  JObj [("id", JNum (d_id d)); ("name", JStr (d_name d));
        ("version", JStr (d_version d))].

Definition rollout_json (r : rollout_row) : json :=
  JObj [("id", JNum (ro_id r)); ("name", JStr (ro_name r));
        ("status", JStr (ro_status r))].

Definition reply (code : Z) (body : option json) : exn + response :=
  inr (Resp code body "" 1).

Definition filter_taken (n : string) (l : list filter_row) : bool :=
  existsb (fun f => (f_name f =? n)%string) l.

Definition rollout_taken (n : string) (l : list rollout_row) : bool :=
  existsb (fun r => (ro_name r =? n)%string) l.

Definition replace_filter (id : Z) (n qy : string) (l : list filter_row)
  : list filter_row :=
  map (fun f => if f_id f =? id then FilterRow id n qy else f) l.

Definition set_status (id : Z) (st : string) (l : list rollout_row)
  : list rollout_row :=
  map (fun r => if ro_id r =? id then RolloutRow id (ro_name r) st else r) l.

Definition hawkbit_serve (q : request) (h : hawkbit)
  : (exn + response) * hawkbit :=
  match req_method q, req_endpoint q with
  | GET, DistributionSets n v =>
      (reply 200
         (Some (JObj [("content",
            JArr (map ds_json
                    (filter (fun d => (d_name d =? n)%string
                                      && (d_version d =? v)%string)
                            (catalog h))))])), h)
  | POST, TargetFilters =>
      match str_field (req_json q) "name", str_field (req_json q) "query" with
      | Some n, Some qy =>
          if filter_taken n (filters h) then (reply 409 None, h)
          else
            let f := FilterRow (next_id h) n qy in
            (reply 201 (Some (filter_json f)),
             Hawkbit (catalog h) (filters h ++ [f]) (rollouts h) (next_id h + 1))
      | _, _ => (reply 400 None, h)
      end
  | GET, TargetFilters =>
      (reply 200 (Some (JObj [("content", JArr (map filter_json (filters h)))])), h)
  | PUT, TargetFilter (JNum id) =>
      match str_field (req_json q) "name", str_field (req_json q) "query" with
      | Some n, Some qy =>
          if existsb (fun f => f_id f =? id) (filters h) then
            (reply 200 (Some (filter_json (FilterRow id n qy))),
             Hawkbit (catalog h) (replace_filter id n qy (filters h))
               (rollouts h) (next_id h))
          else (reply 404 None, h)
      | _, _ => (reply 400 None, h)
      end
  | POST, Rollouts =>
      match str_field (req_json q) "name" with
      | Some n =>
          if rollout_taken n (rollouts h) then (reply 409 None, h)
          else
            let r := RolloutRow (next_id h) n "ready" in
            (reply 201 (Some (rollout_json r)),
             Hawkbit (catalog h) (filters h) (rollouts h ++ [r]) (next_id h + 1))
      | None => (reply 400 None, h)
      end
  | GET, Rollout (JNum id) =>
      match find (fun r => ro_id r =? id) (rollouts h) with
      | Some r =>
          (reply 200 (Some (rollout_json r)),
           if (ro_status r =? "running")%string then
             Hawkbit (catalog h) (filters h)
               (set_status id "finished" (rollouts h)) (next_id h)
           else h)
      | None => (reply 404 None, h)
      end
  | POST, RolloutStart (JNum id) =>
      match find (fun r => ro_id r =? id) (rollouts h) with
      | Some r =>
          if (ro_status r =? "ready")%string then
            (reply 200 None,
             Hawkbit (catalog h) (filters h)
               (set_status id "running" (rollouts h)) (next_id h))
          else (reply 400 None, h)
      | None => (reply 404 None, h)
      end
  | GET, AssignedDS _ => (reply 204 None, h)
  | GET, InstalledDS _ => (reply 204 None, h)
  | GET, Actions _ => (reply 200 (Some (JObj [("content", JArr [])])), h)
  | _, _ => (reply 404 None, h)
  end.

(** The ids in use lie from 1 up to the next one to be given out. *)
Definition hawkbit_wf (h : hawkbit) : Prop :=
  1 <= next_id h
  /\ Forall (fun f => 1 <= f_id f < next_id h) (filters h)
  /\ Forall (fun r => 1 <= ro_id r < next_id h) (rollouts h).

Definition end_to_end : hawkbit := Hawkbit [DsRow 42 "fw" "1.1"] [] [] 1.

Definition start_world {S : Type} (s : S) : world S := World s 1000 0 [].

Definition ds_entry (name version : string) (id : Z) : json :=
  JObj [("id", JNum id); ("name", JStr name); ("version", JStr version)].

Definition ok_json (v : json) : exn + response := inr (Resp 200 (Some v) "" 1).

(** A server that gives the same answer to every request. *)
Definition steady (r : response) (q : request) (s : unit)
  : (exn + response) * unit :=
  (inr r, s).

Definition running_slowly : response :=
  Resp 200 (Some (JObj [("status", JStr "running")])) "" 100000.

Definition running_3 : response :=
  Resp 200 (Some (JObj [("status", JStr "running"); ("totalTargets", JNum 2)])) "" 3.

Definition never_ready : response :=
  Resp 200 (Some (JObj [("content", JArr [ds_entry "fw" "1.1" 42]);
                        ("id", JNum 7); ("status", JStr "creating")])) "" 1.

(** The worlds a sequence step goes through against a server whose
    rollout never becomes ready: after the bundle is resolved, after the
    rollout is created, after the activation has given up. *)
Definition resolved_world : world unit :=
  snd (get_distribution_set (steady never_ready) "fw" "1.1"
         (printed (start_world tt) (MsgStartingRollout 1 1 "fw" "1.1"))).

Definition created_world : world unit :=
  snd (create_rollout (steady never_ready) (rollout_name "1.1" "00001" 1) "(q)"
         (JNum 42) 1 "forced" resolved_world).

Definition given_up_world : world unit :=
  snd (start_rollout (steady never_ready) (JNum 7) created_world).

Definition accepted_202 : list (exn + response) :=
  [inr (Resp 202 (Some (JObj [("id", JNum 7)])) "accepted" 1)].

(** A server that answers [r] to the first [n] requests and is
    interrupted while it answers the next. *)
Definition interrupted_after (r : response) (q : request) (n : nat)
  : (exn + response) * nat :=
  match n with
  | O => (inl KeyboardInterrupt, O)
  | Datatypes.S n' => (inr r, n')
  end.

Definition two_versions : list (exn + response) :=
  [ok_json (JObj [("content", JArr [ds_entry "fw" "1.0" 41; ds_entry "fw" "1.1" 42])])].

(** A 200 reply whose first exact match carries no id, a later one does;
    and a 200 reply whose body is not JSON. *)
Definition match_without_id : list json :=
  [JObj [("name", JStr "fw"); ("version", JStr "1.1")]; ds_entry "fw" "1.1" 9].

Definition listing_without_id : list (exn + response) :=
  [ok_json (JObj [("content", JArr match_without_id)])].

Definition not_json_200 : list (exn + response) :=
  [inr (Resp 200 None "<html>" 1)].

(** ** Vocabulary for further properties *)

(** The requests of a trace, in the order they were sent. *)
Definition requests_of (t : list event) : list request :=
  flat_map (fun e => match e with Request q _ => [q] | _ => [] end) t.

(** [v.get(k, d)] for a dictionary [v]. *)
Definition field_or (v : json) (k : string) (d : json) : json :=
  match v with
  | JObj m => match dict_get m k with Some x => x | None => d end
  | _ => d
  end.

(** The line [get_firmware_history] prints for action [act]. *)
Definition history_line (act : json) : msg :=
  MsgHistoryLine
    (field_or (field_or act "distributionSet" (JObj [])) "name" (JStr "Unknown"))
    (field_or (field_or act "distributionSet" (JObj [])) "version" (JStr "N/A"))
    (field_or (field_or act "status" (JObj [])) "execution" (JStr "N/A"))
    (field_or act "createdAt" (JStr "N/A")).

(** An action as the server lists it: a dictionary whose "distributionSet"
    and "status" entries, when present, are dictionaries. *)
Definition action_ok (act : json) : bool :=
  is_dict act
  && is_dict (field_or act "distributionSet" (JObj []))
  && is_dict (field_or act "status" (JObj [])).

(** The three status queries [main] makes for one device. *)
Definition device_queries (target : string) : list request :=
  [Req GET (AssignedDS target) None;
   Req GET (InstalledDS target) None;
   Req GET (Actions target) None].

(** Every status query about a device is answered, and never with 200. *)
Definition status_queries_fail {S : Type}
    (serve : request -> S -> (exn + response) * S) : Prop :=
  forall target q s,
    In q (device_queries target) ->
    exists r s', serve q s = (inr r, s') /\ status_code r <> 200.

(** Every poll of rollout [rid] is answered, and never with 200. *)
Definition never_200 {S : Type}
    (serve : request -> S -> (exn + response) * S) (rid : json) : Prop :=
  forall s, exists r s',
    serve (Req GET (Rollout rid) None) s = (inr r, s')
    /\ status_code r <> 200.

Definition unavailable : response := Resp 503 None "unavailable" 1.

Definition embedded_listing : list (exn + response) :=
  [ok_json
     (JObj [("content", JArr []);
            ("_embedded",
             JObj [("distributionsets", JArr [ds_entry "fw" "1.1" 42])])])].

Definition history_reply : response :=
  Resp 200
    (Some (JObj [("content",
                  JArr [JObj [("distributionSet",
                               JObj [("name", JStr "fw"); ("version", JStr "1.1")]);
                              ("status", JObj [("execution", JStr "closed")]);
                              ("createdAt", JNum 1700000000)];
                        JObj []])]))
    "" 1.

Definition one_sequence : list (string * list bundle) :=
  [("1.1", [Bundle "fw" "1.1"])].

(** An identifier holding a double quote: the one-identifier list made
    of it and the two-identifier list of "a" and "b" are given the same
    expression, so no reading of the expression returns both lists. *)
Definition quoted_serial : string :=
  "a" ++ dquote ++ " or name==" ++ dquote ++ "b".

(** * Properties *)

(** ** Selection Query Builder *)

Lemma strip_prefix_app (p s : string) : strip_prefix p (p ++ s) = Some s.
Proof.
  induction p as [|a p IH]; simpl.
  - reflexivity.
  - rewrite Ascii.eqb_refl. exact IH.
Qed.

Lemma until_quote_app (id rest : string) :
  no_quote id = true ->
  until_quote (id ++ dquote ++ rest) = Some (id, rest).
Proof.
  induction id as [|c id IH]; intros H.
  - reflexivity.
  - cbn [no_quote] in H. apply andb_true_iff in H. destruct H as [Hc Hid].
    apply negb_true_iff in Hc.
    cbn [append until_quote]. rewrite Hc, (IH Hid). reflexivity.
Qed.

Lemma string_app_assoc (a b c : string) : ((a ++ b) ++ c = a ++ (b ++ c))%string.
Proof. induction a as [|x a IH]; simpl; [reflexivity | now rewrite IH]. Qed.

Lemma string_app_length (a b : string) :
  String.length (a ++ b) = (String.length a + String.length b)%nat.
Proof. induction a as [|x a IH]; simpl; [reflexivity | now rewrite IH]. Qed.

Lemma predicate_unfold (s rest : string) :
  (predicate s ++ rest = ("name==" ++ dquote) ++ s ++ dquote ++ rest)%string.
Proof.
  unfold predicate. rewrite !string_app_assoc. reflexivity.
Qed.

Lemma parse_predicates_join (serials : list string) :
  forall fuel,
    serials <> [] ->
    (List.length serials <= fuel)%nat ->
    Forall (fun s => no_quote s = true) serials ->
    parse_predicates fuel (join " or " (map predicate serials) ++ ")")
    = Some serials.
Proof.
  induction serials as [|s rest IH]; intros fuel Hne Hlen Hq.
  - congruence.
  - destruct fuel as [|fuel]; [simpl in Hlen; lia|].
    inversion Hq as [|? ? Hs Hrest]; subst.
    destruct rest as [|s' rest'].
    + cbn [map join parse_predicates].
      rewrite predicate_unfold, strip_prefix_app, (until_quote_app _ _ Hs).
      reflexivity.
    + change (join " or " (map predicate (s :: s' :: rest')))
        with (predicate s ++ " or " ++ join " or " (map predicate (s' :: rest')))%string.
      cbn [parse_predicates].
      rewrite string_app_assoc, predicate_unfold, strip_prefix_app.
      rewrite (until_quote_app _ _ Hs).
      rewrite string_app_assoc.
      change ((" or " ++ ?x)%string) with (String " " (String "o" (String "r" (String " " x)))).
      cbn [String.eqb Ascii.eqb Bool.eqb].
      change (String " " (String "o" (String "r" (String " " ?x)))) with (" or " ++ x)%string.
      rewrite strip_prefix_app.
      rewrite IH; [reflexivity | discriminate | simpl in *; lia | assumption].
Qed.

Lemma join_length_ge (sep : string) (l : list string) :
  Forall (fun x => (1 <= String.length x)%nat) l ->
  (List.length l <= String.length (join sep l))%nat.
Proof.
  induction l as [|x l IH]; intros H.
  - simpl. lia.
  - inversion H as [|? ? Hx Hl]; subst.
    destruct l as [|y l'].
    + simpl. lia.
    + change (join sep (x :: y :: l')) with (x ++ sep ++ join sep (y :: l'))%string.
      rewrite !string_app_length. specialize (IH Hl). simpl List.length in *. lia.
Qed.

Lemma predicate_length (s : string) : (1 <= String.length (predicate s))%nat.
Proof. unfold predicate. rewrite string_app_length. simpl. lia. Qed.

Lemma extract_or_query (serials : list string) :
  serials <> [] ->
  Forall (fun s => no_quote s = true) serials ->
  extract_ids (or_query serials) = Some serials.
Proof.
  intros Hne Hq. unfold or_query, extract_ids.
  change ("(" ++ ?x)%string with (String "(" x).
  cbn [strip_prefix]. rewrite Ascii.eqb_refl.
  apply parse_predicates_join; try assumption.
  rewrite string_app_length.
  pose proof (join_length_ge " or " (map predicate serials)) as Hl.
  rewrite length_map in Hl.
  assert (Forall (fun x => (1 <= String.length x)%nat) (map predicate serials)) as Hp.
  { apply Forall_forall. intros x Hx. apply in_map_iff in Hx.
    destruct Hx as [y [<- _]]. apply predicate_length. }
  specialize (Hl Hp). lia.
Qed.

Lemma keep_cells_nil (row : list string) :
  flat_map kept row = [] <-> Forall (fun v => strip v = "") row.
Proof.
  induction row as [|v row IH]; cbn [flat_map].
  - split; intros; constructor.
  - unfold kept at 1. cbv zeta.
    destruct (String.eqb_spec (strip v) "") as [E|E]; simpl.
    + rewrite IH. split; intros H.
      * constructor; assumption.
      * inversion H; assumption.
    + split; intros H.
      * discriminate.
      * inversion H; contradiction.
Qed.

Lemma collect_serials_nil (rows : list (list string)) :
  collect_serials rows = [] <-> Forall (fun v => strip v = "") (concat rows).
Proof.
  unfold collect_serials.
  induction rows as [|row rows IH]; cbn [flat_map concat].
  - split; intros; constructor.
  - rewrite Forall_app, <- IH, <- keep_cells_nil. split.
    + intros H. apply app_eq_nil in H. exact H.
    + intros [H1 H2]. rewrite H1, H2. reflexivity.
Qed.

Lemma generate_or_query_ok (rows : list (list string)) :
  collect_serials rows <> [] ->
  generate_or_query rows
  = inr (or_query (collect_serials rows), collect_serials rows).
Proof.
  unfold generate_or_query. destruct (collect_serials rows); [congruence|reflexivity].
Qed.

(** C7 (as amended): when no kept identifier contains a double quote, the
    expression [generate_or_query] returns is the parenthesised
    OR-expression of one exact-match predicate per identifier, and reading
    the quoted identifiers back from it gives the kept identifiers
    themselves, in order and with their duplicates. *)
Theorem or_query_round_trip (rows : list (list string)) :
  collect_serials rows <> [] ->
  Forall (fun s => no_quote s = true) (collect_serials rows) ->
  exists q,
    generate_or_query rows = inr (q, collect_serials rows)
    /\ q = ("(" ++ join " or " (map predicate (collect_serials rows)) ++ ")")%string
    /\ extract_ids q = Some (collect_serials rows).
Proof.
  intros Hne Hq. exists (or_query (collect_serials rows)).
  split; [apply generate_or_query_ok; assumption|].
  split; [reflexivity|].
  apply extract_or_query; assumption.
Qed.

Lemma or_query_round_trip_witness :
  exists q,
    generate_or_query [[" SN00001 "; ""]; ["SN00002"; "SN00001"]]
    = inr (q, ["SN00001"; "SN00002"; "SN00001"])
    /\ extract_ids q = Some ["SN00001"; "SN00002"; "SN00001"].
Proof.
  destruct (or_query_round_trip [[" SN00001 "; ""]; ["SN00002"; "SN00001"]])
    as [q [H1 [_ H3]]].
  - vm_compute. discriminate.
  - vm_compute. repeat constructor.
  - exists q. split; [exact H1 | exact H3].
Defined.

(** C7 (as stated) fails: the builder accepts [quoted_serial], and the
    identifiers read back from its expression are not the supplied ones. *)
Lemma or_query_quote_counterexample :
  generate_or_query [[quoted_serial]]
  = inr (or_query ["a"; "b"], [quoted_serial])
  /\ extract_ids (or_query [quoted_serial]) = Some ["a"; "b"]
  /\ ~ (exists f : string -> list string,
          f (or_query [quoted_serial]) = [quoted_serial]
          /\ f (or_query ["a"; "b"]) = ["a"; "b"]).
Proof.
  split; [reflexivity|]. split; [reflexivity|].
  intros [f [H1 H2]].
  change (or_query [quoted_serial]) with (or_query ["a"; "b"]) in H1.
  rewrite H1 in H2. discriminate.
Qed.

(** C8: [generate_or_query] raises its error exactly when every cell is
    blank after stripping (in particular when there is no cell), and
    returns an expression when some cell is not. *)
Theorem generate_or_query_empty_iff (rows : list (list string)) :
  (generate_or_query rows = inl (RuntimeError "CSV empty or unreadable.")
   <-> Forall (fun v => strip v = "") (concat rows))
  /\ ((exists e, generate_or_query rows = inl e)
      <-> Forall (fun v => strip v = "") (concat rows))
  /\ (Exists (fun v => strip v <> "") (concat rows)
      <-> exists q, generate_or_query rows = inr (q, collect_serials rows)).
Proof.
  rewrite <- collect_serials_nil.
  assert (Exists (fun v => strip v <> "") (concat rows)
          <-> collect_serials rows <> []) as HE.
  { rewrite collect_serials_nil. split.
    - intros HEx HAll. apply Exists_exists in HEx. destruct HEx as [v [Hin Hv]].
      rewrite Forall_forall in HAll. apply Hv, HAll, Hin.
    - intros HN. apply neg_Forall_Exists_neg in HN; [exact HN|].
      intros v. destruct (string_dec (strip v) ""); [left|right]; assumption. }
  rewrite HE. unfold generate_or_query.
  destruct (collect_serials rows) as [|s l].
  - repeat split; try reflexivity; try congruence.
    + intros _. eexists; reflexivity.
    + intros [q H]. discriminate.
  - repeat split; try congruence.
    + intros [e H]; discriminate.
    + intros _. eexists; reflexivity.
Qed.

(** ** Running the monad *)

Section ClientFacts.

Context {S : Type}.
Variable serve : request -> S -> (exn + response) * S.

Lemma http_response (q : request) (w : world S) (p : response) (s' : S) :
  serve q (srv w) = (inr p, s') ->
  http serve q w = (Ret p, answered w q p s').
Proof. intros H. unfold http. rewrite H. reflexivity. Qed.

Lemma bind_http {A : Type} (q : request) (k : response -> M S A)
    (w : world S) (p : response) (s' : S) :
  serve q (srv w) = (inr p, s') ->
  bind (http serve q) k w = k p (answered w q p s').
Proof. intros H. unfold bind. rewrite (http_response _ _ _ _ H). reflexivity. Qed.

Lemma bind_http_exn {A : Type} (q : request) (k : response -> M S A)
    (w : world S) (e : exn) (s' : S) :
  serve q (srv w) = (inl e, s') ->
  bind (http serve q) k w
  = (Exc e, World s' (hz w) (clock w) (trace w ++ [Request q (inl e)])).
Proof. intros H. unfold bind, http. rewrite H. reflexivity. Qed.

Lemma eq_str_true (v : json) (s : string) : eq_str v s = true <-> v = JStr s.
Proof.
  destruct v; simpl; try (split; [discriminate | congruence]).
  rewrite String.eqb_eq. split; congruence.
Qed.

Lemma matches_get (name version : string) (ds : json) :
  matches name version ds = true
  <-> get ds "name" = inr (JStr name) /\ get ds "version" = inr (JStr version).
Proof.
  unfold matches, get, get_or. destruct ds; try (split; [discriminate | intros [H _]; discriminate]).
  destruct (dict_get m "name") as [n|], (dict_get m "version") as [v|].
  - rewrite andb_true_iff, !eq_str_true. split; intros [H1 H2]; split; congruence.
  - split; [discriminate | intros [_ H]; discriminate].
  - split; [discriminate | intros [H _]; discriminate].
  - split; [discriminate | intros [H _]; discriminate].
Qed.

Lemma bind_print {A : Type} (m : msg) (k : unit -> M S A) (w : world S) :
  bind (print m) k w = k tt (printed w m).
Proof. reflexivity. Qed.

Lemma bind_ret {A B : Type} (a : A) (k : A -> M S B) (w : world S) :
  bind (ret a) k w = k a w.
Proof. reflexivity. Qed.

Lemma bind_ret_fun {A B : Type} (a : A) (k : A -> M S B) : bind (ret a) k = k a.
Proof. reflexivity. Qed.

Lemma bind_raise_fun {A B : Type} (e : exn) (k : A -> M S B) :
  bind (raise e) k = raise e.
Proof. reflexivity. Qed.

Lemma bind_bind {A B C : Type} (c : M S A) (f : A -> M S B) (k : B -> M S C)
    (w : world S) :
  bind (bind c f) k w = bind c (fun x => bind (f x) k) w.
Proof. unfold bind. destruct (c w) as [[a|e|] w']; reflexivity. Qed.

Lemma bind_raise {A B : Type} (e : exn) (k : A -> M S B) (w : world S) :
  bind (raise e) k w = (Exc e, w).
Proof. reflexivity. Qed.

Lemma bind_sleep {A : Type} (secs : Z) (k : unit -> M S A) (w : world S) :
  0 <= secs ->
  bind (sleep secs) k w = k tt (slept w secs).
Proof.
  intros H. unfold bind, sleep.
  assert ((secs <? 0) = false) as -> by (apply Z.ltb_ge; exact H).
  reflexivity.
Qed.

Lemma bind_time {A : Type} (k : QArith_base.Q -> M S A) (w : world S) :
  bind time k w = k (QArith_base.Qmake (clock w) (hz w)) w.
Proof. reflexivity. Qed.

(** Two readings of one clock are compared tick by tick. *)
Lemma exceeds_ticks (a b : Z) (h : positive) (timeout : Z) :
  exceeds (QArith_base.Qmake a h) (QArith_base.Qmake b h) timeout
  = (a - b >? timeout * Z.pos h).
Proof.
  unfold exceeds, QArith_base.Qle_bool, QArith_base.Qminus, QArith_base.Qplus,
    QArith_base.Qopp, QArith_base.inject_Z.
  cbn [QArith_base.Qnum QArith_base.Qden]. rewrite Pos2Z.inj_mul.
  pose proof (Pos2Z.is_pos h) as Hh.
  destruct (Z.leb_spec ((a * Z.pos h + - b * Z.pos h) * 1)
              (timeout * (Z.pos h * Z.pos h)));
    destruct (Z.gtb_spec (a - b) (timeout * Z.pos h)); cbn [negb];
    try reflexivity; exfalso; nia.
Qed.

Lemma in_codes_true (c : Z) (l : list Z) : in_codes c l = true <-> In c l.
Proof.
  unfold in_codes. rewrite existsb_exists. split.
  - intros [x [Hin Hx]]. apply Z.eqb_eq in Hx. subst. exact Hin.
  - intros Hin. exists c. split; [exact Hin | apply Z.eqb_refl].
Qed.

(** ** Identifier Resolver *)

Lemma find_distribution_set_found (name version : string) (items : list json) :
  forall (w : world S) (id : json),
    fst (find_distribution_set items name version w) = Ret id ->
    id <> JNull ->
    exists ds, In ds items /\ matches name version ds = true /\ get ds "id" = inr id.
Proof.
  induction items as [|ds rest IH]; intros w id Hrun Hid.
  - simpl in Hrun. congruence.
  - cbn [find_distribution_set] in Hrun. unfold bind at 1 in Hrun.
    destruct ds as [| | | | |m];
      try (simpl in Hrun; discriminate).
    unfold lift at 1, get at 1, get_or at 1, ret at 1 in Hrun.
    destruct (eq_str (match dict_get m "name" with Some x => x | None => JNull end) name) eqn:En.
    + unfold bind at 1, lift at 1, get at 1, get_or at 1, ret at 1 in Hrun.
      destruct (eq_str (match dict_get m "version" with Some x => x | None => JNull end) version) eqn:Ev.
      * simpl in Hrun. inversion Hrun; subst.
        exists (JObj m). split; [left; reflexivity|].
        split; [|reflexivity].
        apply matches_get. apply eq_str_true in En, Ev.
        unfold get, get_or. rewrite En, Ev. split; reflexivity.
      * destruct (IH _ _ Hrun Hid) as [d [Hin Hd]].
        exists d. split; [right; exact Hin | exact Hd].
    + destruct (IH _ _ Hrun Hid) as [d [Hin Hd]].
      exists d. split; [right; exact Hin | exact Hd].
Qed.

Lemma find_distribution_set_first (name version : string) (items : list json) :
  Forall (fun ds => has_id ds = true) items ->
  forall w : world S,
    fst (find_distribution_set items name version w)
    = Ret (match find (matches name version) items with
           | Some ds => id_of ds
           | None => JNull
           end).
Proof.
  induction 1 as [|ds rest Hds _ IH]; intros w.
  - reflexivity.
  - cbn [find_distribution_set find].
    destruct ds as [| | | | |m]; try discriminate.
    unfold bind at 1, lift at 1, get at 1, get_or at 1, ret at 1.
    cbn [matches].
    destruct (dict_get m "name") as [n|]; [|apply IH].
    destruct (eq_str n name).
    + unfold bind at 1, lift at 1, get at 1, get_or at 1, ret at 1.
      destruct (dict_get m "version") as [v|]; [|apply IH].
      destruct (eq_str v version); [reflexivity | apply IH].
    + destruct (dict_get m "version"); apply IH.
Qed.

Lemma get_distribution_set_200 (name version : string) (w : world S)
    (r : response) (s' : S) (items : list json) :
  serve (Req GET (DistributionSets name version) None) (srv w) = (inr r, s') ->
  status_code r = 200 ->
  returned_list r "distributionsets" = Some items ->
  get_distribution_set serve name version w
  = find_distribution_set items name version
      (answered w (Req GET (DistributionSets name version) None) r s').
Proof.
  intros Hs Hc Hl. unfold get_distribution_set, session_get.
  unfold bind at 1. rewrite (http_response _ _ _ _ Hs), Hc.
  cbn [Z.eqb Pos.eqb negb].
  unfold returned_list in Hl. unfold json_of.
  destruct (json_body r) as [data|]; [|discriminate].
  unfold bind at 1, ret at 1.
  destruct (listing data "distributionsets") as [e|sets]; [discriminate|].
  unfold bind at 1, lift at 1, ret at 1.
  destruct (iter sets) as [e|l]; [discriminate|].
  inversion Hl; subst. reflexivity.
Qed.

Lemma has_id_not_null (ds : json) : has_id ds = true -> id_of ds <> JNull.
Proof.
  unfold has_id, id_of, get, get_or. destruct ds; try discriminate.
  destruct (dict_get m "id") as [v|]; [|discriminate].
  destruct v; discriminate.
Qed.

Lemma find_distribution_set_scan (name version : string) (pre rest : list json)
    (w : world S) :
  Forall (fun d => passed_over name version d = true) pre ->
  find_distribution_set (pre ++ rest)%list name version w
  = find_distribution_set rest name version w.
Proof.
  induction 1 as [|ds pre Hds _ IH]; [reflexivity|].
  cbn [app find_distribution_set].
  unfold passed_over in Hds. apply andb_true_iff in Hds. destruct Hds as [Hd Hm].
  destruct ds as [| | | | |m]; try discriminate.
  apply negb_true_iff in Hm. cbn [matches] in Hm.
  unfold bind at 1, lift at 1, get at 1, get_or at 1, ret at 1.
  destruct (dict_get m "name") as [n|]; [|exact IH].
  destruct (eq_str n name); [|exact IH].
  unfold bind at 1, lift at 1, get at 1, get_or at 1, ret at 1.
  destruct (dict_get m "version") as [v|]; [|exact IH].
  cbn [andb] in Hm. rewrite Hm. exact IH.
Qed.

Lemma find_distribution_set_match (name version : string) (ds : json)
    (post : list json) (w : world S) :
  matches name version ds = true ->
  find_distribution_set (ds :: post) name version w
  = (Ret (id_of ds), printed w (MsgDsFound name version (id_of ds))).
Proof.
  intros Hm. cbn [find_distribution_set].
  destruct ds as [| | | | |m]; try discriminate.
  cbn [matches] in Hm.
  unfold bind at 1, lift at 1, get at 1, get_or at 1, ret at 1.
  destruct (dict_get m "name") as [n|]; [|discriminate].
  destruct (dict_get m "version") as [v|] eqn:Hv; [|discriminate].
  apply andb_true_iff in Hm. destruct Hm as [Hn Hve]. rewrite Hn.
  unfold bind at 1, lift at 1, get at 1, get_or at 1, ret at 1.
  rewrite Hv, Hve. reflexivity.
Qed.

Lemma get_distribution_set_no_list (name version : string) (w : world S)
    (r : response) (s' : S) :
  serve (Req GET (DistributionSets name version) None) (srv w) = (inr r, s') ->
  status_code r = 200 ->
  returned_list r "distributionsets" = None ->
  exists e, get_distribution_set serve name version w
            = (Exc e, answered w (Req GET (DistributionSets name version) None) r s').
Proof.
  intros Hs Hc Hl. unfold get_distribution_set, session_get.
  rewrite (bind_http _ _ _ _ _ Hs), Hc.
  change (negb (200 =? 200)) with false. cbv iota.
  unfold returned_list in Hl. unfold json_of.
  destruct (json_body r) as [data|]; [|eexists; reflexivity].
  rewrite bind_ret.
  destruct (listing data "distributionsets") as [e|sets];
    [eexists; reflexivity|].
  unfold lift at 1. rewrite bind_ret.
  destruct (iter sets) as [e|l]; [eexists; reflexivity | discriminate].
Qed.

(** C6 (as amended): on a non-200 reply [get_distribution_set] returns
    [None] and raises nothing.  On a 200 reply that holds a list, the
    first entry with both the requested name and the requested version
    decides, whatever other versions of the same name the list holds and
    whatever follows: the call returns the "id" entry of that entry, which
    is [None] when it has none.  It returns [None] when it has gone past
    every entry, and raises [AttributeError] at an entry that is not a
    dictionary.  So an identifier that is returned is that of an exact
    match, and when every entry carries an id an identifier is returned
    exactly when some entry matches.  A 200 reply that holds no list
    (a body that is not JSON, not an object, or with something else in
    the place of the list) raises. *)
Theorem get_distribution_set_exact_match (name version : string)
    (w : world S) (r : response) (s' : S) :
  let run := get_distribution_set serve name version w in
  serve (Req GET (DistributionSets name version) None) (srv w) = (inr r, s') ->
  (status_code r <> 200 -> fst run = Ret JNull)
  /\ (status_code r = 200 ->
      (returned_list r "distributionsets" = None -> exists e, fst run = Exc e)
      /\ (forall items,
            returned_list r "distributionsets" = Some items ->
            (forall pre ds post,
               items = (pre ++ ds :: post)%list ->
               Forall (fun d => passed_over name version d = true) pre ->
               (matches name version ds = true -> fst run = Ret (id_of ds))
               /\ (is_dict ds = false -> fst run = Exc AttributeError))
            /\ (Forall (fun d => passed_over name version d = true) items ->
                fst run = Ret JNull)
            /\ (forall id,
                  fst run = Ret id -> id <> JNull ->
                  exists ds, In ds items /\ matches name version ds = true
                             /\ id_of ds = id)
            /\ (Forall (fun ds => has_id ds = true) items ->
                ((exists id, fst run = Ret id /\ id <> JNull)
                 <-> Exists (fun ds => matches name version ds = true) items)
                /\ (forall ds, find (matches name version) items = Some ds ->
                    fst run = Ret (id_of ds))))).
Proof.
  intros run Hs. subst run. split.
  - intros Hc. unfold get_distribution_set, session_get.
    unfold bind at 1. rewrite (http_response _ _ _ _ Hs).
    apply Z.eqb_neq in Hc. rewrite Hc. reflexivity.
  - intros Hc. split.
    + intros Hl.
      destruct (get_distribution_set_no_list _ _ _ _ _ Hs Hc Hl) as [e He].
      exists e. rewrite He. reflexivity.
    + intros items Hl.
      rewrite (get_distribution_set_200 _ _ _ _ _ _ Hs Hc Hl).
      set (w1 := answered w _ r s').
      split; [|split; [|split]].
      * intros pre ds post -> Hpre.
        rewrite (find_distribution_set_scan _ _ _ _ _ Hpre). split.
        -- intros Hm. rewrite (find_distribution_set_match _ _ _ _ _ Hm).
           reflexivity.
        -- intros Hd. destruct ds; try discriminate; reflexivity.
      * intros Hall. rewrite <- (app_nil_r items).
        rewrite (find_distribution_set_scan _ _ _ _ _ Hall). reflexivity.
      * intros id Hr Hid.
        destruct (find_distribution_set_found _ _ _ _ _ Hr Hid)
          as [ds [Hin [Hm Hg]]].
        exists ds. split; [exact Hin|]. split; [exact Hm|].
        unfold id_of. rewrite Hg. reflexivity.
      * intros Hwf. rewrite (find_distribution_set_first _ _ _ Hwf).
        split.
        -- split.
           ++ intros [id [Hr Hid]].
              destruct (find (matches name version) items) as [ds|] eqn:Hf.
              ** apply find_some in Hf. apply Exists_exists. exists ds. exact Hf.
              ** congruence.
           ++ intros HE. apply Exists_exists in HE. destruct HE as [ds [Hin Hm]].
              destruct (find (matches name version) items) as [d|] eqn:Hf.
              ** exists (id_of d). split; [reflexivity|].
                 apply has_id_not_null. apply find_some in Hf.
                 rewrite Forall_forall in Hwf. apply Hwf, Hf.
              ** exfalso. pose proof (find_none _ _ Hf _ Hin). congruence.
        -- intros ds Hf. rewrite Hf. reflexivity.
Qed.

(** ** Device Status Inspector *)

(** C9: [get_assigned_ds] and [get_installed_ds] return [True] only on a
    200 reply.  On 204 and on every other status they return the same
    [False]; what differs is the line printed. *)
Theorem device_queries_true_only_on_200 (target_id : string) (w : world S) :
  (forall r s',
     serve (Req GET (AssignedDS target_id) None) (srv w) = (inr r, s') ->
     let w' := answered w (Req GET (AssignedDS target_id) None) r s' in
     (fst (get_assigned_ds serve target_id w) = Ret true -> status_code r = 200)
     /\ (status_code r = 204 ->
         get_assigned_ds serve target_id w = (Ret false, printed w' MsgNoAssigned))
     /\ (status_code r <> 200 -> status_code r <> 204 ->
         get_assigned_ds serve target_id w
         = (Ret false, printed w' (MsgAssignedError (status_code r)))))
  /\ (forall r s',
     serve (Req GET (InstalledDS target_id) None) (srv w) = (inr r, s') ->
     let w' := answered w (Req GET (InstalledDS target_id) None) r s' in
     (fst (get_installed_ds serve target_id w) = Ret true -> status_code r = 200)
     /\ (status_code r = 204 ->
         get_installed_ds serve target_id w = (Ret false, printed w' MsgNoInstalled))
     /\ (status_code r <> 200 -> status_code r <> 204 ->
         get_installed_ds serve target_id w
         = (Ret false, printed w' (MsgInstalledError (status_code r))))).
Proof.
  split; intros r s' Hs w'.
  - unfold get_assigned_ds, session_get.
    rewrite (bind_http _ _ _ _ _ Hs). fold w'.
    destruct (Z.eqb_spec (status_code r) 200) as [E|E].
    + repeat split; intros; lia.
    + destruct (Z.eqb_spec (status_code r) 204) as [E'|E'].
      * repeat split; intros; first [lia | reflexivity | discriminate].
      * repeat split; intros; first [lia | reflexivity | discriminate].
  - unfold get_installed_ds, session_get.
    rewrite (bind_http _ _ _ _ _ Hs). fold w'.
    destruct (Z.eqb_spec (status_code r) 200) as [E|E].
    + repeat split; intros; lia.
    + destruct (Z.eqb_spec (status_code r) 204) as [E'|E'].
      * repeat split; intros; first [lia | reflexivity | discriminate].
      * repeat split; intros; first [lia | reflexivity | discriminate].
Qed.

(** ** Rollout Creator *)

Lemma create_rollout_outcomes_any_server (name query : string) (ds_id : json)
    (group_size : Z) (action_type : string) (w : world S) (r : response)
    (s' : S) :
  let payload := rollout_payload name query ds_id group_size action_type in
  let q := Req POST Rollouts (Some payload) in
  let w' := answered (printed w (MsgPayload payload)) q r s' in
  serve q (srv w) = (inr r, s') ->
  (status_code r = 200 \/ status_code r = 201 ->
   forall data rid,
     json_body r = Some data ->
     get data "id" = inr rid ->
     create_rollout serve name query ds_id group_size action_type w
     = (Ret rid, printed w' (MsgRolloutCreated name rid)))
  /\ (status_code r = 409 ->
      create_rollout serve name query ds_id group_size action_type w
      = (Ret JNull, printed w' (MsgRolloutExists name)))
  /\ (status_code r <> 200 -> status_code r <> 201 -> status_code r <> 409 ->
      create_rollout serve name query ds_id group_size action_type w
      = (Ret JNull,
         printed w' (MsgRolloutCreationFailed (status_code r) (text r)))).
Proof.
  intros payload q w' Hs.
  unfold create_rollout, session_post. fold payload. rewrite bind_print.
  change (srv w) with (srv (printed w (MsgPayload payload))) in Hs.
  fold q. rewrite (bind_http _ _ _ _ _ Hs). fold w'.
  repeat split.
  - intros Hc data rid Hb Hid.
    assert (in_codes (status_code r) [200; 201] = true) as ->.
    { apply in_codes_true. simpl. lia. }
    unfold json_of. rewrite Hb, bind_ret. unfold lift. rewrite Hid, bind_ret.
    reflexivity.
  - intros Hc. rewrite Hc. reflexivity.
  - intros H1 H2 H3.
    assert (in_codes (status_code r) [200; 201] = false) as ->.
    { apply not_true_is_false. rewrite in_codes_true. simpl. lia. }
    apply Z.eqb_neq in H3. rewrite H3. reflexivity.
Qed.

(** ** Selection Registrar *)

Lemma first_filter_id_find (name : string) (items : list json) :
  Forall (fun f => is_dict f = true) items ->
  first_filter_id items name
  = inr (match find (named name) items with
         | Some f => id_of f
         | None => JNull
         end).
Proof.
  induction 1 as [|f rest Hf _ IH].
  - reflexivity.
  - destruct f as [| | | | |m]; try discriminate.
    cbn [first_filter_id find named]. unfold get at 1, get_or at 1.
    destruct (dict_get m "name") as [n|].
    + destruct (eq_str n name); [|exact IH].
      unfold id_of. destruct (get (JObj m) "id") eqn:E; [discriminate E | reflexivity].
    + exact IH.
Qed.

Lemma create_target_filter_outcomes_any_server (name query : string)
    (w : world S) (r : response) (s1 : S) :
  let payload := filter_payload name query in
  let q := Req POST TargetFilters (Some payload) in
  let w1 := answered w q r s1 in
  serve q (srv w) = (inr r, s1) ->
  (status_code r = 200 \/ status_code r = 201 ->
   create_target_filter serve name query w
   = (Ret true, printed w1 (MsgFilterCreated name)))
  /\ (status_code r <> 200 -> status_code r <> 201 -> status_code r <> 409 ->
      create_target_filter serve name query w
      = (Ret false,
         printed w1 (MsgFilterCreationFailed (status_code r) (text r))))
  /\ (status_code r = 409 ->
      forall resp s2 items fid,
        serve (Req GET TargetFilters None) s1 = (inr resp, s2) ->
        returned_list resp "targetfilters" = Some items ->
        first_filter_id items name = inr fid ->
        let w2 := answered (printed w1 (MsgFilterExists name))
                    (Req GET TargetFilters None) resp s2 in
        (truthy fid = false ->
         create_target_filter serve name query w
         = (Ret false, printed w2 MsgFilterIdNotFound))
        /\ (truthy fid = true ->
            forall u s3,
              serve (Req PUT (TargetFilter fid) (Some payload)) s2 = (inr u, s3) ->
              let w3 := answered w2 (Req PUT (TargetFilter fid) (Some payload))
                          u s3 in
              (status_code u = 200 \/ status_code u = 204 ->
               create_target_filter serve name query w
               = (Ret true, printed w3 MsgFilterUpdated))
              /\ (status_code u <> 200 -> status_code u <> 204 ->
                  create_target_filter serve name query w
                  = (Ret false,
                     printed w3 (MsgFilterUpdateFailed (status_code u) (text u)))))).
Proof.
  intros payload q w1 Hs.
  remember (create_target_filter serve name query w) as run eqn:Hrun.
  unfold create_target_filter, session_post, session_get, session_put in Hrun.
  fold payload in Hrun. fold q in Hrun.
  rewrite (bind_http _ _ _ _ _ Hs) in Hrun. fold w1 in Hrun.
  split; [|split].
  - intros Hc.
    assert (in_codes (status_code r) [200; 201] = true) as E.
    { apply in_codes_true. simpl. lia. }
    rewrite E in Hrun. exact Hrun.
  - intros H1 H2 H3.
    assert (in_codes (status_code r) [200; 201] = false) as E.
    { apply not_true_is_false. rewrite in_codes_true. simpl. lia. }
    apply Z.eqb_neq in H3. rewrite E, H3 in Hrun. exact Hrun.
  - intros Hc resp s2 items fid Hg Hl Hf.
    set (w2 := answered (printed w1 (MsgFilterExists name))
                 (Req GET TargetFilters None) resp s2).
    rewrite Hc in Hrun.
    change (in_codes 409 [200; 201]) with false in Hrun.
    change (409 =? 409) with true in Hrun. cbv iota in Hrun.
    rewrite bind_print in Hrun.
    change s1 with (srv (printed w1 (MsgFilterExists name))) in Hg.
    rewrite (bind_http _ _ _ _ _ Hg) in Hrun. fold w2 in Hrun.
    unfold returned_list in Hl. unfold json_of in Hrun.
    destruct (json_body resp) as [data|]; [|discriminate].
    rewrite bind_ret in Hrun.
    destruct (listing data "targetfilters") as [e|fs]; [discriminate|].
    unfold lift at 1 in Hrun. rewrite bind_ret in Hrun.
    destruct (iter fs) as [e|l]; [discriminate|].
    inversion Hl; subst l. clear Hl.
    unfold lift at 1 in Hrun. rewrite bind_ret in Hrun.
    rewrite Hf in Hrun. unfold lift at 1 in Hrun. rewrite bind_ret in Hrun.
    split.
    + intros Ht. rewrite Ht in Hrun. exact Hrun.
    + intros Ht u s3 Hp.
      set (w3 := answered w2 (Req PUT (TargetFilter fid) (Some payload)) u s3).
      rewrite Ht in Hrun.
      change s2 with (srv w2) in Hp.
      rewrite (bind_http _ _ _ _ _ Hp) in Hrun. fold w3 in Hrun.
      split.
      * intros Hu.
        assert (in_codes (status_code u) [200; 204] = true) as E.
        { apply in_codes_true. simpl. lia. }
        rewrite E in Hrun. exact Hrun.
      * intros H1 H2.
        assert (in_codes (status_code u) [200; 204] = false) as E.
        { apply not_true_is_false. rewrite in_codes_true. simpl. lia. }
        rewrite E in Hrun. exact Hrun.
Qed.

(** ** Rollout Activator *)

Lemma wait_ready_trace (rid : json) (n : nat) :
  forall w : world S,
    exists added,
      trace (snd (wait_ready serve n rid w)) = (trace w ++ added)%list
      /\ Forall (wait_event rid) added
      /\ (count is_poll added <= n)%nat
      /\ (existsb observes_ready added = true
          <-> fst (wait_ready serve n rid w) = Ret true)
      /\ (fst (wait_ready serve n rid w) = Ret true ->
          (count is_sleep added + 1 = count is_poll added)%nat)
      /\ (fst (wait_ready serve n rid w) = Ret false ->
          count is_poll added = n /\ count is_sleep added = n)
      /\ fst (wait_ready serve n rid w) <> OutOfFuel.
Proof.
  induction n as [|n IH]; intros w.
  - exists []. cbn. rewrite app_nil_r.
    repeat split; try constructor; try discriminate.
  - remember (wait_ready serve (Datatypes.S n) rid w) as run eqn:Hrun.
    cbn [wait_ready] in Hrun. unfold session_get in Hrun.
    set (q := Req GET (Rollout rid) None) in *.
    destruct (serve q (srv w)) as [[e|r] s'] eqn:Hs.
    + rewrite (bind_http_exn _ _ _ _ _ Hs) in Hrun. subst run.
      exists [Request q (inl e)]. cbn.
      repeat split; try discriminate; try lia.
      constructor; [|constructor]. right. left. eexists. reflexivity.
    + rewrite (bind_http _ _ _ _ _ Hs) in Hrun.
      set (w1 := answered w q r s') in *.
      assert (Hpoll : wait_event rid (Request q (inr r))).
      { right. left. eexists. reflexivity. }
      assert (Hsleep : wait_event rid (Sleep 5)) by (left; reflexivity).
      destruct (status_code r =? 200) eqn:Hc.
      * rewrite bind_bind in Hrun. unfold json_of in Hrun.
        destruct (json_body r) as [data|] eqn:Hb.
        2:{ rewrite bind_raise in Hrun. subst run.
            exists [Request q (inr r)]. cbn.
            unfold status_read. rewrite Hc, Hb.
            repeat split; try discriminate; try lia.
            constructor; [exact Hpoll | constructor]. }
        rewrite bind_ret, bind_bind in Hrun. unfold lift at 1 in Hrun.
        destruct (get data "status") as [e|st] eqn:Hst.
        { rewrite bind_raise in Hrun. subst run.
          exists [Request q (inr r)]. cbn.
          unfold status_read. rewrite Hc, Hb, Hst.
          repeat split; try discriminate; try lia.
          constructor; [exact Hpoll | constructor]. }
        rewrite bind_ret, bind_bind, bind_print, bind_ret in Hrun.
        set (w2 := printed w1 (MsgRolloutStatus st)) in *.
        assert (Hprint : wait_event rid (Print (MsgRolloutStatus st))).
        { right. right. eexists. reflexivity. }
        destruct (eq_str st "ready") eqn:Hr.
        -- subst run.
           exists [Request q (inr r); Print (MsgRolloutStatus st)].
           cbn. unfold status_read. rewrite Hc, Hb, Hst, Hr.
           rewrite <- app_assoc.
           repeat split; try discriminate; try lia.
           constructor; [exact Hpoll | constructor; [exact Hprint | constructor]].
        -- change (run = wait_ready serve n rid (slept w2 5)) in Hrun.
           destruct (IH (slept w2 5)) as [added [Ht [Hf [Hp [Ho [Hs1 [Hs2 Hof]]]]]]].
           rewrite <- Hrun in *.
           exists (Request q (inr r) :: Print (MsgRolloutStatus st) :: Sleep 5 :: added).
           rewrite Ht. cbn. unfold status_read. rewrite Hc, Hb, Hst, Hr.
           rewrite <- !app_assoc. cbn.
           unfold count in *.
           repeat split; try assumption; try lia.
           ++ constructor; [exact Hpoll|]. constructor; [exact Hprint|].
              constructor; [exact Hsleep | exact Hf].
           ++ apply Ho.
           ++ apply Ho.
           ++ intros H. specialize (Hs1 H). lia.
           ++ match goal with H : fst run = Ret false |- _ => destruct (Hs2 H) end.
              lia.
           ++ match goal with H : fst run = Ret false |- _ => destruct (Hs2 H) end.
              lia.
      * rewrite bind_ret in Hrun.
        change (run = wait_ready serve n rid (slept w1 5)) in Hrun.
        destruct (IH (slept w1 5)) as [added [Ht [Hf [Hp [Ho [Hs1 [Hs2 Hof]]]]]]].
        rewrite <- Hrun in *.
        exists (Request q (inr r) :: Sleep 5 :: added).
        rewrite Ht. cbn. unfold status_read. rewrite Hc.
        rewrite <- !app_assoc. cbn.
        unfold count in *.
        repeat split; try assumption; try lia.
        -- constructor; [exact Hpoll|]. constructor; [exact Hsleep | exact Hf].
        -- apply Ho.
        -- apply Ho.
        -- intros H. specialize (Hs1 H). lia.
        -- match goal with H : fst run = Ret false |- _ => destruct (Hs2 H) end.
           lia.
        -- match goal with H : fst run = Ret false |- _ => destruct (Hs2 H) end.
           lia.
Qed.

Lemma wait_event_facts (rid : json) (added : list event) :
  Forall (wait_event rid) added ->
  existsb is_start added = false
  /\ count is_start added = 0%nat
  /\ (forall e, In e added -> is_sleep e = true -> e = Sleep 5)
  /\ (forall q r, In (Request q r) added -> q = Req GET (Rollout rid) None)
  /\ ~ In (Print MsgReadyTimeout) added.
Proof.
  unfold count. induction 1 as [|e l He _ IH].
  - repeat split; try reflexivity; cbn in *; intros; tauto.
  - destruct IH as [I1 [I2 [I3 [I4 I5]]]].
    assert (is_start e = false) as Hst.
    { destruct He as [->|[[r ->]|[st ->]]]; reflexivity. }
    cbn [existsb filter]. rewrite Hst. cbn [orb].
    split; [exact I1|]. split; [exact I2|]. split; [|split].
    + intros e' [<-|Hin] Hs; [|apply I3; assumption].
      destruct He as [->|[[r ->]|[st ->]]]; [reflexivity|discriminate|discriminate].
    + intros q r [Heq|Hin]; [|eapply I4; eassumption].
      destruct He as [->|[[r' ->]|[st ->]]]; try discriminate. congruence.
    + intros [Heq|Hin]; [|contradiction].
      destruct He as [->|[[r' ->]|[st ->]]]; discriminate.
Qed.

Lemma count_app (p : event -> bool) (a b : list event) :
  count p (a ++ b) = (count p a + count p b)%nat.
Proof. unfold count. rewrite filter_app, length_app. reflexivity. Qed.

(** Goals about membership in a trace that ends in a few known events. *)
Ltac trace_goal :=
  intros;
  repeat match goal with
    | H : In _ (_ ++ _) |- _ => apply in_app_or in H; destruct H as [H|H]
    | H : In _ (_ :: _) |- _ => destruct H as [H|H]
    | H : In _ [] |- _ => destruct H
    end;
  try solve [ contradiction
            | discriminate
            | congruence
            | subst; discriminate
            | eauto
            | left; eauto
            | right; congruence
            | right; eauto
            | apply in_or_app; right; left; reflexivity ].

Lemma start_rollout_trace (rid : json) (w : world S) :
  exists added,
    trace (snd (start_rollout serve rid w)) = (trace w ++ added)%list
    /\ (count is_poll added <= 20)%nat
    /\ (forall e, In e added -> is_sleep e = true -> e = Sleep 5)
    /\ (forall q r, In (Request q r) added ->
                    q = Req GET (Rollout rid) None
                    \/ q = Req POST (RolloutStart rid) None)
    /\ (existsb is_start added = true <-> existsb observes_ready added = true)
    /\ (existsb is_start added = true ->
        count is_start added = 1%nat
        /\ (count is_sleep added + 1 = count is_poll added)%nat)
    /\ (In (Print MsgReadyTimeout) added ->
        fst (start_rollout serve rid w) = Ret tt
        /\ count is_poll added = 20%nat
        /\ count is_sleep added = 20%nat
        /\ existsb is_start added = false)
    /\ (truthy rid = true ->
        fst (start_rollout serve rid w) = Ret tt ->
        existsb observes_ready added = false ->
        In (Print MsgReadyTimeout) added).
Proof.
  remember (start_rollout serve rid w) as run eqn:Hrun.
  unfold start_rollout in Hrun.
  destruct (truthy rid) eqn:Htr; cbn [negb] in Hrun.
  2:{ subst run. exists []. cbn. rewrite app_nil_r.
      repeat split; try discriminate; try lia; cbn in *; intros; tauto. }
  destruct (wait_ready_trace rid 20 w)
    as [added [Ht [Hf [Hp [Ho [Hs1 [Hs2 Hof]]]]]]].
  destruct (wait_event_facts _ _ Hf) as [F1 [F2 [F3 [F4 F5]]]].
  unfold bind at 1 in Hrun.
  destruct (wait_ready serve 20 rid w) as [[ready|e|] w1] eqn:Hw;
    cbn [fst snd] in *; [| |congruence].
  - destruct ready; cbn [negb] in Hrun.
    + (* left by break *)
      assert (Hobs : existsb observes_ready added = true) by (apply Ho; reflexivity).
      specialize (Hs1 eq_refl).
      unfold session_post in Hrun.
      set (q := Req POST (RolloutStart rid) None) in *.
      destruct (serve q (srv w1)) as [[e|r] s'] eqn:Hs.
      * rewrite (bind_http_exn _ _ _ _ _ Hs) in Hrun. subst run.
        exists (added ++ [Request q (inl e)])%list.
        cbn [snd fst trace]. rewrite Ht, <- app_assoc, !count_app.
        rewrite !existsb_app, Hobs, F1, F2.
        cbn. repeat split; try reflexivity; try lia; trace_goal.
      * rewrite (bind_http _ _ _ _ _ Hs) in Hrun.
        set (m := if in_codes (status_code r) [200; 202]
                  then MsgRolloutStarted rid
                  else MsgStartFailed (status_code r) (text r)).
        assert (Hrun' : run = (Ret tt, printed (answered w1 q r s') m)).
        { rewrite Hrun. unfold m. destruct (in_codes (status_code r) [200; 202]);
            reflexivity. }
        clear Hrun. subst run.
        assert (Hm : m <> MsgReadyTimeout).
        { unfold m. destruct (in_codes (status_code r) [200; 202]); discriminate. }
        exists (added ++ [Request q (inr r); Print m])%list.
        cbn [snd fst trace printed answered]. rewrite Ht, <- !app_assoc, !count_app.
        rewrite !existsb_app, Hobs, F1, F2.
        cbn. repeat split; try reflexivity; try lia; trace_goal.
    + (* the loop ran to its else *)
      destruct (Hs2 eq_refl) as [Hp20 Hs20].
      assert (Hobs : existsb observes_ready added = false).
      { apply not_true_is_false. intros H. apply Ho in H. discriminate. }
      rewrite bind_print in Hrun. subst run.
      exists (added ++ [Print MsgReadyTimeout])%list.
      cbn [snd fst trace printed ret]. rewrite Ht, <- app_assoc, !count_app.
      rewrite !existsb_app, Hobs, F1.
      cbn. repeat split; try reflexivity; try lia; try discriminate; trace_goal.
  - (* a poll raised *)
    subst run. exists added. cbn [fst snd].
    assert (Hobs : existsb observes_ready added = false).
    { apply not_true_is_false. intros H. apply Ho in H. discriminate. }
    rewrite Hobs, F1.
    repeat split; try assumption; try discriminate; try lia; trace_goal.
Qed.

(** C2: [start_rollout] polls the rollout at most 20 times and sleeps 5
    after each poll that does not read "ready"; it posts the start command
    exactly when one of those polls reads "ready"; when the 20 polls are
    used up it prints the timeout line, returns, and has posted no start
    command. *)
Theorem start_rollout_bounded_wait (rid : json) (w : world S) :
  exists added,
    trace (snd (start_rollout serve rid w)) = (trace w ++ added)%list
    /\ (count is_poll added <= 20)%nat
    /\ (forall e, In e added -> is_sleep e = true -> e = Sleep 5)
    /\ (forall q r, In (Request q r) added ->
                    q = Req GET (Rollout rid) None
                    \/ q = Req POST (RolloutStart rid) None)
    /\ (existsb is_start added = true <-> existsb observes_ready added = true)
    /\ (count is_start added <= 1)%nat
    /\ (existsb is_start added = true ->
        count is_start added = 1%nat
        /\ (count is_sleep added + 1 = count is_poll added)%nat)
    /\ (In (Print MsgReadyTimeout) added ->
        fst (start_rollout serve rid w) = Ret tt
        /\ count is_poll added = 20%nat
        /\ count is_sleep added = 20%nat
        /\ existsb is_start added = false)
    /\ (truthy rid = true ->
        fst (start_rollout serve rid w) = Ret tt ->
        existsb observes_ready added = false ->
        In (Print MsgReadyTimeout) added).
Proof.
  destruct (start_rollout_trace rid w)
    as [added [Ht [Hp [Hsl [Hq [Hiff [Hone [Hto Hex]]]]]]]].
  exists added.
  split; [exact Ht|]. split; [exact Hp|]. split; [exact Hsl|].
  split; [exact Hq|]. split; [exact Hiff|].
  split; [|split; [exact Hone | split; [exact Hto | exact Hex]]].
  destruct (existsb is_start added) eqn:Hst.
  - destruct (Hone eq_refl) as [H1 _]. lia.
  - unfold count. clear - Hst.
    induction added as [|e l IH]; [cbn; lia|].
    cbn [existsb] in Hst. apply orb_false_iff in Hst. destruct Hst as [He Hl].
    cbn [filter]. rewrite He. apply IH, Hl.
Qed.

(** ** Rollout Monitor *)

Lemma monitor_loop_ends (rid : json) (interval timeout start : Z) :
  0 <= interval ->
  always_200 serve rid ->
  forall (n fuel : nat) (w : world S),
    (n < fuel)%nat ->
    timeout * Z.pos (hz w) - (clock w - start)
    < Z.of_nat n * (interval * Z.pos (hz w) + 1) ->
    clock w - start <= Z.max 0 (timeout + interval) * Z.pos (hz w) ->
    exists pre r st prog w',
      monitor_loop serve fuel rid interval timeout
        (QArith_base.Qmake start (hz w)) w
      = (Ret (exit_for st), w')
      /\ trace w'
         = (trace w ++ pre
              ++ [Request (Req GET (Rollout rid) None) (inr r);
                  Print prog; Print (last_line st)])%list
      /\ status_read r = Some st
      /\ (exists d f p t, prog = MsgProgress st d f p t)
      /\ count reads_terminal pre = 0%nat
      /\ (forall k, count is_poll pre = Datatypes.S k ->
                    clock w - start + Z.of_nat k * (interval * Z.pos (hz w) + 1)
                    < timeout * Z.pos (hz w))
      /\ (forall e, In e pre -> is_sleep e = true -> e = Sleep interval)
      /\ hz w' = hz w
      /\ (is_terminal st = false -> timeout * Z.pos (hz w) < clock w' - start)
      /\ clock w' - start
         <= Z.max 0 (timeout + interval) * Z.pos (hz w) + Z.pos (elapsed r).
Proof.
  intros Hi H200. set (q := Req GET (Rollout rid) None).
  induction n as [|n IH]; intros fuel w Hfuel Hleft Hsofar.
  all: destruct fuel as [|fuel]; [lia|].
  all: destruct (H200 (srv w)) as [r [s' [m [Hs [Hc Hb]]]]]; fold q in Hs.
  all: remember (monitor_loop serve (Datatypes.S fuel) rid interval timeout
                   (QArith_base.Qmake start (hz w)) w) as run eqn:Hrun.
  all: cbn [monitor_loop] in Hrun; unfold session_get in Hrun; fold q in Hrun.
  all: rewrite (bind_http _ _ _ _ _ Hs), Hc in Hrun.
  all: change (negb (200 =? 200)) with false in Hrun; cbv iota in Hrun.
  all: unfold json_of in Hrun; rewrite Hb, bind_ret in Hrun.
  all: unfold get, get_or, lift in Hrun; rewrite !bind_ret, bind_print in Hrun.
  all: set (st := match dict_get m "status" with Some x => x | None => JNull end) in *.
  all: set (prog := MsgProgress st _ _ _ _) in *.
  all: set (w1 := printed (answered w q r s') prog) in *.
  all: assert (Hst : status_read r = Some st)
         by (unfold status_read; rewrite Hc, Hb; reflexivity).
  all: assert (Hprog : exists d f p t, prog = MsgProgress st d f p t)
         by (unfold prog; do 4 eexists; reflexivity).
  all: assert (Hclock : clock w1 = clock w + Z.pos (elapsed r)) by reflexivity.
  all: assert (Hhz : hz w1 = hz w) by reflexivity.
  all: assert (Htrace : trace w1 = (trace w ++ [Request q (inr r); Print prog])%list)
         by (cbn; rewrite <- app_assoc; reflexivity).
  all: pose proof (Pos2Z.is_pos (elapsed r)) as He.
  all: pose proof (Pos2Z.is_pos (hz w)) as Hh.
  all: destruct (is_terminal st) eqn:Hterm.
  all: try (rewrite bind_print in Hrun; subst run;
            exists [], r, st, prog, (printed w1 (MsgRolloutEnded st));
            unfold exit_for, last_line; rewrite Hterm;
            cbn [printed trace clock hz app]; rewrite Htrace, <- app_assoc, Hclock;
            repeat split;
            first [ assumption | reflexivity | discriminate | lia
                  | cbn; lia | cbn; intros; tauto ]).
  all: rewrite bind_time, Hhz, exceeds_ticks in Hrun.
  all: destruct (clock w1 - start >? timeout * Z.pos (hz w)) eqn:Hover.
  all: try (rewrite bind_print in Hrun; subst run;
            exists [], r, st, prog, (printed w1 MsgMonitorTimeout);
            unfold exit_for, last_line; rewrite Hterm;
            cbn [printed trace clock hz app]; rewrite Htrace, <- app_assoc, Hclock;
            apply Z.gtb_lt in Hover; rewrite Hclock in Hover;
            repeat split;
            first [ assumption | reflexivity | discriminate | lia
                  | cbn; lia | cbn; intros; tauto ]).
  all: assert (Hin : clock w1 - start <= timeout * Z.pos (hz w))
         by (destruct (Z.gtb_spec (clock w1 - start) (timeout * Z.pos (hz w)));
             [discriminate | lia]).
  - (* no round left to spend: the check cannot have passed *)
    rewrite Hclock in Hin. lia.
  - rewrite bind_sleep in Hrun by lia.
    assert (Hhz2 : hz (slept w1 interval) = hz w) by reflexivity.
    assert (Hclock2 : clock (slept w1 interval)
                      = clock w + Z.pos (elapsed r) + interval * Z.pos (hz w))
      by reflexivity.
    rewrite <- Hhz2 in Hrun.
    destruct (IH fuel (slept w1 interval)) as
      [pre [r' [st' [prog' [w' [Hr [Ht [Hs' [Hp' [Hn [Hpolls [Hsl [Hz [Ht1 Ht2]]]]]]]]]]]]]].
    + lia.
    + rewrite Hhz2, Hclock2. lia.
    + rewrite Hhz2, Hclock2. rewrite Hclock in Hin. nia.
    + rewrite Hr in Hrun. subst run. rewrite Hhz2 in *.
      exists (Request q (inr r) :: Print prog :: Sleep interval :: pre),
        r', st', prog', w'.
      split; [reflexivity|].
      split.
      { rewrite Ht. cbn [slept trace]. rewrite Htrace, <- !app_assoc. reflexivity. }
      split; [exact Hs'|]. split; [exact Hp'|].
      split.
      { unfold count in *. cbn [filter reads_terminal q]. rewrite Hst, Hterm.
        exact Hn. }
      split.
      { intros k Hk. unfold count in *. cbn [filter is_poll q length] in Hk.
        injection Hk as Hk.
        destruct k as [|k'].
        - rewrite Hclock in Hin. lia.
        - specialize (Hpolls k' Hk). rewrite Hclock2 in Hpolls. lia. }
      split.
      { intros e [<-|[<-|[<-|Hin']]] Hsle; try discriminate; try reflexivity.
        apply Hsl; assumption. }
      split; [exact Hz|]. split; [exact Ht1 | exact Ht2].
Qed.

Lemma monitor_negative_interval (rid : json) (interval timeout : Z) (fuel : nat)
    (w : world S) :
  interval < 0 ->
  always_200 serve rid ->
  exists r st prog w',
    status_read r = Some st
    /\ (exists d f p t, prog = MsgProgress st d f p t)
    /\ clock w' = clock w + Z.pos (elapsed r)
    /\ ((is_terminal st = true
         /\ monitor_rollout_until_done serve (Datatypes.S fuel) rid interval
              timeout w = (Ret Ended, w')
         /\ trace w'
            = (trace w ++ [Print MsgMonitoring;
                           Request (Req GET (Rollout rid) None) (inr r);
                           Print prog; Print (MsgRolloutEnded st)])%list)
        \/ (is_terminal st = false /\ timeout * Z.pos (hz w) < Z.pos (elapsed r)
            /\ monitor_rollout_until_done serve (Datatypes.S fuel) rid interval
                 timeout w = (Ret TimedOut, w')
            /\ trace w'
               = (trace w ++ [Print MsgMonitoring;
                              Request (Req GET (Rollout rid) None) (inr r);
                              Print prog; Print MsgMonitorTimeout])%list)
        \/ (is_terminal st = false /\ Z.pos (elapsed r) <= timeout * Z.pos (hz w)
            /\ monitor_rollout_until_done serve (Datatypes.S fuel) rid interval
                 timeout w = (Exc ValueError, w')
            /\ trace w'
               = (trace w ++ [Print MsgMonitoring;
                              Request (Req GET (Rollout rid) None) (inr r);
                              Print prog])%list)).
Proof.
  intros Hi H200. set (q := Req GET (Rollout rid) None).
  remember (monitor_rollout_until_done serve (Datatypes.S fuel) rid interval
              timeout w) as run eqn:Hrun.
  unfold monitor_rollout_until_done in Hrun.
  rewrite bind_print, bind_time in Hrun.
  set (w0 := printed w MsgMonitoring) in *.
  destruct (H200 (srv w0)) as [r [s' [m [Hs [Hc Hb]]]]]. fold q in Hs.
  unfold except_interrupt in Hrun. cbn [monitor_loop] in Hrun.
  unfold session_get in Hrun. fold q in Hrun.
  rewrite (bind_http _ _ _ _ _ Hs), Hc in Hrun.
  change (negb (200 =? 200)) with false in Hrun. cbv iota in Hrun.
  unfold json_of in Hrun. rewrite Hb, bind_ret in Hrun.
  unfold get, get_or, lift in Hrun. rewrite !bind_ret, bind_print in Hrun.
  set (st := match dict_get m "status" with Some x => x | None => JNull end) in *.
  set (prog := MsgProgress st _ _ _ _) in *.
  set (w1 := printed (answered w0 q r s') prog) in *.
  assert (Hst : status_read r = Some st)
    by (unfold status_read; rewrite Hc, Hb; reflexivity).
  assert (Hprog : exists d f p t, prog = MsgProgress st d f p t)
    by (unfold prog; do 4 eexists; reflexivity).
  assert (Htrace : trace w1
                   = (trace w ++ [Print MsgMonitoring; Request q (inr r);
                                  Print prog])%list).
  { unfold w1, w0, printed, answered. cbn [trace]. rewrite <- !app_assoc.
    reflexivity. }
  assert (Hclock : clock w1 = clock w + Z.pos (elapsed r)) by reflexivity.
  destruct (is_terminal st) eqn:Hterm.
  - rewrite bind_print in Hrun.
    exists r, st, prog, (printed w1 (MsgRolloutEnded st)).
    split; [exact Hst|]. split; [exact Hprog|]. split; [exact Hclock|].
    left. split; [exact Hterm|]. split; [exact Hrun|].
    unfold printed at 1. cbn [trace]. rewrite Htrace, <- app_assoc. reflexivity.
  - rewrite bind_time in Hrun.
    change (hz w1) with (hz w) in Hrun. change (hz w0) with (hz w) in Hrun.
    rewrite exceeds_ticks in Hrun.
    destruct (clock w1 - clock w0 >? timeout * Z.pos (hz w)) eqn:Hover.
    + rewrite bind_print in Hrun.
      exists r, st, prog, (printed w1 MsgMonitorTimeout).
      split; [exact Hst|]. split; [exact Hprog|]. split; [exact Hclock|].
      right. left. split; [exact Hterm|].
      apply Z.gtb_lt in Hover. rewrite Hclock in Hover.
      change (clock w0) with (clock w) in Hover.
      split; [lia|]. split; [exact Hrun|].
      unfold printed at 1. cbn [trace]. rewrite Htrace, <- app_assoc. reflexivity.
    + unfold bind at 1, sleep at 1 in Hrun.
      assert ((interval <? 0) = true) as Hneg by (apply Z.ltb_lt; exact Hi).
      rewrite Hneg in Hrun.
      exists r, st, prog, w1.
      split; [exact Hst|]. split; [exact Hprog|]. split; [exact Hclock|].
      right. right. split; [exact Hterm|].
      assert (clock w1 - clock w0 <= timeout * Z.pos (hz w)) as Hin
        by (destruct (Z.gtb_spec (clock w1 - clock w0) (timeout * Z.pos (hz w)));
            [discriminate | lia]).
      rewrite Hclock in Hin. change (clock w0) with (clock w) in Hin.
      split; [lia|]. split; [exact Hrun | exact Htrace].
Qed.

(** C1 (as amended): with every poll answered 200 by a JSON object and
    an interval that is not negative, monitoring returns.  It leaves by
    "ended" at the first poll that reads finished, error or paused, every
    earlier poll having read something else; otherwise it leaves by
    "timed out" at a poll after which the elapsed time exceeds the
    timeout.  Before a poll that is followed by [k] more, [k] whole
    intervals have been slept within the timeout.  The check follows the
    poll, so the elapsed time at the exit is at most the timeout plus one
    interval plus the time the last poll took (the time of the first poll
    alone, when the exit is there).  With a negative interval the first
    poll decides: "ended", "timed out", or else the sleep that follows
    raises [ValueError].  Times are in ticks, [hz w] to the second. *)
Theorem monitor_terminates (rid : json) (interval timeout : Z) (fuel : nat)
    (w : world S) :
  always_200 serve rid ->
  (Z.to_nat (timeout * Z.pos (hz w) / (interval * Z.pos (hz w) + 1)) + 2
   <= fuel)%nat ->
  (0 <= interval ->
   exists pre r st prog w',
     monitor_rollout_until_done serve fuel rid interval timeout w
     = (Ret (if is_terminal st then Ended else TimedOut), w')
     /\ trace w'
        = (trace w ++ Print MsgMonitoring :: pre
             ++ [Request (Req GET (Rollout rid) None) (inr r);
                 Print prog;
                 Print (if is_terminal st then MsgRolloutEnded st
                        else MsgMonitorTimeout)])%list
     /\ status_read r = Some st
     /\ (exists d f p t, prog = MsgProgress st d f p t)
     /\ count reads_terminal pre = 0%nat
     /\ (forall k, count is_poll pre = Datatypes.S k ->
                   Z.of_nat k * interval < timeout)
     /\ (forall e, In e pre -> is_sleep e = true -> e = Sleep interval)
     /\ (is_terminal st = false ->
         timeout * Z.pos (hz w) < clock w' - clock w)
     /\ clock w' - clock w
        <= Z.max 0 (timeout + interval) * Z.pos (hz w) + Z.pos (elapsed r))
  /\ (interval < 0 ->
      exists r st prog w',
        status_read r = Some st
        /\ (exists d f p t, prog = MsgProgress st d f p t)
        /\ trace w'
           = (trace w ++ Print MsgMonitoring
                :: Request (Req GET (Rollout rid) None) (inr r)
                :: Print prog
                :: (if is_terminal st then [Print (MsgRolloutEnded st)]
                    else if timeout * Z.pos (hz w) <? Z.pos (elapsed r)
                         then [Print MsgMonitorTimeout]
                         else []))%list
        /\ monitor_rollout_until_done serve fuel rid interval timeout w
           = (if is_terminal st then Ret Ended
              else if timeout * Z.pos (hz w) <? Z.pos (elapsed r)
                   then Ret TimedOut
                   else Exc ValueError,
              w')).
Proof.
  intros H200 Hfuel. split.
  - intros Hi.
    remember (monitor_rollout_until_done serve fuel rid interval timeout w)
      as run eqn:Hrun.
    unfold monitor_rollout_until_done in Hrun.
    rewrite bind_print, bind_time in Hrun.
    set (w0 := printed w MsgMonitoring) in *.
    pose proof (Pos2Z.is_pos (hz w)) as Hh.
    change (hz w0) with (hz w) in Hfuel.
    set (T := timeout * Z.pos (hz w)) in *.
    set (I := interval * Z.pos (hz w) + 1) in *.
    assert (HI : 0 < I) by (unfold I; nia).
    destruct (monitor_loop_ends rid interval timeout (clock w0) Hi H200
                (Z.to_nat (T / I) + 1) fuel w0)
      as [pre [r [st [prog [w' [Hr [Htr [Hs [Hp [Hn [Hpolls [Hsl [Hz [Ht1 Ht2]]]]]]]]]]]]]].
    + lia.
    + rewrite Z.sub_diag, Z.sub_0_r.
      change (hz w0) with (hz w). fold T. fold I.
      destruct (Z.lt_ge_cases T 0) as [Hneg|Hpos].
      * assert (0 < Z.of_nat (Z.to_nat (T / I) + 1)) by lia.
        nia.
      * assert (0 <= T / I) by (apply Z.div_pos; lia).
        rewrite Nat2Z.inj_add, Z2Nat.id by lia.
        pose proof (Z.mul_succ_div_gt T I HI). lia.
    + change (hz w0) with (hz w). rewrite Z.sub_diag.
      assert (0 <= Z.max 0 (timeout + interval)) by lia. nia.
    + unfold except_interrupt in Hrun. rewrite Hr in Hrun. subst run.
      change (hz w0) with (hz w) in *. change (clock w0) with (clock w) in *.
      exists pre, r, st, prog, w'.
      split; [reflexivity|].
      split.
      { rewrite Htr. unfold w0, printed. cbn [trace]. rewrite <- app_assoc.
        reflexivity. }
      split; [exact Hs|]. split; [exact Hp|]. split; [exact Hn|].
      split.
      { intros k Hk. specialize (Hpolls k Hk).
        rewrite Z.sub_diag in Hpolls. nia. }
      split; [exact Hsl|]. split; [exact Ht1 | exact Ht2].
  - intros Hi. destruct fuel as [|fuel]; [lia|].
    destruct (monitor_negative_interval rid interval timeout fuel w Hi H200)
      as [r [st [prog [w' [Hst [Hp [Hc Hcases]]]]]]].
    exists r, st, prog, w'.
    split; [exact Hst|]. split; [exact Hp|].
    destruct Hcases as [[Ht [Hrun Htr]] | [[Ht [Hov [Hrun Htr]]] | [Ht [Hin [Hrun Htr]]]]];
      rewrite Ht.
    + split; [exact Htr | exact Hrun].
    + assert ((timeout * Z.pos (hz w) <? Z.pos (elapsed r)) = true) as ->
        by (apply Z.ltb_lt; lia).
      split; [exact Htr | exact Hrun].
    + assert ((timeout * Z.pos (hz w) <? Z.pos (elapsed r)) = false) as ->
        by (apply Z.ltb_ge; lia).
      split; [exact Htr | exact Hrun].
Qed.

(** ** What the functions put in the trace *)

Section Emits.

Variable P : event -> Prop.

Lemma emits_ret {A : Type} (a : A) : emits P (ret a : M S A).
Proof. intros w. exists []. cbn. rewrite app_nil_r. split; constructor. Qed.

Lemma emits_raise {A : Type} (e : exn) : emits P (raise e : M S A).
Proof. intros w. exists []. cbn. rewrite app_nil_r. split; constructor. Qed.

Lemma emits_lift {A : Type} (x : exn + A) : emits P (lift x : M S A).
Proof. destruct x; [apply emits_raise | apply emits_ret]. Qed.

Lemma emits_time : emits P (time : M S QArith_base.Q).
Proof. intros w. exists []. cbn. rewrite app_nil_r. split; constructor. Qed.

Lemma emits_out_of_fuel {A : Type} :
  emits P (fun w : world S => (@OutOfFuel A, w)).
Proof. intros w. exists []. cbn. rewrite app_nil_r. split; constructor. Qed.

Lemma emits_json_of (r : response) : emits P (json_of r : M S json).
Proof. unfold json_of. destruct (json_body r); [apply emits_ret | apply emits_raise]. Qed.

Lemma emits_print (m : msg) : P (Print m) -> emits P (print m : M S unit).
Proof. intros Hm w. exists [Print m]. cbn. split; repeat constructor. exact Hm. Qed.

Lemma emits_sleep (secs : Z) : P (Sleep secs) -> emits P (sleep secs : M S unit).
Proof.
  intros Hs w. unfold sleep. destruct (secs <? 0).
  - exists []. cbn. rewrite app_nil_r. split; constructor.
  - exists [Sleep secs]. cbn. split; repeat constructor. exact Hs.
Qed.

Lemma emits_http (q : request) :
  (forall r, P (Request q r)) -> emits P (http serve q).
Proof.
  intros Hq w. unfold http. destruct (serve q (srv w)) as [[e|r] s'].
  - exists [Request q (inl e)]. cbn. split; repeat constructor. apply Hq.
  - exists [Request q (inr r)]. cbn. split; repeat constructor. apply Hq.
Qed.

Lemma emits_bind {A B : Type} (c : M S A) (k : A -> M S B) :
  emits P c -> (forall a, emits P (k a)) -> emits P (bind c k).
Proof.
  intros Hc Hk w. unfold bind. destruct (Hc w) as [l1 [H1 F1]].
  destruct (c w) as [[a|e|] w1]; cbn [snd] in *.
  - destruct (Hk a w1) as [l2 [H2 F2]].
    exists (l1 ++ l2)%list. rewrite H2, H1, app_assoc.
    split; [reflexivity | apply Forall_app; split; assumption].
  - exists l1. split; assumption.
  - exists l1. split; assumption.
Qed.

Lemma emits_except {A : Type} (c h : M S A) :
  emits P c -> emits P h -> emits P (except_interrupt c h).
Proof.
  intros Hc Hh w. unfold except_interrupt. destruct (Hc w) as [l1 [H1 F1]].
  destruct (c w) as [[a|e|] w1]; cbn [snd] in *;
    try (exists l1; split; assumption).
  destruct e; try (exists l1; split; assumption).
  destruct (Hh w1) as [l2 [H2 F2]].
  exists (l1 ++ l2)%list. rewrite H2, H1, app_assoc.
  split; [reflexivity | apply Forall_app; split; assumption].
Qed.

End Emits.

(** The condition on a single event, for the predicates used below. *)
Ltac emits_side :=
  intros;
  first [ assumption | exact I | reflexivity
        | split; first [assumption | exact I | reflexivity] ].

Ltac emits_auto :=
  unfold session_get, session_post, session_put;
  repeat match goal with
    | |- emits _ (bind _ _) => apply emits_bind; [|intros]
    | |- emits _ (ret _) => apply emits_ret
    | |- emits _ (raise _) => apply emits_raise
    | |- emits _ (lift _) => apply emits_lift
    | |- emits _ time => apply emits_time
    | |- emits _ (json_of _) => apply emits_json_of
    | |- emits _ (print _) => apply emits_print; emits_side
    | |- emits _ (sleep _) => apply emits_sleep; emits_side
    | |- emits _ (http _ _) => apply emits_http; emits_side
    | |- emits _ (except_interrupt _ _) => apply emits_except
    | |- emits _ (fun w => (OutOfFuel, w)) => apply emits_out_of_fuel
    | |- emits _ (if ?b then _ else _) => destruct b
    | |- emits _ (match ?x with _ => _ end) => destruct x
    | _ => assumption
    end.

Lemma emits_find_distribution_set (allowed : request -> Prop) (name version : string) (items : list json) :
  emits (requests_in allowed) (find_distribution_set items name version : M S json).
Proof.
  induction items as [|ds rest IH]; cbn [find_distribution_set]; emits_auto.
Qed.

Lemma emits_get_distribution_set (allowed : request -> Prop) (name version : string) :
  allowed (Req GET (DistributionSets name version) None) ->
  emits (requests_in allowed) (get_distribution_set serve name version).
Proof.
  intros H. unfold get_distribution_set. emits_auto; apply emits_find_distribution_set.
Qed.

Lemma emits_create_target_filter (allowed : request -> Prop) (name query : string) :
  allowed (Req POST TargetFilters (Some (filter_payload name query))) ->
  allowed (Req GET TargetFilters None) ->
  (forall fid, allowed (Req PUT (TargetFilter fid)
                          (Some (filter_payload name query)))) ->
  emits (requests_in allowed) (create_target_filter serve name query).
Proof.
  intros H1 H2 H3. unfold create_target_filter.
  emits_auto; apply emits_http; intros; apply H3.
Qed.

Lemma emits_create_rollout (allowed : request -> Prop) (name query : string) (ds_id : json)
    (group_size : Z) (action_type : string) :
  allowed (Req POST Rollouts
             (Some (rollout_payload name query ds_id group_size action_type))) ->
  emits (requests_in allowed) (create_rollout serve name query ds_id group_size action_type).
Proof. intros H. unfold create_rollout. emits_auto. Qed.

Lemma emits_wait_ready (allowed : request -> Prop) (rid : json) (n : nat) :
  allowed (Req GET (Rollout rid) None) ->
  emits (requests_in allowed) (wait_ready serve n rid).
Proof.
  intros H. induction n as [|n IH]; cbn [wait_ready]; emits_auto.
Qed.

Lemma emits_start_rollout (allowed : request -> Prop) (rid : json) :
  allowed (Req GET (Rollout rid) None) ->
  allowed (Req POST (RolloutStart rid) None) ->
  emits (requests_in allowed) (start_rollout serve rid).
Proof.
  intros H1 H2. unfold start_rollout. emits_auto; apply emits_wait_ready; exact H1.
Qed.

Lemma emits_monitor_loop (allowed : request -> Prop) (rid : json)
    (interval timeout : Z) (start : QArith_base.Q) (fuel : nat) :
  allowed (Req GET (Rollout rid) None) ->
  emits (requests_in allowed) (monitor_loop serve fuel rid interval timeout start).
Proof.
  intros H. induction fuel as [|fuel IH]; cbn [monitor_loop]; emits_auto.
Qed.

Lemma emits_monitor (allowed : request -> Prop) (rid : json) (interval timeout : Z) (fuel : nat) :
  allowed (Req GET (Rollout rid) None) ->
  emits (requests_in allowed) (monitor_rollout_until_done serve fuel rid interval timeout).
Proof.
  intros H. unfold monitor_rollout_until_done. emits_auto; apply emits_monitor_loop; exact H.
Qed.

Lemma emits_get_assigned_ds (allowed : request -> Prop) (target_id : string) :
  allowed (Req GET (AssignedDS target_id) None) ->
  emits (requests_in allowed) (get_assigned_ds serve target_id).
Proof. intros H. unfold get_assigned_ds. emits_auto. Qed.

Lemma emits_get_installed_ds (allowed : request -> Prop) (target_id : string) :
  allowed (Req GET (InstalledDS target_id) None) ->
  emits (requests_in allowed) (get_installed_ds serve target_id).
Proof. intros H. unfold get_installed_ds. emits_auto. Qed.

Lemma emits_print_actions (allowed : request -> Prop) (actions : list json) :
  emits (requests_in allowed) (print_actions actions : M S unit).
Proof. induction actions as [|a rest IH]; cbn [print_actions]; emits_auto. Qed.

Lemma emits_get_firmware_history (allowed : request -> Prop) (target_id : string) :
  allowed (Req GET (Actions target_id) None) ->
  emits (requests_in allowed) (get_firmware_history serve target_id).
Proof.
  intros H. unfold get_firmware_history. emits_auto; apply emits_print_actions.
Qed.




Lemma emits_weaken {A : Type} (P Q : event -> Prop) (c : M S A) :
  (forall e, P e -> Q e) -> emits P c -> emits Q c.
Proof.
  intros HPQ Hc w. destruct (Hc w) as [l [H1 F1]].
  exists l. split; [exact H1|].
  apply Forall_forall. intros e He. rewrite Forall_forall in F1. auto.
Qed.

(** ** Events that create no rollout and open no loop body *)

Lemma aside_find_distribution_set (name version : string) (items : list json) :
  emits aside (find_distribution_set items name version : M S json).
Proof.
  induction items as [|ds rest IH]; cbn [find_distribution_set]; emits_auto.
Qed.

Lemma aside_get_distribution_set (name version : string) :
  emits aside (get_distribution_set serve name version).
Proof.
  unfold get_distribution_set. emits_auto; apply aside_find_distribution_set.
Qed.

Lemma aside_create_target_filter (name query : string) :
  emits aside (create_target_filter serve name query).
Proof. unfold create_target_filter. emits_auto. Qed.

Lemma aside_wait_ready (rid : json) (n : nat) :
  emits aside (wait_ready serve n rid).
Proof. induction n as [|n IH]; cbn [wait_ready]; emits_auto. Qed.

Lemma aside_start_rollout (rid : json) : emits aside (start_rollout serve rid).
Proof. unfold start_rollout. emits_auto; apply aside_wait_ready. Qed.

Lemma aside_monitor_loop (rid : json) (interval timeout : Z)
    (start : QArith_base.Q) (fuel : nat) :
  emits aside (monitor_loop serve fuel rid interval timeout start).
Proof. induction fuel as [|fuel IH]; cbn [monitor_loop]; emits_auto. Qed.

Lemma aside_monitor (rid : json) (interval timeout : Z) (fuel : nat) :
  emits aside (monitor_rollout_until_done serve fuel rid interval timeout).
Proof.
  unfold monitor_rollout_until_done. emits_auto; apply aside_monitor_loop.
Qed.

Lemma aside_print_actions (actions : list json) :
  emits aside (print_actions actions : M S unit).
Proof. induction actions as [|a rest IH]; cbn [print_actions]; emits_auto. Qed.

Lemma aside_check_targets (serials : list string) :
  emits aside (check_targets serve serials).
Proof.
  induction serials as [|t rest IH]; cbn [check_targets]; emits_auto.
  - unfold get_assigned_ds. emits_auto.
  - unfold get_installed_ds. emits_auto.
  - unfold get_firmware_history. emits_auto; apply aside_print_actions.
Qed.

Lemma aside_print_sequences (keys : list string) :
  emits aside (print_sequences keys : M S unit).
Proof. induction keys as [|k rest IH]; cbn [print_sequences]; emits_auto. Qed.

Lemma creating_create_rollout (name query : string) (ds_id : json)
    (group_size : Z) (action_type : string) :
  emits (creating (rollout_payload name query ds_id group_size action_type))
    (create_rollout serve name query ds_id group_size action_type).
Proof. unfold create_rollout. emits_auto. Qed.

Lemma aside_creating (payload : json) (e : event) :
  aside e -> creating payload e.
Proof.
  intros [Hc Hs]. split; [exact Hs|].
  destruct e as [q r| |]; cbn; try exact I.
  destruct q as [m ep pl]. destruct m, ep, pl; cbn; try exact I; discriminate Hc.
Qed.

Lemma aside_no_create (l : list event) :
  Forall aside l -> Forall (fun e => is_create e = false) l.
Proof. apply Forall_impl. intros e [H _]. exact H. Qed.

Lemma aside_no_start (l : list event) :
  Forall aside l -> Forall (fun e => starting e = false) l.
Proof. apply Forall_impl. intros e [_ H]. exact H. Qed.

(** ** Where a request lies in a list of events *)

Lemma no_create_split (l mid after : list event) (payload : option json)
    (r : exn + response) :
  Forall (fun e => is_create e = false) l ->
  l <> (mid ++ Request (Req POST Rollouts payload) r :: after)%list.
Proof.
  intros F E. subst l. apply Forall_app in F. destruct F as [_ F].
  inversion F as [|x l' Hx _]. discriminate Hx.
Qed.

Lemma split_create (l1 l2 : list event) (payload : option json)
    (r : exn + response) (after : list event) :
  Forall (fun e => is_create e = false) l1 ->
  forall mid,
    (l1 ++ l2 = mid ++ Request (Req POST Rollouts payload) r :: after)%list ->
    exists mid',
      mid = (l1 ++ mid')%list
      /\ l2 = (mid' ++ Request (Req POST Rollouts payload) r :: after)%list.
Proof.
  intros F. induction F as [|a l1 Ha F IH]; intros mid E.
  - exists mid. split; [reflexivity | exact E].
  - destruct mid as [|b mid]; cbn [app] in E; injection E as Hab Hrest.
    + subst a. discriminate Ha.
    + destruct (IH mid Hrest) as [m [Hm Hl]].
      exists m. subst. split; reflexivity.
Qed.

Lemma split_in_app (l1 l2 : list event) (x : event) (after : list event) :
  forall before,
    (l1 ++ l2 = before ++ x :: after)%list ->
    (exists m, l1 = (before ++ x :: m)%list)
    \/ (exists b, before = (l1 ++ b)%list /\ l2 = (b ++ x :: after)%list).
Proof.
  induction l1 as [|a l1 IH]; intros before E.
  - right. exists before. split; [reflexivity | exact E].
  - destruct before as [|b before]; cbn [app] in E; injection E as Hab Hrest.
    + left. exists l1. subst. reflexivity.
    + destruct (IH before Hrest) as [[m Hm] | [b' [Hb Hl]]].
      * left. exists m. subst. reflexivity.
      * right. exists b'. subst. split; reflexivity.
Qed.

Lemma create_request_split (l : list event) :
  existsb is_create l = true ->
  exists before payload r after,
    l = (before ++ Request (Req POST Rollouts payload) r :: after)%list.
Proof.
  induction l as [|e l IH]; [discriminate|].
  cbn [existsb]. destruct (is_create e) eqn:He.
  - intros _. destruct e as [[m ep pl] r| |]; try discriminate He.
    destruct m, ep; try discriminate He.
    exists [], pl, r, l. reflexivity.
  - cbn [orb]. intros H. destruct (IH H) as [b [p [r [a E]]]].
    exists (e :: b), p, r, a. rewrite E. reflexivity.
Qed.

Lemma count_none (p : event -> bool) (l : list event) :
  Forall (fun e => p e = false) l -> count p l = 0%nat.
Proof.
  unfold count. induction 1 as [|e l He _ IH]; [reflexivity|].
  cbn [filter]. rewrite He. exact IH.
Qed.

(** ** The line printed for an identifier that was found *)

Lemma find_distribution_set_line (name version : string) (items : list json) :
  forall (w w' : world S) (id : json),
    find_distribution_set items name version w = (Ret id, w') ->
    truthy id = true ->
    trace w' = (trace w ++ [Print (MsgDsFound name version id)])%list.
Proof.
  induction items as [|ds rest IH]; intros w w' id Hrun Ht.
  - cbn in Hrun. inversion Hrun; subst. discriminate Ht.
  - cbn [find_distribution_set] in Hrun.
    destruct ds as [| | | | |m]; try (cbn in Hrun; discriminate Hrun).
    unfold bind at 1, lift at 1, get at 1, get_or at 1, ret at 1 in Hrun.
    destruct (eq_str _ name).
    + unfold bind at 1, lift at 1, get at 1, get_or at 1, ret at 1 in Hrun.
      destruct (eq_str _ version).
      * unfold lift, get, get_or in Hrun. rewrite bind_ret, bind_print in Hrun.
        unfold ret in Hrun. inversion Hrun; subst. reflexivity.
      * exact (IH _ _ _ Hrun Ht).
    + exact (IH _ _ _ Hrun Ht).
Qed.

Lemma get_distribution_set_line (name version : string) (w w' : world S)
    (id : json) (l : list event) :
  get_distribution_set serve name version w = (Ret id, w') ->
  truthy id = true ->
  trace w' = (trace w ++ l)%list ->
  In (Print (MsgDsFound name version id)) l.
Proof.
  intros Hrun Ht Hl. unfold get_distribution_set, session_get in Hrun.
  set (q := Req GET (DistributionSets name version) None) in *.
  destruct (serve q (srv w)) as [[e|r] s'] eqn:Hs.
  - rewrite (bind_http_exn _ _ _ _ _ Hs) in Hrun. discriminate Hrun.
  - rewrite (bind_http _ _ _ _ _ Hs) in Hrun.
    destruct (negb (status_code r =? 200)).
    + rewrite bind_print in Hrun. unfold ret in Hrun.
      inversion Hrun; subst. discriminate Ht.
    + unfold json_of in Hrun.
      destruct (json_body r) as [data|];
        [rewrite bind_ret in Hrun | rewrite bind_raise in Hrun; discriminate Hrun].
      destruct (listing data "distributionsets") as [e|sets];
        unfold lift at 1 in Hrun;
        [rewrite bind_raise in Hrun; discriminate Hrun | rewrite bind_ret in Hrun].
      destruct (iter sets) as [e|items];
        unfold lift at 1 in Hrun;
        [rewrite bind_raise in Hrun; discriminate Hrun | rewrite bind_ret in Hrun].
      rewrite (find_distribution_set_line _ _ _ _ _ _ Hrun Ht) in Hl.
      unfold answered in Hl. cbn [trace] in Hl. rewrite <- app_assoc in Hl.
      apply app_inv_head in Hl. subst l. right. left. reflexivity.
Qed.

(** ** The body of the sequence loop, and the loop *)

Lemma rollout_step_events (fuel : nat) (key suffix query : string)
    (interval timeout total idx : Z) (ds : bundle) :
  adds (fun l =>
          exists seg,
            l = Print (MsgStartingRollout idx total (bundle_name ds)
                         (bundle_version ds)) :: seg
            /\ step_events key suffix query idx ds seg)
    (rollout_step serve fuel key suffix query interval timeout total idx ds).
Proof.
  intros w. unfold rollout_step. rewrite bind_print.
  set (line := MsgStartingRollout idx total (bundle_name ds) (bundle_version ds)).
  set (w0 := printed w line).
  assert (Hw0 : trace w0 = (trace w ++ [Print line])%list) by reflexivity.
  destruct (aside_get_distribution_set (bundle_name ds) (bundle_version ds) w0)
    as [l1 [Ht1 F1]].
  assert (Hquiet : forall l,
             Forall aside l ->
             step_events key suffix query idx ds l).
  { intros l Fl. split; [apply aside_no_start, Fl|].
    intros mid payload r after E. exfalso.
    exact (no_create_split _ _ _ _ _ (aside_no_create _ Fl) E). }
  unfold bind at 1.
  destruct (get_distribution_set serve (bundle_name ds) (bundle_version ds) w0)
    as [[ds_id|e|] w1] eqn:Hg; cbn [snd] in Ht1.
  - destruct (truthy ds_id) eqn:Htr; cbn [negb].
    + set (p := rollout_payload (rollout_name key suffix idx) query ds_id 1 "forced").
      match goal with
      | |- context [trace (snd (?c w1))] =>
          assert (Hk : emits (creating p) c)
      end.
      { apply emits_bind; [apply creating_create_rollout|]. intros rid.
        apply (emits_weaken aside); [apply aside_creating|].
        destruct (truthy rid).
        - apply emits_bind; [apply aside_start_rollout | intros _].
          apply emits_bind; [apply aside_monitor | intros _].
          apply emits_ret.
        - apply emits_print. split; reflexivity. }
      destruct (Hk w1) as [l2 [Ht2 F2]].
      exists (Print line :: l1 ++ l2)%list. split.
      { rewrite Ht2, Ht1, Hw0, <- !app_assoc. reflexivity. }
      exists (l1 ++ l2)%list. split; [reflexivity|]. split.
      * apply Forall_app. split; [apply aside_no_start, F1|].
        revert F2. apply Forall_impl. intros e [H _]. exact H.
      * intros mid payload r after E.
        destruct (split_create _ _ _ _ _ (aside_no_create _ F1) _ E)
          as [mid' [Hmid E2]].
        exists ds_id. split.
        -- rewrite Hmid. apply in_or_app. left.
           exact (get_distribution_set_line _ _ _ _ _ _ Hg Htr Ht1).
        -- rewrite E2 in F2. apply Forall_app in F2. destruct F2 as [_ F2].
           inversion F2 as [|x l' [_ Hx] _]. subst.
           destruct payload as [p'|]; cbn in Hx; [|contradiction].
           rewrite Hx. reflexivity.
    + exists (Print line :: l1 ++ [Print MsgSkipDsNotFound])%list. split.
      { unfold print, emit. cbn [snd trace]. rewrite Ht1, Hw0, <- !app_assoc.
        reflexivity. }
      eexists. split; [reflexivity|]. apply Hquiet.
      apply Forall_app. split; [exact F1|].
      constructor; [split; reflexivity | constructor].
  - exists (Print line :: l1)%list. split.
    { cbn [snd]. rewrite Ht1, Hw0, <- app_assoc. reflexivity. }
    eexists. split; [reflexivity|]. apply Hquiet, F1.
  - exists (Print line :: l1)%list. split.
    { cbn [snd]. rewrite Ht1, Hw0, <- app_assoc. reflexivity. }
    eexists. split; [reflexivity|]. apply Hquiet, F1.
Qed.

Lemma rollout_loop_placed (fuel : nat) (key suffix query : string)
    (interval timeout total : Z) (dss : list bundle) :
  forall idx,
    adds (placed key suffix query total idx dss)
      (rollout_loop serve fuel key suffix query interval timeout total idx dss).
Proof.
  induction dss as [|ds rest IH]; intros idx w; cbn [rollout_loop].
  - exists []. cbn [ret snd]. rewrite app_nil_r. split; [reflexivity|].
    intros before payload r after E. destruct before; discriminate E.
  - destruct (rollout_step_events fuel key suffix query interval timeout total
                idx ds w) as [l [Ht [seg [Hl [Fq Hc]]]]].
    subst l.
    set (line := MsgStartingRollout idx total (bundle_name ds) (bundle_version ds))
      in *.
    assert (Hhere : forall before payload r m,
               (Print line :: seg
                = before ++ Request (Req POST Rollouts payload) r :: m)%list ->
               exists k d ds_id front mid,
                 nth_error (ds :: rest) k = Some d
                 /\ before
                    = (front
                         ++ Print (MsgStartingRollout (idx + Z.of_nat k) total
                                     (bundle_name d) (bundle_version d))
                         :: mid)%list
                 /\ count starting front = k
                 /\ Forall (fun e => starting e = false) mid
                 /\ In (Print (MsgDsFound (bundle_name d) (bundle_version d)
                                 ds_id)) mid
                 /\ payload
                    = Some (rollout_payload
                              (rollout_name key suffix (idx + Z.of_nat k))
                              query ds_id 1 "forced")).
    { intros before payload r m E.
      destruct before as [|x mid]; cbn [app] in E; injection E as Hx Hseg;
        [discriminate Hx|].
      destruct (Hc mid payload r m Hseg) as [ds_id [Hin Hp]].
      exists 0%nat, ds, ds_id, [], mid.
      cbn [Z.of_nat]. rewrite Z.add_0_r.
      split; [reflexivity|]. split; [subst x; reflexivity|].
      split; [reflexivity|]. split.
      - rewrite Hseg in Fq. apply Forall_app in Fq. destruct Fq as [Fq _].
        exact Fq.
      - split; [exact Hin | exact Hp]. }
    unfold bind.
    destruct (rollout_step serve fuel key suffix query interval timeout total
                idx ds w) as [[u|e|] w1] eqn:Hstep; cbn [snd] in Ht.
    + destruct (IH (idx + 1) w1) as [l2 [Ht2 Hp2]].
      exists ((Print line :: seg) ++ l2)%list. split.
      { rewrite Ht2, Ht, <- app_assoc. reflexivity. }
      intros before payload r after E.
      destruct (split_in_app _ _ _ _ _ E) as [[m E1] | [b [Hb E2]]].
      * exact (Hhere _ _ _ _ E1).
      * destruct (Hp2 b payload r after E2)
          as [k [d [ds_id [front [mid [Hn [Hbf [Hcnt [Fm [Hin Hp]]]]]]]]]].
        exists (Datatypes.S k), d, ds_id, ((Print line :: seg) ++ front)%list, mid.
        replace (idx + Z.of_nat (Datatypes.S k)) with (idx + 1 + Z.of_nat k) by lia.
        split; [exact Hn|]. split.
        { rewrite Hb, Hbf, <- app_assoc. reflexivity. }
        split.
        { rewrite count_app, Hcnt. unfold count. cbn [filter starting line].
          cbn [List.length]. fold (count starting seg).
          rewrite (count_none _ _ Fq). reflexivity. }
        split; [exact Fm|]. split; [exact Hin | exact Hp].
    + exists (Print line :: seg). split; [exact Ht|].
      intros before payload r after E. exact (Hhere _ _ _ _ E).
    + exists (Print line :: seg). split; [exact Ht|].
      intros before payload r after E. exact (Hhere _ _ _ _ E).
Qed.

(** ** Composing what runs add *)

Lemma adds_weaken {A : Type} (G1 G2 : list event -> Prop) (c : M S A) :
  (forall l, G1 l -> G2 l) -> adds G1 c -> adds G2 c.
Proof.
  intros H Hc w. destruct (Hc w) as [l [Ht Hl]]. exists l. split; auto.
Qed.

Lemma adds_aside {A : Type} (G : list event -> Prop) (c : M S A) :
  (forall l, Forall aside l -> G l) -> emits aside c -> adds G c.
Proof.
  intros H Hc w. destruct (Hc w) as [l [Ht Hl]]. exists l. split; auto.
Qed.

Lemma adds_bind_left {A B : Type} (G : list event -> Prop) (c : M S A)
    (k : A -> M S B) :
  (forall l, Forall aside l -> G l) ->
  (forall l1 l2, Forall aside l1 -> G l2 -> G (l1 ++ l2)%list) ->
  emits aside c -> (forall a, adds G (k a)) -> adds G (bind c k).
Proof.
  intros H0 H1 Hc Hk w. unfold bind. destruct (Hc w) as [l1 [Ht1 F1]].
  destruct (c w) as [[a|e|] w1]; cbn [snd] in *.
  - destruct (Hk a w1) as [l2 [Ht2 G2]].
    exists (l1 ++ l2)%list. rewrite Ht2, Ht1, app_assoc.
    split; [reflexivity | apply H1; assumption].
  - exists l1. split; [exact Ht1 | apply H0, F1].
  - exists l1. split; [exact Ht1 | apply H0, F1].
Qed.

Lemma adds_bind_right {A B : Type} (G : list event -> Prop) (c : M S A)
    (k : A -> M S B) :
  (forall l1 l2, G l1 -> Forall aside l2 -> G (l1 ++ l2)%list) ->
  adds G c -> (forall a, emits aside (k a)) -> adds G (bind c k).
Proof.
  intros H1 Hc Hk w. unfold bind. destruct (Hc w) as [l1 [Ht1 G1]].
  destruct (c w) as [[a|e|] w1]; cbn [snd] in *.
  - destruct (Hk a w1) as [l2 [Ht2 F2]].
    exists (l1 ++ l2)%list. rewrite Ht2, Ht1, app_assoc.
    split; [reflexivity | apply H1; assumption].
  - exists l1. split; assumption.
  - exists l1. split; assumption.
Qed.

(** ** The last characters of a string *)

Lemma substring_all (s : string) :
  forall n : nat, (String.length s <= n)%nat -> substring 0 n s = s.
Proof.
  induction s as [|c s IH]; intros n H.
  - destruct n; reflexivity.
  - destruct n as [|n]; cbn [String.length] in H; [lia|].
    cbn [substring]. rewrite IH by lia. reflexivity.
Qed.

Lemma substring_drop :
  forall (m : nat) (s : string) (n : nat),
    (m <= String.length s)%nat ->
    (String.length s <= m + n)%nat ->
    exists head, s = (head ++ substring m n s)%string /\ String.length head = m.
Proof.
  induction m as [|m IH]; intros s n Hm Hn.
  - exists ""%string. rewrite substring_all by lia. split; reflexivity.
  - destruct s as [|c s]; cbn [String.length] in Hm, Hn; [lia|].
    destruct (IH s n ltac:(lia) ltac:(lia)) as [head [Hs Hl]].
    exists (String c head). cbn [substring append String.length].
    split; [rewrite <- Hs; reflexivity | lia].
Qed.

Lemma string_length_app (a b : string) :
  String.length (a ++ b) = (String.length a + String.length b)%nat.
Proof. induction a as [|c a IH]; cbn; [reflexivity | rewrite IH; reflexivity]. Qed.

(** [s[-n:]] is the end of [s], [n] characters long, or all of [s] when
    it is shorter. *)
Lemma last_chars_spec (n : nat) (s : string) :
  exists head,
    s = (head ++ last_chars n s)%string
    /\ String.length (last_chars n s) = Nat.min n (String.length s).
Proof.
  unfold last_chars.
  destruct (substring_drop (String.length s - n) s n) as [head [Hs Hl]];
    try lia.
  exists head. split; [exact Hs|].
  pose proof (f_equal String.length Hs) as HL.
  rewrite string_length_app in HL. lia.
Qed.

(** ** Sequence Driver *)

(** C10: every rollout-creation request [main] sends lies in the run of
    the loop body for one bundle of the chosen sequence: the last opening
    line printed before it is that of the bundle at place [k + 1] of the
    sequence, counted from 1, and [k] opening lines precede that one.
    The request asks for one group and action type "forced", for the
    identifier that was found for that bundle, under the name
    "Rollout_Seq_", the sequence key, "_", the last five characters of
    the first serial (all of it when it is shorter), "_" and [k + 1]. *)
Theorem main_creates_named_rollouts (fuel : nat)
    (sequences : list (string * list bundle)) (seq_choice : string)
    (rows : list (list string)) (interval timeout : Z) (w : world S) :
  exists added,
    trace (snd (main serve fuel sequences seq_choice rows interval timeout w))
    = (trace w ++ added)%list
    /\ forall before payload r after,
         added = (before ++ Request (Req POST Rollouts payload) r :: after)%list ->
         exists dss first rest head suffix k ds ds_id front mid,
           lookup_sequence sequences seq_choice = Some dss
           /\ collect_serials rows = first :: rest
           /\ first = (head ++ suffix)%string
           /\ String.length suffix = Nat.min 5 (String.length first)
           /\ nth_error dss k = Some ds
           /\ before
              = (front
                   ++ Print (MsgStartingRollout (Z.of_nat k + 1)
                               (Z.of_nat (List.length dss))
                               (bundle_name ds) (bundle_version ds))
                   :: mid)%list
           /\ count starting front = k
           /\ Forall (fun e => starting e = false) mid
           /\ In (Print (MsgDsFound (bundle_name ds) (bundle_version ds) ds_id))
                mid
           /\ payload
              = Some
                  (JObj [("name",
                          JStr ("Rollout_Seq_" ++ seq_choice ++ "_" ++ suffix
                                  ++ "_" ++ str_of_int (Z.of_nat k + 1)));
                         ("distributionSetId", ds_id);
                         ("targetFilterQuery", JStr (or_query (first :: rest)));
                         ("actionType", JStr "forced");
                         ("amountGroups", JNum 1);
                         ("start", JStr "auto")]).
Proof.
  set (G := fun added : list event =>
              forall before payload r after,
                added = (before ++ Request (Req POST Rollouts payload) r :: after)%list ->
                exists dss first rest head suffix k ds ds_id front mid,
                  lookup_sequence sequences seq_choice = Some dss
                  /\ collect_serials rows = first :: rest
                  /\ first = (head ++ suffix)%string
                  /\ String.length suffix = Nat.min 5 (String.length first)
                  /\ nth_error dss k = Some ds
                  /\ before
                     = (front
                          ++ Print (MsgStartingRollout (Z.of_nat k + 1)
                                      (Z.of_nat (List.length dss))
                                      (bundle_name ds) (bundle_version ds))
                          :: mid)%list
                  /\ count starting front = k
                  /\ Forall (fun e => starting e = false) mid
                  /\ In (Print (MsgDsFound (bundle_name ds) (bundle_version ds)
                                  ds_id)) mid
                  /\ payload
                     = Some
                         (JObj [("name",
                                 JStr ("Rollout_Seq_" ++ seq_choice ++ "_"
                                         ++ suffix ++ "_"
                                         ++ str_of_int (Z.of_nat k + 1)));
                                ("distributionSetId", ds_id);
                                ("targetFilterQuery",
                                 JStr (or_query (first :: rest)));
                                ("actionType", JStr "forced");
                                ("amountGroups", JNum 1);
                                ("start", JStr "auto")])).
  assert (G0 : forall l, Forall aside l -> G l).
  { intros l Fl before payload r after E. exfalso.
    exact (no_create_split _ _ _ _ _ (aside_no_create _ Fl) E). }
  assert (GL : forall l1 l2, Forall aside l1 -> G l2 -> G (l1 ++ l2)%list).
  { intros l1 l2 F1 G2 before payload r after E.
    destruct (split_create _ _ _ _ _ (aside_no_create _ F1) _ E)
      as [mid' [Hmid E2]].
    destruct (G2 mid' payload r after E2)
      as [dss [first [rest [head [suffix [k [ds [ds_id [front [mid H]]]]]]]]]].
    destruct H as [H1 [H2 [H3 [H4 [H5 [H6 [H7 [H8 [H9 H10]]]]]]]]].
    exists dss, first, rest, head, suffix, k, ds, ds_id, (l1 ++ front)%list, mid.
    split; [exact H1|]. split; [exact H2|]. split; [exact H3|].
    split; [exact H4|]. split; [exact H5|]. split.
    { rewrite Hmid, H6, <- app_assoc. reflexivity. }
    split.
    { rewrite count_app, H7, (count_none _ _ (aside_no_start _ F1)).
      reflexivity. }
    split; [exact H8|]. split; [exact H9 | exact H10]. }
  assert (GR : forall l1 l2, G l1 -> Forall aside l2 -> G (l1 ++ l2)%list).
  { intros l1 l2 G1 F2 before payload r after E.
    destruct (split_in_app _ _ _ _ _ E) as [[m E1] | [b [Hb E2]]].
    - exact (G1 _ _ _ _ E1).
    - exfalso.
      exact (no_create_split _ _ _ _ _ (aside_no_create _ F2) E2). }
  revert w.
  change (adds G (main serve fuel sequences seq_choice rows interval timeout)).
  unfold main.
  apply adds_bind_left; [exact G0 | exact GL | |intros _].
  { apply emits_print. split; reflexivity. }
  apply adds_bind_left; [exact G0 | exact GL | apply aside_print_sequences | intros _].
  destruct (lookup_sequence sequences seq_choice) as [dss|] eqn:Hseq.
  2:{ apply adds_aside; [exact G0|]. apply emits_print. split; reflexivity. }
  unfold generate_or_query.
  destruct (collect_serials rows) as [|first rest] eqn:Hser.
  - unfold lift at 1. rewrite bind_raise_fun.
    apply adds_aside; [exact G0 | apply emits_raise].
  - unfold lift at 1. rewrite bind_ret_fun.
    unfold lift at 1. rewrite bind_ret_fun.
    apply adds_bind_left; [exact G0 | exact GL | |intros _].
    { apply emits_print. split; reflexivity. }
    apply adds_bind_left; [exact G0 | exact GL | |intros _].
    { apply emits_print. split; reflexivity. }
    apply adds_bind_left;
      [exact G0 | exact GL | apply aside_create_target_filter | intros ok].
    destruct (negb ok).
    { apply adds_aside; [exact G0|]. apply emits_print. split; reflexivity. }
    apply adds_bind_right; [exact GR | |].
    + apply (adds_weaken
               (placed seq_choice (last_chars 5 first) (or_query (first :: rest))
                  (Z.of_nat (List.length dss)) 1 dss));
        [|apply rollout_loop_placed].
      intros l Hl before payload r after E.
      destruct (Hl before payload r after E)
        as [k [ds [ds_id [front [mid [H5 [H6 [H7 [H8 [H9 H10]]]]]]]]]].
      destruct (last_chars_spec 5 first) as [head [Hhead Hlen]].
      exists dss, first, rest, head, (last_chars 5 first), k, ds, ds_id, front, mid.
      rewrite (Z.add_comm (Z.of_nat k) 1).
      split; [reflexivity|]. split; [reflexivity|]. split; [exact Hhead|].
      split; [exact Hlen|]. split; [exact H5|]. split; [exact H6|].
      split; [exact H7|]. split; [exact H8|]. split; [exact H9 | exact H10].
    + intros _. apply emits_bind; [|intros _; apply aside_check_targets].
      apply emits_print. split; reflexivity.
Qed.

Lemma bind_run {A B : Type} (c : M S A) (k : A -> M S B) (w w' : world S)
    (a : A) :
  c w = (Ret a, w') -> bind c k w = k a w'.
Proof. intros H. unfold bind. rewrite H. reflexivity. Qed.

(** Once called with fuel for one round, the monitor prints its first
    line and polls. *)
Lemma monitor_enters (fuel : nat) (rid : json) (interval timeout : Z)
    (w : world S) :
  exists x rest,
    trace (snd (monitor_rollout_until_done serve (Datatypes.S fuel) rid interval
                  timeout w))
    = (trace w ++ Print MsgMonitoring
         :: Request (Req GET (Rollout rid) None) x :: rest)%list.
Proof.
  unfold monitor_rollout_until_done. rewrite bind_print, bind_time.
  set (w0 := printed w MsgMonitoring).
  set (h := (print MsgMonitorStopped ;; ret Interrupted)%run).
  cbn [monitor_loop]. unfold session_get.
  set (q := Req GET (Rollout rid) None).
  match goal with
  | |- context [bind (http serve q) ?k] => set (kk := k)
  end.
  assert (Hh : emits (requests_in (fun _ => True)) (h : M S monitor_exit)).
  { unfold h. emits_auto. }
  destruct (serve q (srv w0)) as [[e|r] s'] eqn:Hs.
  - unfold except_interrupt. rewrite (bind_http_exn _ _ _ _ _ Hs).
    set (w1 := World s' (hz w0) (clock w0) (trace w0 ++ [Request q (inl e)])).
    assert (Ht1 : trace w1
                  = (trace w ++ [Print MsgMonitoring; Request q (inl e)])%list).
    { cbn. rewrite <- app_assoc. reflexivity. }
    assert (Hl : exists l,
               trace (snd (match (@Exc monitor_exit e, w1) with
                           | (Exc KeyboardInterrupt, w') => h w'
                           | other => other
                           end))
               = (trace w1 ++ l)%list).
    { destruct e; try (exists []; cbn [snd]; rewrite app_nil_r; reflexivity).
      destruct (Hh w1) as [l [Hl _]]. exists l. exact Hl. }
    destruct Hl as [l Hl]. exists (inl e), l.
    rewrite Hl, Ht1, <- app_assoc. reflexivity.
  - assert (Hk : emits (requests_in (fun _ => True)) (except_interrupt (kk r) h)).
    { apply emits_except; [|exact Hh]. unfold kk. emits_auto.
      all: apply emits_monitor_loop; exact I. }
    assert (Hrun : except_interrupt (bind (http serve q) kk) h w0
                   = except_interrupt (kk r) h (answered w0 q r s')).
    { unfold except_interrupt. rewrite (bind_http _ _ _ _ _ Hs). reflexivity. }
    rewrite Hrun. destruct (Hk (answered w0 q r s')) as [l [Hl _]].
    exists (inr r), l. rewrite Hl. cbn. rewrite <- !app_assoc. reflexivity.
Qed.

(** C3 (as amended): when the activation of a created rollout runs out
    of attempts, no start command has been sent, and the driver goes on
    with that rollout all the same: what is left of the sequence loop is
    the monitor on that rollout followed by the loop on the bundles after
    it, and the monitor starts by printing its first line and polling. *)
Theorem activation_timeout_then_monitor (fuel : nat)
    (key suffix query : string) (interval timeout total idx : Z)
    (ds : bundle) (more : list bundle) (w w1 w2 w3 : world S)
    (ds_id rid : json) (added : list event) :
  get_distribution_set serve (bundle_name ds) (bundle_version ds)
    (printed w (MsgStartingRollout idx total (bundle_name ds) (bundle_version ds)))
  = (Ret ds_id, w1) ->
  truthy ds_id = true ->
  create_rollout serve (rollout_name key suffix idx) query ds_id 1 "forced" w1
  = (Ret rid, w2) ->
  truthy rid = true ->
  start_rollout serve rid w2 = (Ret tt, w3) ->
  trace w3 = (trace w2 ++ added)%list ->
  In (Print MsgReadyTimeout) added ->
  existsb is_start added = false
  /\ rollout_loop serve fuel key suffix query interval timeout total idx
       (ds :: more) w
     = bind (monitor_rollout_until_done serve fuel rid interval timeout)
         (fun _ => rollout_loop serve fuel key suffix query interval timeout
                     total (idx + 1) more) w3
  /\ (forall fuel', fuel = Datatypes.S fuel' ->
      exists x rest,
        trace (snd (monitor_rollout_until_done serve fuel rid interval timeout w3))
        = (trace w3 ++ Print MsgMonitoring
             :: Request (Req GET (Rollout rid) None) x :: rest)%list).
Proof.
  intros Hds Htd Hcr Htr Hst Hadd Hin.
  split; [|split].
  - destruct (start_rollout_trace rid w2)
      as [added' [Ht [_ [_ [_ [_ [_ [Hto _]]]]]]]].
    rewrite Hst in Ht. cbn [snd] in Ht. rewrite Hadd in Ht.
    apply app_inv_head in Ht. subst added'.
    apply Hto. exact Hin.
  - cbn [rollout_loop]. unfold rollout_step.
    rewrite bind_bind, bind_print, bind_bind, (bind_run _ _ _ _ _ Hds), Htd.
    cbn [negb].
    rewrite bind_bind, (bind_run _ _ _ _ _ Hcr), Htr.
    rewrite bind_bind, (bind_run _ _ _ _ _ Hst), bind_bind.
    reflexivity.
  - intros fuel' ->. apply monitor_enters.
Qed.

End ClientFacts.

Lemma monitor_terminates_witness :
  exists w',
    monitor_rollout_until_done (steady running_3) 5 (JNum 7) 10 25 (start_world tt)
    = (Ret TimedOut, w')
    /\ 25 * 1000 < clock w'.
Proof.
  destruct (monitor_terminates (steady running_3) (JNum 7) 10 25 5 (start_world tt))
    as [H _].
  - intros s. exists running_3, s, [("status", JStr "running"); ("totalTargets", JNum 2)].
    repeat split; reflexivity.
  - vm_compute. lia.
  - destruct H as [pre [r [st [prog [w' [Hrun [_ [Hst [_ [_ [_ [_ [Hover Hbound]]]]]]]]]]]]];
      [lia|].
    exists w'.
    assert (monitor_rollout_until_done (steady running_3) 5 (JNum 7) 10 25
              (start_world tt)
            = (Ret TimedOut,
               snd (monitor_rollout_until_done (steady running_3) 5 (JNum 7) 10 25
                      (start_world tt)))) as E by (vm_compute; reflexivity).
    rewrite E in Hrun.
    assert (is_terminal st = false) as Hnt.
    { destruct (is_terminal st); [discriminate Hrun | reflexivity]. }
    split; [congruence|].
    specialize (Hover Hnt). cbn [start_world clock hz] in Hover. lia.
Defined.

(** C1 (as stated) fails when a poll is slow: with interval 10 and
    timeout 50, one poll that takes 100 seconds (the clock ticking 1000
    times a second) ends the monitoring by timeout at elapsed time 100,
    more than one interval past the timeout.  It also
    fails for a negative interval: the sleep after the first poll raises
    [ValueError], which is neither "ended" nor "timed out"; and for a 200
    reply whose body is not JSON, which raises [JSONDecodeError]. *)
Lemma monitor_slow_poll_counterexample :
  let run := monitor_rollout_until_done (steady running_slowly) 5 (JNum 7)
               10 50 (start_world tt) in
  always_200 (steady running_slowly) (JNum 7)
  /\ fst run = Ret TimedOut
  /\ hz (start_world tt) = 1000%positive
  /\ clock (snd run) - clock (start_world tt) = 100 * 1000
  /\ ~ (clock (snd run) - clock (start_world tt) <= (50 + 10) * 1000)
  /\ fst (monitor_rollout_until_done (steady running_slowly) 5 (JNum 7)
            (-1) 500 (start_world tt)) = Exc ValueError
  /\ fst (monitor_rollout_until_done (steady (Resp 200 None "<html>" 1)) 5
            (JNum 7) 10 50 (start_world tt)) = Exc JSONDecodeError.
Proof.
  split.
  - intros s. exists running_slowly, s, [("status", JStr "running")].
    repeat split; reflexivity.
  - split; [reflexivity|]. split; [reflexivity|]. split; [reflexivity|].
    split; [|split; reflexivity].
    intros H. vm_compute in H. apply H. reflexivity.
Qed.

Lemma hawkbit_post_rollout (h : hawkbit) (name query : string) (ds_id : json)
    (group_size : Z) (action_type : string) :
  hawkbit_serve
    (Req POST Rollouts
       (Some (rollout_payload name query ds_id group_size action_type))) h
  = if rollout_taken name (rollouts h) then (reply 409 None, h)
    else
      (reply 201 (Some (rollout_json (RolloutRow (next_id h) name "ready"))),
       Hawkbit (catalog h) (filters h)
         (rollouts h ++ [RolloutRow (next_id h) name "ready"]) (next_id h + 1)).
Proof. reflexivity. Qed.

Lemma rollout_taken_added (name : string) (l : list rollout_row) (id : Z)
    (st : string) :
  rollout_taken name (l ++ [RolloutRow id name st]) = true.
Proof.
  unfold rollout_taken. rewrite existsb_app. simpl.
  rewrite String.eqb_refl. apply orb_true_iff. right. reflexivity.
Qed.

(** On the reference server, creating a rollout under a fresh name and
    then calling again with that name: the first call returns the new id,
    the second returns [None] after the "already exists" line, and the
    server holds what it held after the first call. *)
Lemma create_rollout_twice (w : world hawkbit) (name query query' : string)
    (ds_id ds_id' : json) (group_size group_size' : Z)
    (action_type action_type' : string) :
  rollout_taken name (rollouts (srv w)) = false ->
  let first := create_rollout hawkbit_serve name query ds_id group_size
                 action_type w in
  let second := create_rollout hawkbit_serve name query' ds_id' group_size'
                  action_type' (snd first) in
  fst first = Ret (JNum (next_id (srv w)))
  /\ fst second = Ret JNull
  /\ last (trace (snd second)) (Sleep 0) = Print (MsgRolloutExists name)
  /\ srv (snd second) = srv (snd first)
  /\ rollouts (srv (snd second))
     = (rollouts (srv w) ++ [RolloutRow (next_id (srv w)) name "ready"])%list.
Proof.
  intros Hfresh first second.
  pose proof (hawkbit_post_rollout (srv w) name query ds_id group_size action_type) as H1.
  rewrite Hfresh in H1.
  destruct (create_rollout_outcomes_any_server hawkbit_serve name query ds_id
              group_size action_type w _ _ H1) as [Hok _].
  specialize (Hok (or_intror eq_refl) _ (JNum (next_id (srv w))) eq_refl eq_refl).
  assert (Hfirst : first = _) by exact Hok. clearbody first.
  subst first. cbn [fst snd] in *.
  set (w1 := printed _ (MsgRolloutCreated _ _)) in *.
  pose proof (hawkbit_post_rollout (srv w1) name query' ds_id' group_size' action_type') as H2.
  assert (rollout_taken name (rollouts (srv w1)) = true) as Ht
    by apply rollout_taken_added.
  rewrite Ht in H2.
  destruct (create_rollout_outcomes_any_server hawkbit_serve name query' ds_id'
              group_size' action_type' w1 _ _ H2) as [_ [Hskip _]].
  specialize (Hskip eq_refl).
  assert (Hsecond : second = _) by exact Hskip. clearbody second.
  subst second. cbn [fst snd].
  split; [reflexivity|]. split; [reflexivity|].
  split; [|split; reflexivity].
  unfold printed at 1. cbn [trace]. apply last_last.
Qed.

Lemma hawkbit_post_filter (h : hawkbit) (name query : string) :
  hawkbit_serve (Req POST TargetFilters (Some (filter_payload name query))) h
  = if filter_taken name (filters h) then (reply 409 None, h)
    else
      (reply 201 (Some (filter_json (FilterRow (next_id h) name query))),
       Hawkbit (catalog h) (filters h ++ [FilterRow (next_id h) name query])
         (rollouts h) (next_id h + 1)).
Proof. reflexivity. Qed.

Lemma hawkbit_put_filter (h : hawkbit) (id : Z) (name query : string) :
  hawkbit_serve
    (Req PUT (TargetFilter (JNum id)) (Some (filter_payload name query))) h
  = if existsb (fun f => f_id f =? id) (filters h) then
      (reply 200 (Some (filter_json (FilterRow id name query))),
       Hawkbit (catalog h) (replace_filter id name query (filters h))
         (rollouts h) (next_id h))
    else (reply 404 None, h).
Proof. reflexivity. Qed.

Lemma hawkbit_filter_list (h : hawkbit) :
  returned_list
    (Resp 200 (Some (JObj [("content", JArr (map filter_json (filters h)))])) "" 1)
    "targetfilters"
  = Some (map filter_json (filters h)).
Proof.
  unfold returned_list. cbn [json_body].
  destruct (filters h); reflexivity.
Qed.

Lemma first_filter_id_rows (name : string) (l : list filter_row) :
  first_filter_id (map filter_json l) name
  = inr (match find (fun f => (f_name f =? name)%string) l with
         | Some f => JNum (f_id f)
         | None => JNull
         end).
Proof.
  induction l as [|f l IH].
  - reflexivity.
  - cbn [map first_filter_id find].
    change (get (filter_json f) "name") with (@inr exn json (JStr (f_name f))).
    cbn [eq_str]. destruct (f_name f =? name)%string; [reflexivity | exact IH].
Qed.

Lemma find_added_filter (name query : string) (id : Z) (l : list filter_row) :
  filter_taken name l = false ->
  find (fun f => (f_name f =? name)%string) (l ++ [FilterRow id name query])
  = Some (FilterRow id name query).
Proof.
  unfold filter_taken. induction l as [|f l IH]; cbn [existsb find app]; intros H.
  - cbn [f_name]. rewrite String.eqb_refl. reflexivity.
  - apply orb_false_iff in H. destruct H as [H1 H2]. rewrite H1. apply IH, H2.
Qed.

Lemma replace_added_filter (name q1 q2 : string) (id : Z) (l : list filter_row) :
  Forall (fun f => 1 <= f_id f < id) l ->
  replace_filter id name q2 (l ++ [FilterRow id name q1])
  = (l ++ [FilterRow id name q2])%list.
Proof.
  unfold replace_filter. induction 1 as [|f l Hf _ IH]; cbn [map app].
  - cbn [f_id]. rewrite Z.eqb_refl. reflexivity.
  - rewrite IH. assert ((f_id f =? id) = false) as -> by (apply Z.eqb_neq; lia).
    reflexivity.
Qed.

(** On the reference server, registering a filter under a fresh name and
    registering again under that name with another expression: both calls
    return [True], the second by updating, and the one filter stored
    under the name holds the second expression. *)
Lemma create_target_filter_twice (w : world hawkbit) (name q1 q2 : string) :
  hawkbit_wf (srv w) ->
  filter_taken name (filters (srv w)) = false ->
  let first := create_target_filter hawkbit_serve name q1 w in
  let second := create_target_filter hawkbit_serve name q2 (snd first) in
  fst first = Ret true
  /\ fst second = Ret true
  /\ last (trace (snd second)) (Sleep 0) = Print MsgFilterUpdated
  /\ filters (srv (snd second))
     = (filters (srv w) ++ [FilterRow (next_id (srv w)) name q2])%list.
Proof.
  intros [Hn [Hf _]] Hfresh first second.
  pose proof (hawkbit_post_filter (srv w) name q1) as H1.
  rewrite Hfresh in H1.
  destruct (create_target_filter_outcomes_any_server hawkbit_serve name q1 w
              _ _ H1) as [Hok _].
  specialize (Hok (or_intror eq_refl)).
  assert (Hfirst : first = _) by exact Hok. clearbody first.
  subst first. cbn [fst snd] in *.
  set (w1 := printed _ (MsgFilterCreated _)) in *.
  set (h1 := srv w1).
  assert (Hfs : filters h1
                = (filters (srv w) ++ [FilterRow (next_id (srv w)) name q1])%list)
    by reflexivity.
  pose proof (hawkbit_post_filter h1 name q2) as H2.
  assert (filter_taken name (filters h1) = true) as Ht.
  { rewrite Hfs. unfold filter_taken. rewrite existsb_app. cbn [existsb f_name].
    rewrite String.eqb_refl. apply orb_true_iff. right. reflexivity. }
  rewrite Ht in H2.
  destruct (create_target_filter_outcomes_any_server hawkbit_serve name q2 w1
              _ _ H2) as [_ [_ Hup]].
  specialize (Hup eq_refl _ h1 (map filter_json (filters h1))
                (JNum (next_id (srv w))) eq_refl (hawkbit_filter_list h1)).
  rewrite first_filter_id_rows, Hfs, (find_added_filter _ _ _ _ Hfresh) in Hup.
  specialize (Hup eq_refl). destruct Hup as [_ Hup].
  assert (truthy (JNum (next_id (srv w))) = true) as Htr.
  { cbn [truthy]. apply negb_true_iff, Z.eqb_neq. lia. }
  pose proof (hawkbit_put_filter h1 (next_id (srv w)) name q2) as H3.
  assert (existsb (fun f => f_id f =? next_id (srv w)) (filters h1) = true) as He.
  { rewrite Hfs, existsb_app. cbn [existsb f_id]. rewrite Z.eqb_refl.
    apply orb_true_iff. right. reflexivity. }
  rewrite He in H3.
  destruct (Hup Htr _ _ H3) as [Hput _].
  specialize (Hput (or_introl eq_refl)).
  assert (Hsecond : second = _) by exact Hput. clearbody second.
  subst second. cbn [fst snd].
  split; [reflexivity|]. split; [reflexivity|].
  split.
  - unfold printed at 1. cbn [trace]. apply last_last.
  - cbn [printed answered srv filters]. rewrite Hfs.
    apply replace_added_filter. exact Hf.
Qed.

(** C5: after a 409 on creation [create_target_filter] lists the
    filters, takes the id of the first entry whose name is the requested
    one, and puts the new expression on that id; it then returns [True]
    exactly when the update answers 200 or 204, and [False] when no id was
    found.  A first status other than 200, 201 and 409 gives [False].
    Against a server that refuses taken names and updates by id, a second
    call under the same name leaves the new expression stored. *)
Theorem create_target_filter_upsert :
  (forall (S : Type) (serve : request -> S -> (exn + response) * S)
          (name query : string) (w : world S) (r : response) (s1 : S),
     let payload := filter_payload name query in
     let q := Req POST TargetFilters (Some payload) in
     let w1 := answered w q r s1 in
     serve q (srv w) = (inr r, s1) ->
     (status_code r = 200 \/ status_code r = 201 ->
      create_target_filter serve name query w
      = (Ret true, printed w1 (MsgFilterCreated name)))
     /\ (status_code r <> 200 -> status_code r <> 201 -> status_code r <> 409 ->
         create_target_filter serve name query w
         = (Ret false,
            printed w1 (MsgFilterCreationFailed (status_code r) (text r))))
     /\ (status_code r = 409 ->
         forall resp s2 items fid,
           serve (Req GET TargetFilters None) s1 = (inr resp, s2) ->
           returned_list resp "targetfilters" = Some items ->
           first_filter_id items name = inr fid ->
           let w2 := answered (printed w1 (MsgFilterExists name))
                       (Req GET TargetFilters None) resp s2 in
           (truthy fid = false ->
            create_target_filter serve name query w
            = (Ret false, printed w2 MsgFilterIdNotFound))
           /\ (truthy fid = true ->
               forall u s3,
                 serve (Req PUT (TargetFilter fid) (Some payload)) s2
                 = (inr u, s3) ->
                 let w3 := answered w2
                             (Req PUT (TargetFilter fid) (Some payload)) u s3 in
                 (status_code u = 200 \/ status_code u = 204 ->
                  create_target_filter serve name query w
                  = (Ret true, printed w3 MsgFilterUpdated))
                 /\ (status_code u <> 200 -> status_code u <> 204 ->
                     create_target_filter serve name query w
                     = (Ret false,
                        printed w3
                          (MsgFilterUpdateFailed (status_code u) (text u)))))))
  /\ (forall (name : string) (items : list json),
        Forall (fun f => is_dict f = true) items ->
        first_filter_id items name
        = inr (match find (named name) items with
               | Some f => id_of f
               | None => JNull
               end))
  /\ (forall (w : world hawkbit) (name q1 q2 : string),
        hawkbit_wf (srv w) ->
        filter_taken name (filters (srv w)) = false ->
        let first := create_target_filter hawkbit_serve name q1 w in
        let second := create_target_filter hawkbit_serve name q2 (snd first) in
        fst first = Ret true
        /\ fst second = Ret true
        /\ last (trace (snd second)) (Sleep 0) = Print MsgFilterUpdated
        /\ filters (srv (snd second))
           = (filters (srv w) ++ [FilterRow (next_id (srv w)) name q2])%list).
Proof.
  split; [|split].
  - intros. apply create_target_filter_outcomes_any_server. assumption.
  - intros. apply first_filter_id_find. assumption.
  - intros. apply create_target_filter_twice; assumption.
Qed.

Lemma create_target_filter_upsert_witness :
  filters (srv (snd (create_target_filter hawkbit_serve "Target_filter" "(new)"
                       (snd (create_target_filter hawkbit_serve "Target_filter"
                               "(old)" (start_world end_to_end))))))
  = [FilterRow 1 "Target_filter" "(new)"].
Proof.
  destruct create_target_filter_upsert as [_ [_ H]].
  destruct (H (start_world end_to_end) "Target_filter" "(old)" "(new)")
    as [_ [_ [_ H4]]].
  - repeat split; try constructor; cbn; lia.
  - reflexivity.
  - exact H4.
Defined.

Lemma activation_timeout_then_monitor_witness :
  exists x rest,
    trace (snd (monitor_rollout_until_done (steady never_ready) 5 (JNum 7) 10 0
                  given_up_world))
    = (trace given_up_world ++ Print MsgMonitoring
         :: Request (Req GET (Rollout (JNum 7)) None) x :: rest)%list.
Proof.
  destruct (activation_timeout_then_monitor (steady never_ready) 5 "1.1" "00001"
              "(q)" 10 0 1 1 (Bundle "fw" "1.1") [] (start_world tt)
              resolved_world created_world given_up_world (JNum 42) (JNum 7)
              (skipn (List.length (trace created_world)) (trace given_up_world)))
    as [_ [_ H]].
  - vm_compute. reflexivity.
  - reflexivity.
  - vm_compute. reflexivity.
  - reflexivity.
  - vm_compute. reflexivity.
  - vm_compute. reflexivity.
  - vm_compute. repeat first [left; reflexivity | right].
  - exact (H 4%nat eq_refl).
Defined.

(** C3 (as stated) fails: against a server whose rollout never becomes
    ready, the activation gives up and the very next events of the run
    are the monitor's first line and its first poll of that rollout; no
    start command is ever sent. *)
Lemma activation_timeout_counterexample :
  let run := main (steady never_ready) 5 [("1.1", [Bundle "fw" "1.1"])] "1.1"
               [["SN00001"]] 10 0 (start_world tt) in
  fst run = Ret tt
  /\ firstn 3 (skipn 72 (trace (snd run)))
     = [Print MsgReadyTimeout; Print MsgMonitoring;
        Request (Req GET (Rollout (JNum 7)) None) (inr never_ready)]
  /\ count is_start (trace (snd run)) = 0%nat.
Proof. vm_compute. repeat split; reflexivity. Qed.

Lemma device_queries_true_only_on_200_witness :
  fst (get_assigned_ds hawkbit_serve "SN00001" (start_world end_to_end))
  = Ret false
  /\ fst (get_installed_ds hawkbit_serve "SN00001" (start_world end_to_end))
     = Ret false.
Proof.
  destruct (device_queries_true_only_on_200 hawkbit_serve "SN00001"
              (start_world end_to_end)) as [Ha Hi].
  destruct (Ha _ _ eq_refl) as [_ [Ha204 _]].
  destruct (Hi _ _ eq_refl) as [_ [Hi204 _]].
  rewrite (Ha204 eq_refl), (Hi204 eq_refl). split; reflexivity.
Defined.

Lemma start_rollout_bounded_wait_witness :
  exists added,
    trace given_up_world = (trace created_world ++ added)%list
    /\ (count is_poll added <= 20)%nat
    /\ (existsb is_start added = true <-> existsb observes_ready added = true).
Proof.
  destruct (start_rollout_bounded_wait (steady never_ready) (JNum 7) created_world)
    as [added [Ht [Hp [_ [_ [Hs _]]]]]].
  exists added. split; [exact Ht|]. split; [exact Hp | exact Hs].
Defined.

(** C4 (as amended): [create_rollout] returns the id found in the
    response body on status 200 or 201 only; on 409 it prints that the
    rollout exists and returns [None], and a second call under the same
    name to a server that refuses taken names creates nothing; on every
    other status, 202 and the other success codes included, it prints the
    status with the response body and returns [None]. *)
Theorem create_rollout_outcomes :
  (forall (S : Type) (serve : request -> S -> (exn + response) * S)
          (name query : string) (ds_id : json) (group_size : Z)
          (action_type : string) (w : world S) (r : response) (s' : S),
     let payload := rollout_payload name query ds_id group_size action_type in
     let q := Req POST Rollouts (Some payload) in
     let w' := answered (printed w (MsgPayload payload)) q r s' in
     serve q (srv w) = (inr r, s') ->
     (status_code r = 200 \/ status_code r = 201 ->
      forall data rid,
        json_body r = Some data ->
        get data "id" = inr rid ->
        create_rollout serve name query ds_id group_size action_type w
        = (Ret rid, printed w' (MsgRolloutCreated name rid)))
     /\ (status_code r = 409 ->
         create_rollout serve name query ds_id group_size action_type w
         = (Ret JNull, printed w' (MsgRolloutExists name)))
     /\ (status_code r <> 200 -> status_code r <> 201 -> status_code r <> 409 ->
         create_rollout serve name query ds_id group_size action_type w
         = (Ret JNull,
            printed w' (MsgRolloutCreationFailed (status_code r) (text r)))))
  /\ (forall (w : world hawkbit) (name query query' : string)
             (ds_id ds_id' : json) (group_size group_size' : Z)
             (action_type action_type' : string),
        rollout_taken name (rollouts (srv w)) = false ->
        let first := create_rollout hawkbit_serve name query ds_id group_size
                       action_type w in
        let second := create_rollout hawkbit_serve name query' ds_id'
                        group_size' action_type' (snd first) in
        fst first = Ret (JNum (next_id (srv w)))
        /\ fst second = Ret JNull
        /\ last (trace (snd second)) (Sleep 0) = Print (MsgRolloutExists name)
        /\ srv (snd second) = srv (snd first)
        /\ rollouts (srv (snd second))
           = (rollouts (srv w) ++ [RolloutRow (next_id (srv w)) name "ready"])%list).
Proof.
  split.
  - intros. apply create_rollout_outcomes_any_server. assumption.
  - intros. apply create_rollout_twice. assumption.
Qed.

Lemma create_rollout_outcomes_witness :
  fst (create_rollout hawkbit_serve "Rollout_Seq_1.1_00001_1" "(q)" (JNum 42)
         1 "forced" (start_world end_to_end)) = Ret (JNum 1)
  /\ fst (create_rollout hawkbit_serve "Rollout_Seq_1.1_00001_1" "(q)" (JNum 42)
            1 "forced"
            (snd (create_rollout hawkbit_serve "Rollout_Seq_1.1_00001_1" "(q)"
                    (JNum 42) 1 "forced" (start_world end_to_end)))) = Ret JNull.
Proof.
  destruct create_rollout_outcomes as [_ H].
  destruct (H (start_world end_to_end) "Rollout_Seq_1.1_00001_1" "(q)" "(q)"
              (JNum 42) (JNum 42) 1 1 "forced" "forced" eq_refl)
    as [H1 [H2 _]].
  split; [exact H1 | exact H2].
Defined.

(** C4 (as stated) fails on status 202: the body carries an id, and the
    call prints a failure and returns [None]. *)
Lemma create_rollout_202_counterexample :
  create_rollout scripted "r" "(q)" (JNum 42) 1 "forced" (start_world accepted_202)
  = (Ret JNull,
     World [] 1000 1
       [Print (MsgPayload (rollout_payload "r" "(q)" (JNum 42) 1 "forced"));
        Request (Req POST Rollouts
                   (Some (rollout_payload "r" "(q)" (JNum 42) 1 "forced")))
                (inr (Resp 202 (Some (JObj [("id", JNum 7)])) "accepted" 1));
        Print (MsgRolloutCreationFailed 202 "accepted")])
  /\ fst (create_rollout scripted "r" "(q)" (JNum 42) 1 "forced"
            (start_world accepted_202)) <> Ret (JNum 7).
Proof. split; [reflexivity | discriminate]. Qed.

Lemma get_distribution_set_exact_match_witness :
  fst (get_distribution_set scripted "fw" "1.1" (start_world two_versions))
  = Ret (JNum 42).
Proof.
  destruct (get_distribution_set_exact_match scripted "fw" "1.1"
              (start_world two_versions)
              (Resp 200 (Some (JObj [("content",
                  JArr [ds_entry "fw" "1.0" 41; ds_entry "fw" "1.1" 42])])) "" 1)
              [] eq_refl) as [_ H].
  destruct (H eq_refl) as [_ Hl].
  destruct (Hl [ds_entry "fw" "1.0" 41; ds_entry "fw" "1.1" 42] eq_refl)
    as [Hfirst _].
  destruct (Hfirst [ds_entry "fw" "1.0" 41] (ds_entry "fw" "1.1" 42) [] eq_refl)
    as [Hm _].
  - repeat constructor.
  - exact (Hm eq_refl).
Defined.

(** C6 (as stated) fails on a 200 reply whose first exact match carries
    no id: the list holds entries with the requested name and version,
    one of them with id 9, and the call returns [None].  It also fails on
    a 200 reply whose body is not JSON: the call raises. *)
Lemma get_distribution_set_no_id_counterexample :
  returned_list (Resp 200 (Some (JObj [("content", JArr match_without_id)])) "" 1)
    "distributionsets" = Some match_without_id
  /\ Exists (fun ds => matches "fw" "1.1" ds = true) match_without_id
  /\ In (ds_entry "fw" "1.1" 9) match_without_id
  /\ fst (get_distribution_set scripted "fw" "1.1" (start_world listing_without_id))
     = Ret JNull
  /\ fst (get_distribution_set scripted "fw" "1.1" (start_world not_json_200))
     = Exc JSONDecodeError.
Proof.
  split; [reflexivity|]. split; [left; reflexivity|].
  split; [right; left; reflexivity|]. split; reflexivity.
Qed.



Lemma main_creates_named_rollouts_witness :
  let out := main hawkbit_serve 10 one_sequence "1.1"
               [["SN00001"; "SN00002"]] 10 1800 (start_world end_to_end) in
  exists before payload r after head suffix k ds ds_id,
    trace (snd out)
    = (before ++ Request (Req POST Rollouts payload) r :: after)%list
    /\ "SN00001" = (head ++ suffix)%string
    /\ String.length suffix = 5%nat
    /\ nth_error [Bundle "fw" "1.1"] k = Some ds
    /\ payload
       = Some
           (JObj [("name",
                   JStr ("Rollout_Seq_" ++ "1.1" ++ "_" ++ suffix ++ "_"
                           ++ str_of_int (Z.of_nat k + 1)));
                  ("distributionSetId", ds_id);
                  ("targetFilterQuery", JStr (or_query ["SN00001"; "SN00002"]));
                  ("actionType", JStr "forced");
                  ("amountGroups", JNum 1);
                  ("start", JStr "auto")]).
Proof.
  intros out.
  destruct (main_creates_named_rollouts hawkbit_serve 10 one_sequence "1.1"
              [["SN00001"; "SN00002"]] 10 1800 (start_world end_to_end))
    as [added [Ht H]].
  fold out in Ht. cbn [start_world trace app] in Ht.
  assert (Hc : existsb is_create (trace (snd out)) = true)
    by (vm_compute; reflexivity).
  rewrite Ht in Hc.
  destruct (create_request_split _ Hc) as [before [payload [r [after E]]]].
  destruct (H before payload r after E)
    as [dss [first [rest [head [suffix [k [ds [ds_id [front [mid HH]]]]]]]]]].
  destruct HH as [H1 [H2 [H3 [H4 [H5 [_ [_ [_ [_ H10]]]]]]]]].
  vm_compute in H1. injection H1 as <-.
  vm_compute in H2. injection H2 as <- <-.
  exists before, payload, r, after, head, suffix, k, ds, ds_id.
  split; [rewrite Ht; exact E|]. split; [exact H3|]. split; [exact H4|].
  split; [exact H5 | exact H10].
Defined.

(** ** A run against the reference server *)

Example end_to_end_run :
  let out := main hawkbit_serve 10 [("1.1", [Bundle "fw" "1.1"])] "1.1"
               [["SN00001"; "SN00002"]] 10 1800 (start_world end_to_end) in
  fst out = Ret tt
  /\ filter (fun e => match e with Print (MsgRolloutEnded _) => true
                                 | Print (MsgDsFound _ _ _) => true
                                 | Print (MsgRolloutCreated _ _) => true
                                 | Print (MsgRolloutStarted _) => true
                                 | Sleep _ => true
                                 | _ => false end) (trace (snd out))
     = [Print (MsgDsFound "fw" "1.1" (JNum 42));
        Print (MsgRolloutCreated "Rollout_Seq_1.1_00001_1" (JNum 2));
        Print (MsgRolloutStarted (JNum 2));
        Sleep 10;
        Print (MsgRolloutEnded (JStr "finished"))].
Proof. vm_compute. split; reflexivity. Qed.

(** * Further properties of the script *)

(** ** What [generate_or_query] keeps *)

Lemma is_space_lstrip (s : string) :
  match lstrip s with
  | EmptyString => True
  | String c _ => is_space c = false
  end.
Proof.
  induction s as [|c s IH]; cbn [lstrip]; [exact I|].
  destruct (is_space c) eqn:E; [exact IH | exact E].
Qed.

Lemma lstrip_fixed (s : string) :
  match s with
  | EmptyString => True
  | String c _ => is_space c = false
  end ->
  lstrip s = s.
Proof. destruct s as [|c s]; cbn [lstrip]; [reflexivity | intros ->; reflexivity]. Qed.

Lemma rstrip_rstrip (s : string) : rstrip (rstrip s) = rstrip s.
Proof.
  induction s as [|c s IH]; [reflexivity|].
  cbn [rstrip]. destruct (rstrip s) as [|d t] eqn:E.
  - destruct (is_space c) eqn:Ec; [reflexivity|].
    cbn [rstrip]. rewrite Ec. reflexivity.
  - cbn [rstrip]. cbn [rstrip] in IH. rewrite IH. reflexivity.
Qed.

Lemma rstrip_head (s : string) :
  match s with
  | EmptyString => True
  | String c _ => is_space c = false
  end ->
  match rstrip s with
  | EmptyString => s = EmptyString
  | String c _ => is_space c = false
  end.
Proof.
  destruct s as [|c s]; [reflexivity|]. intros Hc. cbn [rstrip].
  destruct (rstrip s); [rewrite Hc|]; exact Hc.
Qed.

Lemma strip_strip (s : string) : strip (strip s) = strip s.
Proof.
  unfold strip.
  pose proof (rstrip_head (lstrip s) (is_space_lstrip s)) as H.
  rewrite (lstrip_fixed (rstrip (lstrip s))).
  - apply rstrip_rstrip.
  - destruct (rstrip (lstrip s)); [exact I | exact H].
Qed.

Lemma kept_spec (v : string) :
  kept v = filter (fun s => negb (s =? "")%string) [strip v].
Proof. unfold kept. cbn. destruct (strip v =? "")%string; reflexivity. Qed.

(** X1: the serials [generate_or_query] returns are the cells of the file
    in reading order, each stripped, without the blank ones; none of them
    is empty and stripping one again changes nothing. *)
Theorem collect_serials_stripped (rows : list (list string)) :
  collect_serials rows
  = filter (fun s => negb (s =? "")%string) (map strip (concat rows))
  /\ Forall (fun s => s <> "" /\ strip s = s) (collect_serials rows).
Proof.
  assert (E : collect_serials rows
              = filter (fun s => negb (s =? "")%string) (map strip (concat rows))).
  { unfold collect_serials. induction rows as [|row rows IH].
    - reflexivity.
    - cbn [flat_map concat]. rewrite map_app, filter_app, <- IH. f_equal.
      clear IH. induction row as [|v row IHr]; [reflexivity|].
      cbn [flat_map map]. rewrite kept_spec, IHr. cbn [filter].
      destruct (negb (strip v =? "")%string); reflexivity. }
  split; [exact E|].
  rewrite E. apply Forall_forall. intros s Hs.
  apply filter_In in Hs. destruct Hs as [Hin Hne].
  apply in_map_iff in Hin. destruct Hin as [v [<- _]].
  split.
  - intros H. rewrite H in Hne. discriminate.
  - apply strip_strip.
Qed.

(** ** Generated names *)

Lemma string_app_inv_head (p a b : string) :
  (p ++ a = p ++ b)%string -> a = b.
Proof.
  induction p as [|c p IH]; cbn [append]; intros H; [exact H|].
  inversion H. apply IH. assumption.
Qed.

Lemma to_int_not_nil (z : Z) :
  Z.to_int z <> Decimal.Pos Decimal.Nil /\ Z.to_int z <> Decimal.Neg Decimal.Nil.
Proof.
  split; intros H; pose proof (f_equal Z.of_int H) as E;
    rewrite DecimalZ.of_to in E; cbn in E; subst z; discriminate H.
Qed.

Lemma str_of_int_inj (i j : Z) : str_of_int i = str_of_int j -> i = j.
Proof.
  unfold str_of_int. intros H.
  destruct (to_int_not_nil i) as [Hi1 Hi2].
  destruct (to_int_not_nil j) as [Hj1 Hj2].
  apply (f_equal NilZero.int_of_string) in H.
  rewrite !NilZero.isi in H by assumption.
  inversion H as [H']. apply DecimalZ.to_int_inj. exact H'.
Qed.

(** X2: for one sequence key and one serial suffix, two different
    positions never get the same rollout name. *)
Theorem rollout_name_position_injective (key suffix : string) (i j : Z) :
  i <> j -> rollout_name key suffix i <> rollout_name key suffix j.
Proof.
  intros Hij H. apply Hij. unfold rollout_name in H.
  repeat (apply string_app_inv_head in H).
  apply str_of_int_inj. exact H.
Qed.

Lemma rollout_name_position_injective_witness :
  rollout_name "1.1" "00001" 1 <> rollout_name "1.1" "00001" 2.
Proof. apply rollout_name_position_injective. lia. Defined.

Section ClientMore.

Context {S : Type}.
Variable serve : request -> S -> (exn + response) * S.

(** ** Shapes of the distribution-set reply *)

(** X3: on a 200 reply [get_distribution_set] searches the "content"
    list when it is not empty, and otherwise the "distributionsets" list
    under "_embedded"; a body that is not JSON raises [JSONDecodeError]
    and a JSON body that is not an object raises [AttributeError], neither
    being turned into "not found". *)
Theorem get_distribution_set_reply_shapes (name version : string)
    (w : world S) (r : response) (s' : S) :
  let q := Req GET (DistributionSets name version) None in
  serve q (srv w) = (inr r, s') ->
  status_code r = 200 ->
  (json_body r = None ->
   get_distribution_set serve name version w
   = (Exc JSONDecodeError, answered w q r s'))
  /\ (forall data, json_body r = Some data -> is_dict data = false ->
      get_distribution_set serve name version w
      = (Exc AttributeError, answered w q r s'))
  /\ (forall m c items,
        json_body r = Some (JObj m) ->
        dict_get m "content" = Some c -> truthy c = true ->
        iter c = inr items ->
        get_distribution_set serve name version w
        = find_distribution_set items name version (answered w q r s'))
  /\ (forall m e items,
        json_body r = Some (JObj m) ->
        truthy (field_or (JObj m) "content" JNull) = false ->
        dict_get m "_embedded" = Some (JObj e) ->
        dict_get e "distributionsets" = Some (JArr items) ->
        get_distribution_set serve name version w
        = find_distribution_set items name version (answered w q r s'))
  /\ (forall m,
        json_body r = Some (JObj m) ->
        truthy (field_or (JObj m) "content" JNull) = false ->
        dict_get m "_embedded" = None ->
        get_distribution_set serve name version w
        = (Ret JNull, printed (answered w q r s') (MsgDsNotFound name version))).
Proof.
  intros q Hs Hc.
  remember (get_distribution_set serve name version w) as run eqn:Hrun.
  unfold get_distribution_set, session_get in Hrun. fold q in Hrun.
  rewrite (bind_http _ _ _ _ _ _ Hs), Hc in Hrun.
  change (negb (200 =? 200)) with false in Hrun. cbv iota in Hrun.
  unfold json_of in Hrun.
  repeat split.
  - intros Hb. rewrite Hb in Hrun. exact Hrun.
  - intros data Hb Hd. rewrite Hb, bind_ret in Hrun.
    destruct data; try discriminate; exact Hrun.
  - intros m c items Hb Hcont Htr Hit. rewrite Hb, bind_ret in Hrun.
    unfold listing, get, get_or in Hrun. rewrite Hcont, Htr in Hrun.
    unfold lift at 1 in Hrun. rewrite bind_ret, Hit in Hrun.
    unfold lift at 1 in Hrun. rewrite bind_ret in Hrun. exact Hrun.
  - intros m e items Hb Hf Hemb Hds. rewrite Hb, bind_ret in Hrun.
    unfold listing, get, get_or in Hrun. cbn [field_or] in Hf.
    rewrite Hf, Hemb, Hds in Hrun.
    unfold lift at 1 in Hrun. rewrite bind_ret in Hrun.
    cbn [iter] in Hrun. unfold lift at 1 in Hrun. rewrite bind_ret in Hrun.
    exact Hrun.
  - intros m Hb Hf Hemb. rewrite Hb, bind_ret in Hrun.
    unfold listing, get, get_or in Hrun. cbn [field_or] in Hf.
    rewrite Hf, Hemb in Hrun. cbn [dict_get] in Hrun.
    unfold lift at 1 in Hrun. rewrite bind_ret in Hrun.
    cbn [iter] in Hrun. unfold lift at 1 in Hrun. rewrite bind_ret in Hrun.
    exact Hrun.
Qed.

(** ** Ways out of [main] before any rollout *)

Lemma print_sequences_run (keys : list string) :
  forall w : world S,
    print_sequences keys w
    = (Ret tt,
       World (srv w) (hz w) (clock w)
         (trace w ++ map (fun k => Print (MsgSequence k)) keys)).
Proof.
  induction keys as [|k rest IH]; intros w; cbn [print_sequences map].
  - unfold ret. rewrite app_nil_r. destruct w; reflexivity.
  - rewrite bind_print, IH. cbn [printed srv hz clock trace].
    rewrite <- app_assoc. reflexivity.
Qed.

Lemma lookup_sequence_none (sequences : list (string * list bundle)) (k : string) :
  lookup_sequence sequences k = None <-> ~ In k (map fst sequences).
Proof.
  induction sequences as [|[k' v] rest IH]; cbn [lookup_sequence map fst In].
  - split; [intros _ [] | reflexivity].
  - destruct (String.eqb_spec k' k) as [E|E].
    + split; [discriminate | intros H; exfalso; apply H; left; exact E].
    + rewrite IH. split.
      * intros H [H1|H1]; [exact (E H1) | exact (H H1)].
      * intros H H1. apply H. right. exact H1.
Qed.

(** X4: when the chosen key is not a key of the configured sequences,
    [main] prints the list of keys and the rejection and returns: it sends
    no request and leaves the server as it was. *)
Theorem main_unknown_sequence (fuel : nat)
    (sequences : list (string * list bundle)) (seq_choice : string)
    (rows : list (list string)) (interval timeout : Z) (w : world S) :
  ~ In seq_choice (map fst sequences) ->
  main serve fuel sequences seq_choice rows interval timeout w
  = (Ret tt,
     World (srv w) (hz w) (clock w)
       (trace w
          ++ Print MsgAvailableSequences
          :: map (fun k => Print (MsgSequence k)) (map fst sequences)
          ++ [Print (MsgInvalidSequence seq_choice (map fst sequences))])).
Proof.
  intros Hk. apply lookup_sequence_none in Hk.
  unfold main. rewrite bind_print.
  rewrite (bind_run _ _ _ _ _ (print_sequences_run _ _)), Hk.
  unfold print, emit. cbn [printed srv hz clock trace].
  rewrite <- !app_assoc. reflexivity.
Qed.

(** X5: when every cell of the device file is blank, [main] raises the
    error of [generate_or_query] before it has sent any request: the
    filter is not registered and no rollout is touched. *)
Theorem main_blank_device_file (fuel : nat)
    (sequences : list (string * list bundle)) (seq_choice : string)
    (rows : list (list string)) (interval timeout : Z) (w : world S) :
  In seq_choice (map fst sequences) ->
  Forall (fun v => strip v = "") (concat rows) ->
  main serve fuel sequences seq_choice rows interval timeout w
  = (Exc (RuntimeError "CSV empty or unreadable."),
     World (srv w) (hz w) (clock w)
       (trace w
          ++ Print MsgAvailableSequences
          :: map (fun k => Print (MsgSequence k)) (map fst sequences))).
Proof.
  intros Hk Hblank.
  destruct (lookup_sequence sequences seq_choice) as [dss|] eqn:Hl.
  2:{ apply lookup_sequence_none in Hl. contradiction. }
  apply collect_serials_nil in Hblank.
  unfold main. rewrite bind_print.
  rewrite (bind_run _ _ _ _ _ (print_sequences_run _ _)), Hl.
  unfold generate_or_query. rewrite Hblank.
  unfold lift at 1. rewrite bind_raise.
  cbn [printed srv hz clock trace]. rewrite <- !app_assoc. reflexivity.
Qed.

(** X6: when the filter step returns [False], [main] prints that it
    aborts and returns at once: nothing is sent after the filter
    requests, so no distribution set is looked up, no rollout is created
    and no device is queried. *)
Theorem main_filter_failure_aborts (fuel : nat)
    (sequences : list (string * list bundle)) (seq_choice : string)
    (rows : list (list string)) (interval timeout : Z) (w w1 : world S)
    (dss : list bundle) (first : string) (rest : list string) :
  lookup_sequence sequences seq_choice = Some dss ->
  collect_serials rows = first :: rest ->
  create_target_filter serve FILTER_NAME (or_query (first :: rest))
    (World (srv w) (hz w) (clock w)
       (trace w
          ++ Print MsgAvailableSequences
          :: map (fun k => Print (MsgSequence k)) (map fst sequences)
          ++ [Print (MsgSerialSuffix (last_chars 5 first));
              Print (MsgQuery (or_query (first :: rest)))]))
  = (Ret false, w1) ->
  main serve fuel sequences seq_choice rows interval timeout w
  = (Ret tt, printed w1 MsgFilterAborting).
Proof.
  intros Hl Hser Hf.
  unfold main. rewrite bind_print.
  rewrite (bind_run _ _ _ _ _ (print_sequences_run _ _)), Hl.
  unfold generate_or_query. rewrite Hser.
  unfold lift at 1. rewrite bind_ret.
  unfold lift at 1. rewrite bind_ret.
  rewrite !bind_print.
  unfold printed. cbn [srv hz clock trace]. rewrite <- !app_assoc.
  cbn [app].
  rewrite (bind_run _ _ _ _ _ Hf). reflexivity.
Qed.

(** ** Bundles the sequence loop passes over *)

(** X7: a bundle whose lookup returns nothing usable ([None], or an id
    that is falsy such as 0) is passed over without any creation request,
    and so is a rollout whose creation returns nothing usable: it is
    neither started nor monitored.  In both cases the loop goes on with
    the next bundle at the next position, so positions count the bundles
    of the sequence and not the rollouts created. *)
Theorem rollout_loop_passes_over (fuel : nat) (key suffix query : string)
    (interval timeout total idx : Z) (ds : bundle) (more : list bundle)
    (w w1 : world S) (ds_id : json) :
  get_distribution_set serve (bundle_name ds) (bundle_version ds)
    (printed w (MsgStartingRollout idx total (bundle_name ds) (bundle_version ds)))
  = (Ret ds_id, w1) ->
  (truthy ds_id = false ->
   rollout_loop serve fuel key suffix query interval timeout total idx
     (ds :: more) w
   = rollout_loop serve fuel key suffix query interval timeout total (idx + 1)
       more (printed w1 MsgSkipDsNotFound))
  /\ (truthy ds_id = true ->
      forall rid w2,
        create_rollout serve (rollout_name key suffix idx) query ds_id 1
          "forced" w1 = (Ret rid, w2) ->
        truthy rid = false ->
        rollout_loop serve fuel key suffix query interval timeout total idx
          (ds :: more) w
        = rollout_loop serve fuel key suffix query interval timeout total
            (idx + 1) more
            (printed w2 (MsgRolloutNotCreated (rollout_name key suffix idx)))).
Proof.
  intros Hds. split.
  - intros Hf. cbn [rollout_loop]. unfold rollout_step.
    rewrite bind_bind, bind_print, bind_bind, (bind_run _ _ _ _ _ Hds), Hf.
    cbn [negb]. rewrite bind_print. reflexivity.
  - intros Ht rid w2 Hcr Hf. cbn [rollout_loop]. unfold rollout_step.
    rewrite bind_bind, bind_print, bind_bind, (bind_run _ _ _ _ _ Hds), Ht.
    cbn [negb]. rewrite bind_bind, (bind_run _ _ _ _ _ Hcr), Hf.
    rewrite bind_print. reflexivity.
Qed.

(** ** The monitor against failing polls and interrupts *)

Lemma monitor_loop_failing (rid : json) (interval timeout : Z)
    (start : QArith_base.Q) :
  0 <= interval ->
  never_200 serve rid ->
  forall (fuel : nat) (w : world S),
    exists added,
      fst (monitor_loop serve fuel rid interval timeout start w) = OutOfFuel
      /\ trace (snd (monitor_loop serve fuel rid interval timeout start w))
         = (trace w ++ added)%list
      /\ count is_poll added = fuel
      /\ count is_sleep added = fuel
      /\ clock w + Z.of_nat fuel * (interval * Z.pos (hz w))
         <= clock (snd (monitor_loop serve fuel rid interval timeout start w)).
Proof.
  intros Hi Hn. induction fuel as [|fuel IH]; intros w.
  - exists []. cbn. rewrite app_nil_r. repeat split; lia.
  - destruct (Hn (srv w)) as [r [s' [Hs Hc]]].
    remember (monitor_loop serve (Datatypes.S fuel) rid interval timeout start w)
      as run eqn:Hrun.
    cbn [monitor_loop] in Hrun. unfold session_get in Hrun.
    rewrite (bind_http _ _ _ _ _ _ Hs) in Hrun.
    apply Z.eqb_neq in Hc. rewrite Hc in Hrun. cbn [negb] in Hrun.
    rewrite bind_print, bind_sleep in Hrun by exact Hi.
    set (w1 := slept _ interval) in Hrun.
    destruct (IH w1) as [added [Hf [Ht [Hp [Hsl Hcl]]]]].
    rewrite <- Hrun in *.
    exists (Request (Req GET (Rollout rid) None) (inr r)
              :: Print (MsgFetchFailed (status_code r)) :: Sleep interval :: added).
    split; [exact Hf|]. split.
    { rewrite Ht. unfold w1, slept, printed, answered. cbn [trace].
      rewrite <- !app_assoc. reflexivity. }
    unfold count in *. cbn [filter is_poll is_sleep List.length].
    split; [lia|]. split; [lia|].
    assert (clock w1 = clock w + Z.pos (elapsed r) + interval * Z.pos (hz w))
      as Hw1 by reflexivity.
    change (hz w1) with (hz w) in Hcl.
    pose proof (Pos2Z.is_pos (elapsed r)). lia.
Qed.

(** X8: when every poll is answered with a status other than 200, the
    monitor never leaves its loop, whatever the timeout: with fuel for
    [n] rounds it polls [n] times, sleeps [n] times and is still running,
    the clock having passed [n] intervals ([hz w] ticks to the second).
    The timeout is only looked at after a 200 reply. *)
Theorem monitor_failed_polls_never_end (rid : json) (interval timeout : Z)
    (fuel : nat) (w : world S) :
  0 <= interval ->
  never_200 serve rid ->
  exists added,
    fst (monitor_rollout_until_done serve fuel rid interval timeout w)
    = OutOfFuel
    /\ trace (snd (monitor_rollout_until_done serve fuel rid interval timeout w))
       = (trace w ++ Print MsgMonitoring :: added)%list
    /\ count is_poll added = fuel
    /\ count is_sleep added = fuel
    /\ clock w + Z.of_nat fuel * (interval * Z.pos (hz w))
       <= clock (snd (monitor_rollout_until_done serve fuel rid interval
                        timeout w)).
Proof.
  intros Hi Hn.
  remember (monitor_rollout_until_done serve fuel rid interval timeout w)
    as run eqn:Hrun.
  unfold monitor_rollout_until_done in Hrun.
  rewrite bind_print, bind_time in Hrun.
  set (w0 := printed w MsgMonitoring) in Hrun.
  destruct (monitor_loop_failing rid interval timeout
              (QArith_base.Qmake (clock w0) (hz w0)) Hi Hn fuel w0)
    as [added [Hf [Ht [Hp [Hsl Hcl]]]]].
  unfold except_interrupt in Hrun.
  destruct (monitor_loop serve fuel rid interval timeout
              (QArith_base.Qmake (clock w0) (hz w0)) w0)
    as [[x|e|] w'] eqn:Hl; cbn [fst snd] in *; try discriminate.
  subst run. exists added. cbn [fst snd].
  split; [reflexivity|]. split.
  { rewrite Ht. unfold w0, printed. cbn [trace]. rewrite <- app_assoc. reflexivity. }
  split; [exact Hp|]. split; [exact Hsl | exact Hcl].
Qed.

Ltac loop_left_quietly q r Htr :=
  match goal with
  | Hrun : ?run = _ |- _ =>
      subst run; unfold ret, raise; cbn [fst snd];
      eexists; split; [rewrite Htr; reflexivity|];
      intros q' e' Hin; exfalso;
      repeat (destruct Hin as [Hin|Hin]; [discriminate Hin|]); exact Hin
  end.

(** A request of the loop that raised is its last event, and what it
    raised is what the loop raises. *)
Lemma monitor_loop_raised (rid : json) (interval timeout : Z)
    (start : QArith_base.Q) (fuel : nat) :
  forall w : world S,
    exists added,
      trace (snd (monitor_loop serve fuel rid interval timeout start w))
      = (trace w ++ added)%list
      /\ forall q e,
           In (Request q (inl e)) added ->
           fst (monitor_loop serve fuel rid interval timeout start w) = Exc e
           /\ exists pre, added = (pre ++ [Request q (inl e)])%list.
Proof.
  set (q := Req GET (Rollout rid) None).
  induction fuel as [|fuel IH]; intros w.
  - exists []. cbn. rewrite app_nil_r. split; [reflexivity|]. intros ? ? [].
  - remember (monitor_loop serve (Datatypes.S fuel) rid interval timeout start w)
      as run eqn:Hrun.
    cbn [monitor_loop] in Hrun. unfold session_get in Hrun. fold q in Hrun.
    destruct (serve q (srv w)) as [[e|r] s'] eqn:Hs.
    + rewrite (bind_http_exn _ _ _ _ _ _ Hs) in Hrun. subst run. cbn [fst snd trace].
      exists [Request q (inl e)]. split; [reflexivity|].
      intros q' e' [Hin|[]]. inversion Hin; subst. split; [reflexivity|].
      exists []. reflexivity.
    + rewrite (bind_http _ _ _ _ _ _ Hs) in Hrun.
      set (w1 := answered w q r s') in Hrun.
      assert (Htr1 : trace w1 = (trace w ++ [Request q (inr r)])%list) by reflexivity.
      assert (Hnext : forall w2 l,
                 trace w2 = (trace w ++ l)%list ->
                 forallb (fun ev => negb (raised ev)) l = true ->
                 run = monitor_loop serve fuel rid interval timeout start w2 ->
                 exists added,
                   trace (snd run) = (trace w ++ added)%list
                   /\ forall q' e,
                        In (Request q' (inl e)) added ->
                        fst run = Exc e
                        /\ exists pre, added = (pre ++ [Request q' (inl e)])%list).
      { intros w2 l Hl Hquiet ->. destruct (IH w2) as [added [Ha Hr]].
        exists (l ++ added)%list. split.
        - rewrite Ha, Hl, <- app_assoc. reflexivity.
        - intros q' e Hin. apply in_app_or in Hin. destruct Hin as [Hin|Hin].
          + exfalso. rewrite forallb_forall in Hquiet.
            specialize (Hquiet _ Hin). discriminate Hquiet.
          + destruct (Hr q' e Hin) as [Hf [pre Hpre]]. split; [exact Hf|].
            exists (l ++ pre)%list. rewrite Hpre, app_assoc. reflexivity. }
      destruct (negb (status_code r =? 200)).
      * rewrite bind_print in Hrun.
        set (w2 := printed w1 _) in Hrun.
        assert (Htr2 : trace w2
                       = (trace w ++ [Request q (inr r);
                                      Print (MsgFetchFailed (status_code r))])%list).
        { unfold w2, printed. cbn [trace]. rewrite Htr1, <- app_assoc. reflexivity. }
        unfold bind at 1, sleep at 1 in Hrun.
        destruct (interval <? 0); [loop_left_quietly q r Htr2|].
        eapply Hnext; [| |exact Hrun].
        -- cbn [trace]. rewrite Htr2, <- app_assoc. reflexivity.
        -- reflexivity.
      * unfold json_of in Hrun.
        destruct (json_body r) as [data|];
          [rewrite bind_ret in Hrun
          | rewrite bind_raise in Hrun; loop_left_quietly q r Htr1].
        destruct data as [| | | | |m];
          try (cbn in Hrun; loop_left_quietly q r Htr1).
        unfold get, get_or, lift in Hrun. rewrite !bind_ret, bind_print in Hrun.
        set (prog := MsgProgress _ _ _ _ _) in Hrun.
        set (w2 := printed w1 prog) in Hrun.
        assert (Htr2 : trace w2 = (trace w ++ [Request q (inr r); Print prog])%list).
        { unfold w2, printed. cbn [trace]. rewrite Htr1, <- app_assoc. reflexivity. }
        destruct (is_terminal _).
        { rewrite bind_print in Hrun.
          assert (Htr3 : trace (printed w2 (MsgRolloutEnded
                                  match dict_get m "status" with
                                  | Some x => x | None => JNull end))
                         = (trace w ++ [Request q (inr r); Print prog;
                                        Print (MsgRolloutEnded
                                          match dict_get m "status" with
                                          | Some x => x | None => JNull end)])%list).
          { unfold printed. cbn [trace]. rewrite Htr2, <- app_assoc. reflexivity. }
          loop_left_quietly q r Htr3. }
        rewrite bind_time in Hrun.
        destruct (exceeds _ _ _).
        { rewrite bind_print in Hrun.
          assert (Htr3 : trace (printed w2 MsgMonitorTimeout)
                         = (trace w ++ [Request q (inr r); Print prog;
                                        Print MsgMonitorTimeout])%list).
          { unfold printed. cbn [trace]. rewrite Htr2, <- app_assoc. reflexivity. }
          loop_left_quietly q r Htr3. }
        unfold bind at 1, sleep at 1 in Hrun.
        destruct (interval <? 0); [loop_left_quietly q r Htr2|].
        eapply Hnext; [| |exact Hrun].
        -- cbn [trace]. rewrite Htr2, <- app_assoc. reflexivity.
        -- reflexivity.
Qed.

(** X9: an interrupt that reaches [monitor_rollout_until_done] while it
    waits for a poll is handled: the interrupted poll and the "stopped"
    line are the last two events and the call returns.  Any other
    exception raised by a poll is passed on to the caller, the poll that
    raised being the last event.  At the first poll this reads: an
    interrupt gives the first line, the poll and the "stopped" line; any
    other exception gives the first line and the poll, and is raised. *)
Theorem monitor_interrupt_handled (fuel : nat) (rid : json)
    (interval timeout : Z) (w : world S) :
  let run := monitor_rollout_until_done serve fuel rid interval timeout w in
  let q := Req GET (Rollout rid) None in
  exists added,
    trace (snd run) = (trace w ++ Print MsgMonitoring :: added)%list
    /\ (forall q',
          In (Request q' (inl KeyboardInterrupt)) added ->
          fst run = Ret Interrupted
          /\ exists pre,
               added = (pre ++ [Request q' (inl KeyboardInterrupt);
                                Print MsgMonitorStopped])%list)
    /\ (forall q' e,
          e <> KeyboardInterrupt ->
          In (Request q' (inl e)) added ->
          fst run = Exc e
          /\ exists pre, added = (pre ++ [Request q' (inl e)])%list)
    /\ (forall e s' fuel',
          fuel = Datatypes.S fuel' ->
          serve q (srv w) = (inl e, s') ->
          let w1 := World s' (hz w) (clock w)
                      (trace w ++ [Print MsgMonitoring; Request q (inl e)]) in
          (e = KeyboardInterrupt ->
           run = (Ret Interrupted, printed w1 MsgMonitorStopped))
          /\ (e <> KeyboardInterrupt -> run = (Exc e, w1))).
Proof.
  intros run q. subst run.
  remember (monitor_rollout_until_done serve fuel rid interval timeout w)
    as run eqn:Hrun.
  unfold monitor_rollout_until_done in Hrun.
  rewrite bind_print, bind_time in Hrun.
  set (w0 := printed w MsgMonitoring) in Hrun.
  set (start := QArith_base.Qmake (clock w0) (hz w0)) in Hrun.
  assert (Ht0 : trace w0 = (trace w ++ [Print MsgMonitoring])%list) by reflexivity.
  destruct (monitor_loop_raised rid interval timeout start fuel w0)
    as [added [Ha Hr]].
  assert (Hcases :
            (fst (monitor_loop serve fuel rid interval timeout start w0)
             = Exc KeyboardInterrupt
             /\ run = (Ret Interrupted,
                       printed (snd (monitor_loop serve fuel rid interval timeout
                                       start w0)) MsgMonitorStopped))
            \/ (fst (monitor_loop serve fuel rid interval timeout start w0)
                <> Exc KeyboardInterrupt
                /\ run = monitor_loop serve fuel rid interval timeout start w0)).
  { unfold except_interrupt in Hrun.
    destruct (monitor_loop serve fuel rid interval timeout start w0)
      as [[x|e|] w'] eqn:Hl; cbn [fst snd].
    - right. split; [discriminate | exact Hrun].
    - destruct e; try (right; split; [discriminate | exact Hrun]).
      left. split; [reflexivity | exact Hrun].
    - right. split; [discriminate | exact Hrun]. }
  destruct Hcases as [[Hki Hrn] | [Hnki Hrn]].
  - exists (added ++ [Print MsgMonitorStopped])%list.
    split; [|split; [|split]].
    + rewrite Hrn. cbn [snd printed trace]. rewrite Ha, Ht0, <- !app_assoc.
      reflexivity.
    + intros q' Hin. split; [rewrite Hrn; reflexivity|].
      apply in_app_or in Hin. destruct Hin as [Hin|[Hin|[]]]; [|discriminate Hin].
      destruct (Hr q' _ Hin) as [_ [pre Hpre]].
      exists pre. rewrite Hpre, <- app_assoc. reflexivity.
    + intros q' e Hne Hin. exfalso.
      apply in_app_or in Hin. destruct Hin as [Hin|[Hin|[]]]; [|discriminate Hin].
      destruct (Hr q' _ Hin) as [Hf _]. rewrite Hki in Hf. congruence.
    + intros e s' fuel' Hfuel Hs w1. rewrite Hfuel in Hrun.
      cbn [monitor_loop] in Hrun. unfold session_get in Hrun. fold q in Hrun.
      unfold except_interrupt in Hrun.
      change (srv w) with (srv w0) in Hs.
      rewrite (bind_http_exn _ _ _ _ _ _ Hs) in Hrun.
      assert (Hw1 : World s' (hz w0) (clock w0) (trace w0 ++ [Request q (inl e)])
                    = w1).
      { unfold w1. rewrite Ht0, <- app_assoc. reflexivity. }
      rewrite Hw1 in Hrun.
      split.
      * intros ->. exact Hrun.
      * intros Hne. destruct e; try exact Hrun. congruence.
  - exists added.
    split; [|split; [|split]].
    + rewrite Hrn, Ha, Ht0, <- app_assoc. reflexivity.
    + intros q' Hin. exfalso. destruct (Hr q' _ Hin) as [Hf _]. exact (Hnki Hf).
    + intros q' e Hne Hin. rewrite Hrn. exact (Hr q' e Hin).
    + intros e s' fuel' Hfuel Hs w1. rewrite Hfuel in Hrun.
      cbn [monitor_loop] in Hrun. unfold session_get in Hrun. fold q in Hrun.
      unfold except_interrupt in Hrun.
      change (srv w) with (srv w0) in Hs.
      rewrite (bind_http_exn _ _ _ _ _ _ Hs) in Hrun.
      assert (Hw1 : World s' (hz w0) (clock w0) (trace w0 ++ [Request q (inl e)])
                    = w1).
      { unfold w1. rewrite Ht0, <- app_assoc. reflexivity. }
      rewrite Hw1 in Hrun.
      split.
      * intros ->. exact Hrun.
      * intros Hne. destruct e; try exact Hrun. congruence.
Qed.

(** ** Device history and the device loop *)

Lemma get_or_dict (v : json) (k : string) (d : json) :
  is_dict v = true -> get_or v k d = inr (field_or v k d).
Proof. destruct v; try discriminate. reflexivity. Qed.

Lemma print_actions_run (actions : list json) :
  Forall (fun a => action_ok a = true) actions ->
  forall w : world S,
    print_actions actions w
    = (Ret tt,
       World (srv w) (hz w) (clock w)
         (trace w ++ map (fun a => Print (history_line a)) actions)).
Proof.
  induction 1 as [|act rest Hact _ IH]; intros w.
  - cbn. rewrite app_nil_r. destruct w; reflexivity.
  - unfold action_ok in Hact.
    apply andb_true_iff in Hact. destruct Hact as [Hact Hst].
    apply andb_true_iff in Hact. destruct Hact as [Hd Hds].
    cbn [print_actions map].
    rewrite (get_or_dict act "distributionSet" _ Hd).
    unfold lift at 1. rewrite bind_ret.
    rewrite !(get_or_dict _ _ _ Hds).
    unfold lift at 1. rewrite bind_ret. unfold lift at 1. rewrite bind_ret.
    rewrite (get_or_dict act "status" _ Hd).
    unfold lift at 1. rewrite bind_ret.
    rewrite (get_or_dict _ "execution" _ Hst).
    unfold lift at 1. rewrite bind_ret.
    rewrite (get_or_dict act "createdAt" _ Hd).
    unfold lift at 1. rewrite bind_ret.
    rewrite bind_print, IH. unfold printed, history_line. cbn [srv hz clock trace].
    rewrite <- app_assoc. reflexivity.
Qed.

(** X10: [get_firmware_history] prints one line per action, in the order
    of the "content" list, between a header and two rules, a missing
    field being shown as "Unknown" or "N/A"; an empty or missing list
    gives the "no history" line and a status other than 200 the error
    line, and in every case it sends the one request. *)
Theorem get_firmware_history_lines (target_id : string) (w : world S)
    (r : response) (s' : S) :
  let q := Req GET (Actions target_id) None in
  let w1 := answered w q r s' in
  serve q (srv w) = (inr r, s') ->
  (status_code r <> 200 ->
   get_firmware_history serve target_id w
   = (Ret tt, printed w1 (MsgHistoryError (status_code r))))
  /\ (status_code r = 200 ->
      forall m,
        json_body r = Some (JObj m) ->
        truthy (field_or (JObj m) "content" (JArr [])) = false ->
        get_firmware_history serve target_id w
        = (Ret tt, printed w1 MsgNoHistory))
  /\ (status_code r = 200 ->
      forall m act rest,
        json_body r = Some (JObj m) ->
        dict_get m "content" = Some (JArr (act :: rest)) ->
        Forall (fun a => action_ok a = true) (act :: rest) ->
        get_firmware_history serve target_id w
        = (Ret tt,
           World (srv w1) (hz w1) (clock w1)
             (trace w1
                ++ Print (MsgHistoryHeader target_id) :: Print MsgRule
                :: map (fun a => Print (history_line a)) (act :: rest)
                ++ [Print MsgRule]))).
Proof.
  intros q w1 Hs.
  remember (get_firmware_history serve target_id w) as run eqn:Hrun.
  unfold get_firmware_history, session_get in Hrun. fold q in Hrun.
  rewrite (bind_http _ _ _ _ _ _ Hs) in Hrun. fold w1 in Hrun.
  split; [|split].
  - intros Hc. apply Z.eqb_neq in Hc. rewrite Hc in Hrun. exact Hrun.
  - intros Hc m Hb Hf. rewrite Hc in Hrun.
    change (negb (200 =? 200)) with false in Hrun. cbv iota in Hrun.
    unfold json_of in Hrun. rewrite Hb, bind_ret in Hrun.
    rewrite (get_or_dict (JObj m) "content" _ eq_refl) in Hrun.
    unfold lift at 1 in Hrun. rewrite bind_ret, Hf in Hrun. exact Hrun.
  - intros Hc m act rest Hb Hcont Hok. rewrite Hc in Hrun.
    change (negb (200 =? 200)) with false in Hrun. cbv iota in Hrun.
    unfold json_of in Hrun. rewrite Hb, bind_ret in Hrun.
    unfold get_or at 1 in Hrun. rewrite Hcont in Hrun.
    unfold lift at 1 in Hrun. rewrite bind_ret in Hrun.
    cbn [truthy negb] in Hrun. rewrite !bind_print in Hrun.
    cbn [iter] in Hrun. unfold lift at 1 in Hrun. rewrite bind_ret in Hrun.
    rewrite (bind_run _ _ _ _ _ (print_actions_run _ Hok _)) in Hrun.
    rewrite Hrun. unfold print, emit, printed. cbn [srv hz clock trace].
    rewrite <- !app_assoc. reflexivity.
Qed.

Lemma requests_of_app (a b : list event) :
  requests_of (a ++ b) = (requests_of a ++ requests_of b)%list.
Proof. unfold requests_of. apply flat_map_app. Qed.

Lemma failed_query_assigned (target : string) (w : world S) :
  status_queries_fail serve ->
  exists r s' m,
    get_assigned_ds serve target w
    = (Ret false, printed (answered w (Req GET (AssignedDS target) None) r s') m).
Proof.
  intros Hf.
  destruct (Hf target (Req GET (AssignedDS target) None) (srv w))
    as [r [s' [Hs Hc]]]; [left; reflexivity|].
  exists r, s'. unfold get_assigned_ds, session_get.
  rewrite (bind_http _ _ _ _ _ _ Hs).
  apply Z.eqb_neq in Hc. rewrite Hc.
  destruct (status_code r =? 204); eexists; reflexivity.
Qed.

Lemma failed_query_installed (target : string) (w : world S) :
  status_queries_fail serve ->
  exists r s' m,
    get_installed_ds serve target w
    = (Ret false, printed (answered w (Req GET (InstalledDS target) None) r s') m).
Proof.
  intros Hf.
  destruct (Hf target (Req GET (InstalledDS target) None) (srv w))
    as [r [s' [Hs Hc]]]; [right; left; reflexivity|].
  exists r, s'. unfold get_installed_ds, session_get.
  rewrite (bind_http _ _ _ _ _ _ Hs).
  apply Z.eqb_neq in Hc. rewrite Hc.
  destruct (status_code r =? 204); eexists; reflexivity.
Qed.

Lemma failed_query_history (target : string) (w : world S) :
  status_queries_fail serve ->
  exists r s' m,
    get_firmware_history serve target w
    = (Ret tt, printed (answered w (Req GET (Actions target) None) r s') m).
Proof.
  intros Hf.
  destruct (Hf target (Req GET (Actions target) None) (srv w))
    as [r [s' [Hs Hc]]]; [right; right; left; reflexivity|].
  exists r, s'. unfold get_firmware_history, session_get.
  rewrite (bind_http _ _ _ _ _ _ Hs).
  apply Z.eqb_neq in Hc. rewrite Hc. eexists; reflexivity.
Qed.

(** X11: the device loop at the end of [main] does not stop at a failed
    query.  When every status query is answered with a status other than
    200, it still returns normally having sent, for each device in order,
    the assigned, installed and history requests. *)
Theorem check_targets_queries_every_device (serials : list string) :
  status_queries_fail serve ->
  forall w : world S,
    exists added,
      fst (check_targets serve serials w) = Ret tt
      /\ trace (snd (check_targets serve serials w)) = (trace w ++ added)%list
      /\ requests_of added = flat_map device_queries serials.
Proof.
  intros Hf. induction serials as [|t rest IH]; intros w.
  - exists []. cbn. rewrite app_nil_r. repeat split; reflexivity.
  - cbn [check_targets]. rewrite bind_print.
    destruct (failed_query_assigned t (printed w (MsgTarget t)) Hf)
      as [r1 [s1 [m1 H1]]].
    rewrite (bind_run _ _ _ _ _ H1).
    match goal with |- context [get_installed_ds serve t] =>
      match goal with |- context [bind _ _ ?w1] => set (wa := w1) end end.
    destruct (failed_query_installed t wa Hf) as [r2 [s2 [m2 H2]]].
    rewrite (bind_run _ _ _ _ _ H2).
    match goal with |- context [bind _ _ ?w1] => set (wb := w1) end.
    destruct (failed_query_history t wb Hf) as [r3 [s3 [m3 H3]]].
    rewrite (bind_run _ _ _ _ _ H3), bind_print.
    match goal with |- context [check_targets serve rest ?w1] => set (wc := w1) end.
    destruct (IH wc) as [added [I1 [I2 I3]]].
    exists ([Print (MsgTarget t);
             Request (Req GET (AssignedDS t) None) (inr r1); Print m1;
             Request (Req GET (InstalledDS t) None) (inr r2); Print m2;
             Request (Req GET (Actions t) None) (inr r3); Print m3;
             Print MsgRule] ++ added)%list.
    split; [exact I1|]. split.
    + rewrite I2. unfold wc, wb, wa, printed, answered. cbn [trace].
      rewrite <- !app_assoc. reflexivity.
    + rewrite requests_of_app, I3. reflexivity.
Qed.

(** ** How long the activation waits *)

Lemma wait_ready_clock (rid : json) (n : nat) :
  forall w : world S,
    clock w <= clock (snd (wait_ready serve n rid w))
    /\ (fst (wait_ready serve n rid w) = Ret false ->
        clock w + 5 * Z.pos (hz w) * Z.of_nat n
        <= clock (snd (wait_ready serve n rid w))).
Proof.
  induction n as [|n IH]; intros w.
  - cbn. lia.
  - remember (wait_ready serve (Datatypes.S n) rid w) as run eqn:Hrun.
    cbn [wait_ready] in Hrun. unfold session_get in Hrun.
    set (q := Req GET (Rollout rid) None) in *.
    destruct (serve q (srv w)) as [[e|r] s'] eqn:Hs.
    + rewrite (bind_http_exn _ _ _ _ _ _ Hs) in Hrun. subst run. cbn.
      split; [lia | discriminate].
    + rewrite (bind_http _ _ _ _ _ _ Hs) in Hrun.
      set (w1 := answered w q r s') in *.
      assert (Hw1 : clock w <= clock w1).
      { unfold w1, answered. cbn [clock]. pose proof (Pos2Z.is_pos (elapsed r)). lia. }
      pose proof (Pos2Z.is_pos (hz w)) as Hh.
      assert (Hnext : forall w2,
                 hz w2 = hz w ->
                 clock w2 = clock w1 + 5 * Z.pos (hz w) ->
                 run = wait_ready serve n rid w2 ->
                 clock w <= clock (snd run)
                 /\ (fst run = Ret false ->
                     clock w + 5 * Z.pos (hz w) * Z.of_nat (Datatypes.S n)
                     <= clock (snd run))).
      { intros w2 Hz Hc ->. destruct (IH w2) as [I1 I2]. rewrite Hz in I2.
        split; [lia|].
        intros H. specialize (I2 H). lia. }
      destruct (status_code r =? 200).
      * rewrite bind_bind in Hrun. unfold json_of in Hrun.
        destruct (json_body r) as [data|].
        2:{ rewrite bind_raise in Hrun. subst run. cbn [fst snd].
            split; [exact Hw1 | discriminate]. }
        rewrite bind_ret, bind_bind in Hrun. unfold lift at 1 in Hrun.
        destruct (get data "status") as [e|st].
        { rewrite bind_raise in Hrun. subst run. cbn [fst snd].
          split; [exact Hw1 | discriminate]. }
        rewrite bind_ret, bind_bind, bind_print, bind_ret in Hrun.
        destruct (eq_str st "ready").
        -- subst run. cbn [fst snd ret printed clock].
           split; [exact Hw1 | discriminate].
        -- apply (Hnext (slept (printed w1 (MsgRolloutStatus st)) 5));
             [reflexivity | reflexivity | exact Hrun].
      * rewrite bind_ret in Hrun.
        apply (Hnext (slept w1 5)); [reflexivity | reflexivity | exact Hrun].
Qed.

(** X12: when [start_rollout] ends by printing its timeout line, at least
    100 seconds ([hz w] ticks each) have passed since it was called (20
    sleeps of 5, plus the time the polls took). *)
Theorem start_rollout_gives_up_after_100 (rid : json) (w : world S)
    (added : list event) :
  trace (snd (start_rollout serve rid w)) = (trace w ++ added)%list ->
  In (Print MsgReadyTimeout) added ->
  clock w + 100 * Z.pos (hz w) <= clock (snd (start_rollout serve rid w)).
Proof.
  intros Ht Hin.
  remember (start_rollout serve rid w) as run eqn:Hrun.
  unfold start_rollout in Hrun.
  destruct (truthy rid); cbn [negb] in Hrun.
  2:{ subst run. cbn [snd ret] in Ht.
      rewrite <- (app_nil_r (trace w)) in Ht at 1.
      apply app_inv_head in Ht. subst added. destruct Hin. }
  destruct (wait_ready_trace serve rid 20 w)
    as [wadded [Hwt [Hf [_ [_ [_ [_ _]]]]]]].
  destruct (wait_event_facts serve _ _ Hf) as [_ [_ [_ [_ F5]]]].
  destruct (wait_ready_clock rid 20 w) as [_ Hclock].
  unfold bind at 1 in Hrun.
  destruct (wait_ready serve 20 rid w) as [[ready|e|] w1] eqn:Hw;
    cbn [fst snd] in *.
  - destruct ready; cbn [negb] in Hrun.
    + exfalso. unfold session_post in Hrun.
      set (q := Req POST (RolloutStart rid) None) in *.
      destruct (serve q (srv w1)) as [[e|r] s'] eqn:Hs.
      * rewrite (bind_http_exn _ _ _ _ _ _ Hs) in Hrun. subst run.
        cbn [snd trace] in Ht. rewrite Hwt, <- app_assoc in Ht.
        apply app_inv_head in Ht. subst added.
        apply in_app_or in Hin. destruct Hin as [Hin|[Hin|[]]];
          [exact (F5 Hin) | discriminate Hin].
      * rewrite (bind_http _ _ _ _ _ _ Hs) in Hrun.
        assert (exists m, m <> MsgReadyTimeout
                          /\ run = (Ret tt, printed (answered w1 q r s') m))
          as [m [Hm Hrun']].
        { destruct (in_codes (status_code r) [200; 202]);
            eexists; (split; [|exact Hrun]); discriminate. }
        clear Hrun. subst run. unfold printed, answered in Ht.
        cbn [snd trace] in Ht.
        rewrite Hwt, <- !app_assoc in Ht.
        apply app_inv_head in Ht. subst added.
        apply in_app_or in Hin. destruct Hin as [Hin|[Hin|[Hin|[]]]];
          [exact (F5 Hin) | discriminate Hin | congruence].
    + rewrite bind_print in Hrun. subst run. cbn [snd printed clock ret].
      specialize (Hclock eq_refl). lia.
  - exfalso. subst run. cbn [snd] in Ht. rewrite Hwt in Ht.
    apply app_inv_head in Ht. subst added. exact (F5 Hin).
  - exfalso. subst run. cbn [snd] in Ht. rewrite Hwt in Ht.
    apply app_inv_head in Ht. subst added. exact (F5 Hin).
Qed.

(** ** The requests of the filter step *)

Ltac filter_step_done :=
  match goal with
  | Hrun : ?run = _ |- _ =>
      subst run; eexists;
      split;
      [ unfold printed, answered, ret, raise; cbn [snd trace];
        rewrite <- ?app_assoc; reflexivity
      | split;
        [ first [ left; reflexivity
                | right; left; reflexivity
                | right; right; eexists; split; [eassumption | reflexivity] ]
        | intros Hne;
          first [ exfalso; apply Hne; reflexivity
                | eexists; split; [left; reflexivity | assumption] ] ] ]
  end.

(** X13: [create_target_filter] sends the creation request first and at
    most two more: the listing, then one update on a truthy id.  It lists
    or updates only after the creation was answered 409. *)
Theorem create_target_filter_requests (name query : string) (w : world S) :
  let payload := filter_payload name query in
  let post := Req POST TargetFilters (Some payload) in
  let listing_request := Req GET TargetFilters None in
  exists added,
    trace (snd (create_target_filter serve name query w)) = (trace w ++ added)%list
    /\ (requests_of added = [post]
        \/ requests_of added = [post; listing_request]
        \/ exists fid,
             truthy fid = true
             /\ requests_of added
                = [post; listing_request;
                   Req PUT (TargetFilter fid) (Some payload)])
    /\ (requests_of added <> [post] ->
        exists r, In (Request post (inr r)) added /\ status_code r = 409).
Proof.
  intros payload post listing_request.
  remember (create_target_filter serve name query w) as run eqn:Hrun.
  unfold create_target_filter, session_post, session_get, session_put in Hrun.
  fold payload in Hrun. fold post in Hrun. fold listing_request in Hrun.
  destruct (serve post (srv w)) as [[e|r] s1] eqn:Hs.
  { rewrite (bind_http_exn _ _ _ _ _ _ Hs) in Hrun. filter_step_done. }
  rewrite (bind_http _ _ _ _ _ _ Hs) in Hrun.
  destruct (in_codes (status_code r) [200; 201]).
  { rewrite bind_print in Hrun. filter_step_done. }
  destruct (status_code r =? 409) eqn:E409.
  2:{ rewrite bind_print in Hrun. filter_step_done. }
  apply Z.eqb_eq in E409.
  rewrite bind_print in Hrun.
  set (w1 := printed _ (MsgFilterExists name)) in Hrun.
  destruct (serve listing_request (srv w1)) as [[e|resp] s2] eqn:Hg.
  { rewrite (bind_http_exn _ _ _ _ _ _ Hg) in Hrun. unfold w1 in Hrun.
    filter_step_done. }
  rewrite (bind_http _ _ _ _ _ _ Hg) in Hrun. unfold w1 in Hrun.
  unfold json_of in Hrun.
  destruct (json_body resp) as [data|];
    [rewrite bind_ret in Hrun | rewrite bind_raise in Hrun; filter_step_done].
  unfold lift at 1 in Hrun.
  destruct (listing data "targetfilters") as [e|fs];
    [rewrite bind_raise in Hrun; filter_step_done | rewrite bind_ret in Hrun].
  unfold lift at 1 in Hrun.
  destruct (iter fs) as [e|items];
    [rewrite bind_raise in Hrun; filter_step_done | rewrite bind_ret in Hrun].
  unfold lift at 1 in Hrun.
  destruct (first_filter_id items name) as [e|fid];
    [rewrite bind_raise in Hrun; filter_step_done | rewrite bind_ret in Hrun].
  destruct (truthy fid) eqn:Hfid.
  2:{ rewrite bind_print in Hrun. filter_step_done. }
  match type of Hrun with
  | _ = bind _ _ ?w2 => set (wl := w2) in Hrun
  end.
  destruct (serve (Req PUT (TargetFilter fid) (Some payload)) (srv wl))
    as [[e|u] s3] eqn:Hp.
  { rewrite (bind_http_exn _ _ _ _ _ _ Hp) in Hrun. unfold wl in Hrun.
    filter_step_done. }
  rewrite (bind_http _ _ _ _ _ _ Hp) in Hrun. unfold wl in Hrun.
  destruct (in_codes (status_code u) [200; 204]);
    rewrite bind_print in Hrun; filter_step_done.
Qed.

(** ** A rollout that has already ended, and replies without JSON *)

(** X14: when the first poll reads finished, error or paused, the
    monitor returns after that one request without sleeping, whatever the
    interval and the timeout; the counters missing from the reply are
    shown as 0. *)
Theorem monitor_already_ended (fuel : nat) (rid : json) (interval timeout : Z)
    (w : world S) (r : response) (s' : S) (m : list (string * json)) :
  let q := Req GET (Rollout rid) None in
  let data := JObj m in
  let st := field_or data "status" JNull in
  serve q (srv w) = (inr r, s') ->
  status_code r = 200 ->
  json_body r = Some data ->
  is_terminal st = true ->
  monitor_rollout_until_done serve (Datatypes.S fuel) rid interval timeout w
  = (Ret Ended,
     World s' (hz w) (clock w + Z.pos (elapsed r))
       (trace w
          ++ [Print MsgMonitoring;
              Request q (inr r);
              Print (MsgProgress st
                       (field_or data "totalTargetsCompleted" (JNum 0))
                       (field_or data "totalTargetsFailed" (JNum 0))
                       (field_or data "totalTargetsPending" (JNum 0))
                       (field_or data "totalTargets" (JNum 0)));
              Print (MsgRolloutEnded st)])).
Proof.
  intros q data st Hs Hc Hb Hterm.
  unfold monitor_rollout_until_done. rewrite bind_print, bind_time.
  unfold except_interrupt. cbn [monitor_loop]. unfold session_get. fold q.
  change (srv w) with (srv (printed w MsgMonitoring)) in Hs.
  rewrite (bind_http _ _ _ _ _ _ Hs), Hc.
  change (negb (200 =? 200)) with false. cbv iota.
  unfold json_of. rewrite Hb, bind_ret.
  unfold get. rewrite !(get_or_dict data _ _ eq_refl).
  unfold lift. rewrite !bind_ret, bind_print. fold st. rewrite Hterm.
  rewrite bind_print. unfold ret, printed, answered. cbn [srv hz clock trace].
  rewrite <- !app_assoc. reflexivity.
Qed.

(** X15: a success reply whose body is not JSON is not treated as a
    failure: [create_rollout] on 200 or 201, and the assigned and
    installed queries on 200, raise [JSONDecodeError] right after the
    request, before printing anything about its outcome. *)
Theorem success_reply_without_json_raises (w : world S) (r : response) (s' : S) :
  json_body r = None ->
  (forall name query ds_id group_size action_type,
     let payload := rollout_payload name query ds_id group_size action_type in
     let q := Req POST Rollouts (Some payload) in
     serve q (srv w) = (inr r, s') ->
     status_code r = 200 \/ status_code r = 201 ->
     create_rollout serve name query ds_id group_size action_type w
     = (Exc JSONDecodeError, answered (printed w (MsgPayload payload)) q r s'))
  /\ (forall target_id,
        serve (Req GET (AssignedDS target_id) None) (srv w) = (inr r, s') ->
        status_code r = 200 ->
        get_assigned_ds serve target_id w
        = (Exc JSONDecodeError,
           answered w (Req GET (AssignedDS target_id) None) r s'))
  /\ (forall target_id,
        serve (Req GET (InstalledDS target_id) None) (srv w) = (inr r, s') ->
        status_code r = 200 ->
        get_installed_ds serve target_id w
        = (Exc JSONDecodeError,
           answered w (Req GET (InstalledDS target_id) None) r s')).
Proof.
  intros Hb. split; [|split].
  - intros name query ds_id group_size action_type payload q Hs Hc.
    unfold create_rollout, session_post. fold payload. rewrite bind_print. fold q.
    change (srv w) with (srv (printed w (MsgPayload payload))) in Hs.
    rewrite (bind_http _ _ _ _ _ _ Hs).
    assert (in_codes (status_code r) [200; 201] = true) as ->.
    { apply in_codes_true. cbn. lia. }
    unfold json_of. rewrite Hb. reflexivity.
  - intros target_id Hs Hc. unfold get_assigned_ds, session_get.
    rewrite (bind_http _ _ _ _ _ _ Hs), Hc. cbn [Z.eqb Pos.eqb].
    unfold json_of. rewrite Hb. reflexivity.
  - intros target_id Hs Hc. unfold get_installed_ds, session_get.
    rewrite (bind_http _ _ _ _ _ _ Hs), Hc. cbn [Z.eqb Pos.eqb].
    unfold json_of. rewrite Hb. reflexivity.
Qed.

End ClientMore.

(** ** Concrete runs of the further properties *)

Lemma get_distribution_set_reply_shapes_witness :
  fst (get_distribution_set scripted "fw" "1.1" (start_world embedded_listing))
  = Ret (JNum 42).
Proof.
  destruct (get_distribution_set_reply_shapes scripted "fw" "1.1"
              (start_world embedded_listing) _ _ eq_refl eq_refl)
    as [_ [_ [_ [H _]]]].
  rewrite (H _ _ _ eq_refl eq_refl eq_refl eq_refl). reflexivity.
Defined.

Lemma main_unknown_sequence_witness :
  fst (main scripted 5 one_sequence "9.9" [["SN00001"]] 10 1800
         (start_world [])) = Ret tt.
Proof.
  rewrite main_unknown_sequence; [reflexivity|].
  cbn. intros [H|[]]. discriminate H.
Defined.

Lemma main_blank_device_file_witness :
  fst (main scripted 5 one_sequence "1.1" [[" "; ""]; []] 10 1800
         (start_world []))
  = Exc (RuntimeError "CSV empty or unreadable.").
Proof.
  rewrite main_blank_device_file; [reflexivity | | ].
  - cbn. left. reflexivity.
  - cbn. repeat constructor.
Defined.

Lemma main_filter_failure_aborts_witness :
  exists w1,
    main (steady unavailable) 5 one_sequence "1.1" [["SN00001"]] 10 1800
      (start_world tt)
    = (Ret tt, printed w1 MsgFilterAborting)
    /\ requests_of (trace w1)
       = [Req POST TargetFilters
            (Some (filter_payload FILTER_NAME (or_query ["SN00001"])))].
Proof.
  eexists. split.
  - eapply (main_filter_failure_aborts (steady unavailable) 5 one_sequence "1.1"
              [["SN00001"]] 10 1800 (start_world tt) _ [Bundle "fw" "1.1"]
              "SN00001" []).
    + reflexivity.
    + reflexivity.
    + vm_compute. reflexivity.
  - reflexivity.
Defined.

Lemma rollout_loop_passes_over_witness :
  rollout_loop (steady unavailable) 5 "1.1" "00001" "(q)" 10 1800 2 1
    [Bundle "fw" "1.0"; Bundle "fw" "1.1"] (start_world tt)
  = rollout_loop (steady unavailable) 5 "1.1" "00001" "(q)" 10 1800 2 2
      [Bundle "fw" "1.1"]
      (printed
         (snd (get_distribution_set (steady unavailable) "fw" "1.0"
                 (printed (start_world tt) (MsgStartingRollout 1 2 "fw" "1.0"))))
         MsgSkipDsNotFound).
Proof.
  destruct (rollout_loop_passes_over (steady unavailable) 5 "1.1" "00001" "(q)"
              10 1800 2 1 (Bundle "fw" "1.0") [Bundle "fw" "1.1"]
              (start_world tt)
              (snd (get_distribution_set (steady unavailable) "fw" "1.0"
                      (printed (start_world tt)
                         (MsgStartingRollout 1 2 "fw" "1.0"))))
              JNull) as [H _].
  - vm_compute. reflexivity.
  - exact (H eq_refl).
Defined.

Lemma monitor_failed_polls_never_end_witness :
  fst (monitor_rollout_until_done (steady unavailable) 7 (JNum 7) 10 0
         (start_world tt)) = OutOfFuel.
Proof.
  destruct (monitor_failed_polls_never_end (steady unavailable) (JNum 7) 10 0 7
              (start_world tt)) as [added [H _]].
  - lia.
  - intros s. exists unavailable, s. split; [reflexivity | discriminate].
  - exact H.
Defined.

Lemma monitor_interrupt_handled_witness :
  let run := monitor_rollout_until_done (interrupted_after running_3) 5 (JNum 7)
               10 60 (start_world 2%nat) in
  fst run = Ret Interrupted
  /\ exists pre,
       trace (snd run)
       = (Print MsgMonitoring :: pre
            ++ [Request (Req GET (Rollout (JNum 7)) None) (inl KeyboardInterrupt);
                Print MsgMonitorStopped])%list.
Proof.
  intros run.
  destruct (monitor_interrupt_handled (interrupted_after running_3) 5 (JNum 7)
              10 60 (start_world 2%nat)) as [added [Ht [Hki _]]].
  fold run in Ht, Hki. cbn [start_world trace app] in Ht.
  destruct (Hki (Req GET (Rollout (JNum 7)) None)) as [Hr [pre Hpre]].
  - assert (E : added = skipn 1 (trace (snd run))) by (rewrite Ht; reflexivity).
    rewrite E. vm_compute. repeat first [left; reflexivity | right].
  - split; [exact Hr|]. exists pre. rewrite Ht, Hpre. reflexivity.
Defined.

Lemma get_firmware_history_lines_witness :
  trace (snd (get_firmware_history (steady history_reply) "SN00001"
                (start_world tt)))
  = [Request (Req GET (Actions "SN00001") None) (inr history_reply);
     Print (MsgHistoryHeader "SN00001");
     Print MsgRule;
     Print (MsgHistoryLine (JStr "fw") (JStr "1.1") (JStr "closed")
              (JNum 1700000000));
     Print (MsgHistoryLine (JStr "Unknown") (JStr "N/A") (JStr "N/A")
              (JStr "N/A"));
     Print MsgRule].
Proof.
  destruct (get_firmware_history_lines (steady history_reply) "SN00001"
              (start_world tt) history_reply tt eq_refl) as [_ [_ H]].
  rewrite (H eq_refl _ _ _ eq_refl eq_refl).
  - reflexivity.
  - repeat constructor.
Defined.

Lemma check_targets_queries_every_device_witness :
  exists added,
    trace (snd (check_targets (steady unavailable) ["SN00001"; "SN00002"]
                  (start_world tt))) = added
    /\ requests_of added
       = (device_queries "SN00001" ++ device_queries "SN00002")%list.
Proof.
  destruct (check_targets_queries_every_device (steady unavailable)
              ["SN00001"; "SN00002"]) with (w := start_world tt)
    as [added [_ [Ht Hr]]].
  - intros target q s _. exists unavailable, s. split; [reflexivity | discriminate].
  - exists added. split; [exact Ht | exact Hr].
Defined.

Lemma start_rollout_gives_up_after_100_witness :
  clock created_world + 100 * Z.pos (hz created_world)
  <= clock given_up_world.
Proof.
  apply (start_rollout_gives_up_after_100 (steady never_ready) (JNum 7)
           created_world
           (skipn (List.length (trace created_world)) (trace given_up_world))).
  - vm_compute. reflexivity.
  - vm_compute. repeat first [left; reflexivity | right].
Defined.

Lemma monitor_already_ended_witness :
  fst (monitor_rollout_until_done
         (steady (Resp 200 (Some (JObj [("status", JStr "paused")])) "" 2))
         1 (JNum 7) (-1) (-5) (start_world tt))
  = Ret Ended.
Proof.
  rewrite (monitor_already_ended _ 0 (JNum 7) (-1) (-5) (start_world tt)
             (Resp 200 (Some (JObj [("status", JStr "paused")])) "" 2) tt
             [("status", JStr "paused")] eq_refl eq_refl eq_refl eq_refl).
  reflexivity.
Defined.

Lemma success_reply_without_json_raises_witness :
  fst (create_rollout (steady (Resp 201 None "" 1)) "r" "(q)" (JNum 42) 1
         "forced" (start_world tt))
  = Exc JSONDecodeError.
Proof.
  destruct (success_reply_without_json_raises (steady (Resp 201 None "" 1))
              (start_world tt) (Resp 201 None "" 1) tt eq_refl) as [H _].
  rewrite (H "r" "(q)" (JNum 42) 1 "forced" eq_refl (or_intror eq_refl)).
  reflexivity.
Defined.
